(** * functions/upload/index.js: channel dispatch, failover and the PNG
      provenance extractor

    A shallow embedding of [onRequest], [processFileUpload], the six upload
    functions, [tryRetry] and [extractAIPrompt].  JavaScript strings whose
    [length] matters are lists of UTF-16 code units; plain labels (channel names,
    error texts, paths) are [string]s.  Exceptions are explicit results,
    and the calls a request makes to the storage back ends are recorded in
    a log that the model threads along. *)

From Stdlib Require Import ZArith NArith List Bool Lia.
From Stdlib.Strings Require Import String Ascii Byte.
From Stdlib Require Import DecimalString.
Import ListNotations.
Local Open Scope string_scope.
Local Open Scope list_scope.
Local Open Scope Z_scope.
Set Warnings "-register-all".

(** ** Results of JavaScript evaluation *)

Inductive exn : Type := TypeError | SyntaxError | RangeError | OtherError.

Inductive outcome (A : Type) : Type :=
| Ret (a : A)
| Throw (e : exn).
Arguments Ret {A} a.
Arguments Throw {A} e.

Definition obind {A B} (m : outcome A) (k : A -> outcome B) : outcome B :=
  match m with
  | Ret a => k a
  | Throw e => Throw e
  end.

Notation "x <- m ;; k" := (obind m (fun x => k))
  (at level 61, m at next level, right associativity).

(** [try { body } catch (e) { handler }] *)
Definition try_catch {A} (body : outcome A) (handler : exn -> outcome A) : outcome A :=
  match body with
  | Ret a => Ret a
  | Throw e => handler e
  end.

(** ** JavaScript strings as UTF-16 code units *)

Abbreviation jsstring := (list N) (only parsing).

(** An ASCII literal as code units. *)
Definition js (s : string) : jsstring := map Byte.to_N (list_byte_of_string s).

(** [s.length] *)
Definition jslen (s : jsstring) : Z := Z.of_nat (List.length s).

Definition jseqb (a b : jsstring) : bool :=
  if list_eq_dec N.eq_dec a b then true else false.

(** [s.substring(0, n)]: a negative [n] counts as 0, a large one as the length. *)
Definition substring0 (s : jsstring) (n : Z) : jsstring := firstn (Z.to_nat n) s.

Fixpoint prefixb (p s : jsstring) : bool :=
  match p, s with
  | [], _ => true
  | a :: p', b :: s' => N.eqb a b && prefixb p' s'
  | _ :: _, [] => false
  end.

(** [s.includes(needle)] *)
Fixpoint includes (s needle : jsstring) : bool :=
  prefixb needle s ||
  match s with
  | [] => false
  | _ :: r => includes r needle
  end.

(** [s.split(sep)] for a one-unit separator: never the empty array. *)
Fixpoint split (sep : N) (s : jsstring) : list jsstring :=
  match s with
  | [] => [[]]
  | c :: r =>
      if N.eqb c sep then [] :: split sep r
      else match split sep r with
           | p :: ps => (c :: p) :: ps
           | [] => [[c]]
           end
  end.

(** [String(n)] for an array index. *)
Definition decimal (n : nat) : jsstring := js (NilZero.string_of_uint (Nat.to_uint n)).

(** ** JavaScript values, as [JSON.parse] produces them *)

(** A number is carried by what this program observes of it: whether it is
    falsy (zero) and the text [String] gives for it. *)
Record jsnum : Type := mkNum { num_is_zero : bool; num_text : jsstring }.

Inductive jsval : Type :=
| JUndef
| JNull
| JBool (b : bool)
| JNum (n : jsnum)
| JStr (s : jsstring)
| JArr (l : list jsval)
| JObj (o : list (jsstring * jsval)).

(** ToBoolean *)
Definition truthy (v : jsval) : bool :=
  match v with
  | JUndef | JNull => false
  | JBool b => b
  | JNum n => negb (num_is_zero n)
  | JStr s => match s with [] => false | _ => true end
  | JArr _ | JObj _ => true
  end.

(** [a || b] on values already evaluated. *)
Definition js_or (a b : jsval) : jsval := if truthy a then a else b.

Fixpoint own (o : list (jsstring * jsval)) (k : jsstring) : option jsval :=
  match o with
  | [] => None
  | (k', v) :: r => if jseqb k' k then Some v else own r k
  end.

(** [v.k] for the property names this file reads ([uc], [steps], [prompt], ...):
    none of them lives on a prototype, so only an object's own property is
    found; on [null] and [undefined] the access throws. *)
Definition getProp (v : jsval) (k : string) : outcome jsval :=
  match v with
  | JUndef | JNull => Throw TypeError
  | JObj o => Ret (match own o (js k) with Some x => x | None => JUndef end)
  | _ => Ret JUndef
  end.

(** [String(v)].  An array joins its elements with commas ([null] and
    [undefined] print as nothing); a plain object prints as
    [[object Object]] unless an own [toString] property, which cannot be
    callable here, hides the inherited method. *)
Fixpoint ToString (v : jsval) : outcome jsstring :=
  match v with
  | JUndef => Ret (js "undefined")
  | JNull => Ret (js "null")
  | JBool b => Ret (if b then js "true" else js "false")
  | JNum n => Ret (num_text n)
  | JStr s => Ret s
  | JArr l =>
      (fix join (l : list jsval) : outcome jsstring :=
         match l with
         | [] => Ret []
         | x :: r =>
             a <- match x with
                  | JUndef | JNull => Ret []
                  | _ => ToString x
                  end ;;
             match r with
             | [] => Ret a
             | _ :: _ => b <- join r ;; Ret (a ++ js "," ++ b)
             end
         end) l
  | JObj o =>
      match own o (js "toString") with
      | Some _ => Throw TypeError
      | None => Ret (js "[object Object]")
      end
  end.

(** A method call [v.substring(...)] or a read of [v.length] that the code
    makes on what it expects to be a string: anything else has no such
    method, and the call throws. *)
Definition asString (v : jsval) : outcome jsstring :=
  match v with
  | JStr s => Ret s
  | _ => Throw TypeError
  end.

Fixpoint asStrings (l : list jsval) : outcome (list jsstring) :=
  match l with
  | [] => Ret []
  | v :: r => s <- asString v ;; ss <- asStrings r ;; Ret (s :: ss)
  end.

(** ** Typed arrays *)

(** [Uint8Array.prototype.slice(start, end)]: negative indices count from
    the end, everything is clamped to the array. *)
Definition relIndex (len i : Z) : Z :=
  if i <? 0 then Z.max (len + i) 0 else Z.min i len.

Definition slice {A} (buf : list A) (start stop : Z) : list A :=
  let len := Z.of_nat (List.length buf) in
  let a := relIndex len start in
  let b := relIndex len stop in
  firstn (Z.to_nat (b - a)) (skipn (Z.to_nat a) buf).

Definition byteZ (b : byte) : Z := Z.of_N (Byte.to_N b).

(** [DataView.prototype.getUint32(offset)], big-endian; a read that leaves
    the buffer is a RangeError. *)
Definition getUint32 (buf : list byte) (offset : Z) : outcome Z :=
  if (offset <? 0) || (Z.of_nat (List.length buf) <? offset + 4) then Throw RangeError
  else
    match firstn 4 (skipn (Z.to_nat offset) buf) with
    | [b0; b1; b2; b3] =>
        Ret (byteZ b0 * 16777216 + byteZ b1 * 65536 + byteZ b2 * 256 + byteZ b3)
    | _ => Throw RangeError
    end.

(** ** extractAIPrompt (lines 914-1063) *)

(** The [File] handed to the extractor: its declared MIME type and bytes. *)
Record File : Type := mkFile { file_type : jsstring; file_bytes : list byte }.

(** [info], line 924. *)
Record Info : Type := mkInfo {
  prompt : jsval;
  uc : jsval;
  steps : jsval;
  seed : jsval;
  sampler : jsval;
  chars : list jsval
}.

Definition info0 : Info :=
  mkInfo (JStr []) (JStr []) (JStr []) (JStr []) (JStr []) [].

Definition set_prompt (v : jsval) (i : Info) : Info :=
  mkInfo v (uc i) (steps i) (seed i) (sampler i) (chars i).

Definition set_chars (l : list jsval) (i : Info) : Info :=
  mkInfo (prompt i) (uc i) (steps i) (seed i) (sampler i) l.

(** What the function returns when it found something. *)
Record Result : Type := mkResult {
  caption : jsstring;
  fullText : jsstring;
  needsSecondMessage : bool
}.

(** Lines 934-936: [parts = textData.split('\0')], [key = parts[0]],
    [value = parts[parts.length - 1] || '']. *)
Definition chunkKey (textData : jsstring) : jsstring :=
  nth 0 (split 0%N textData) [].

Definition chunkValue (textData : jsstring) : jsstring :=
  last (split 0%N textData) [].

(** [c => c.prompt || c], line 954. *)
Definition charPrompt (c : jsval) : outcome jsval :=
  p <- getProp c "prompt" ;; Ret (js_or p c).

Fixpoint mapPrompts (l : list jsval) : outcome (list jsval) :=
  match l with
  | [] => Ret []
  | c :: r => x <- charPrompt c ;; xs <- mapPrompts r ;; Ret (x :: xs)
  end.

(** Lines 970-973.  The character class is [_*[]()~>#+-=|{}.!]. *)
Definition escapeSet : list N :=
  [95; 42; 91; 93; 40; 41; 126; 62; 35; 43; 45; 61; 124; 123; 125; 46; 33]%N.

Definition escapeText (s : jsstring) : jsstring :=
  flat_map (fun c => if existsb (N.eqb c) escapeSet then [92%N; c] else [c]) s.

Definition escapeMd (text : jsval) : outcome jsstring :=
  if negb (truthy text) then Ret (js "N/A")
  else s <- ToString text ;; Ret (escapeText s).

Definition nl : jsstring := [10%N].
Definition fence : jsstring := js "```".

(** Line 975. *)
Definition headerStr : jsstring :=
  [55357; 56469; 55356; 57144]%N ++ js " *Elin" ++ [92%N] ++ js "'s "
  ++ [21650; 35821; 21345]%N ++ js "* " ++ [55356; 57144; 55357; 56469]%N
  ++ nl ++ nl.

(** Line 979. *)
Definition footerOf (samplerStr stepsStr seedStr : jsstring) : jsstring :=
  [55358; 56810]%N ++ js " *Sampler*: " ++ samplerStr ++ nl
  ++ [55357; 56610]%N ++ js " *Steps*: " ++ stepsStr
  ++ js "  " ++ [55356; 57266]%N ++ js " *Seed*: " ++ seedStr.

Definition bust : jsstring := [55357; 56420]%N.

(** The block printed for the character at index [idx], lines 992 and 1048. *)
Definition characterBlock (idx : nat) (body : jsstring) : jsstring :=
  bust ++ js " *Character " ++ decimal (idx + 1) ++ js "*" ++ nl
  ++ fence ++ nl ++ body ++ nl ++ fence ++ nl ++ nl.

Definition negativeBlock (body : jsstring) : jsstring :=
  [10060%N] ++ js " *Negative*" ++ nl ++ fence ++ nl ++ body ++ nl ++ fence ++ nl ++ nl.

(** The block that shows the prompt, lines 988 and 1041. *)
Definition promptBlock (title : string) (body : jsstring) : jsstring :=
  [10024%N] ++ js title ++ nl ++ fence ++ nl ++ body ++ nl ++ fence ++ nl ++ nl.

(** Lines 986-996. *)
Fixpoint fullChars (idx : nat) (l : list jsstring) : jsstring :=
  match l with
  | [] => []
  | c :: r => characterBlock idx (substring0 c 500) ++ fullChars (S idx) r
  end.

Definition fullTextOf (footerStr rawPrompt rawUc : jsstring) (rawChars : list jsstring)
  : jsstring :=
  headerStr
  ++ promptBlock " *Full Prompt*" (substring0 rawPrompt 1500)
  ++ fullChars 0 rawChars
  ++ (match rawUc with [] => [] | _ => negativeBlock (substring0 rawUc 800) end)
  ++ footerStr.

(** Lines 999-1053. *)
Definition MAX_CAPTION : Z := 1024.

Definition moreMarker : jsstring := js "...and more characters".

Definition ellipsis : jsstring := js "...".

Fixpoint captionChars (idx : nat) (l : list jsstring) : jsstring :=
  match l with
  | [] => []
  | c :: r =>
      (if jseqb c moreMarker
       then bust ++ js " *More Characters* omitted in preview." ++ nl ++ nl
       else characterBlock idx c)
      ++ captionChars (S idx) r
  end.

(** A character prompt as the truncating branch shows it, line 1022. *)
Definition clip80 (c : jsstring) : jsstring :=
  if jslen c >? 80 then substring0 c 80 ++ ellipsis else c.

(** The sum of the lengths of a list of strings. *)
Fixpoint sumLen (l : list jsstring) : Z :=
  match l with
  | [] => 0
  | c :: r => jslen c + sumLen r
  end.

Definition previewOf (footerStr rawPrompt rawUc : jsstring) (rawChars : list jsstring)
  : jsstring * bool :=
  let structureCost := jslen headerStr + jslen footerStr + 80 in
  let availableChars := MAX_CAPTION - structureCost in
  let availableChars := if availableChars <? 200 then 200 else availableChars in
  let charsTotalLen := fold_left (fun sum c => sum + jslen c) rawChars 0 in
  let totalLen := jslen rawPrompt + charsTotalLen + jslen rawUc in
  let '(previewPrompt, previewUc, previewChars, isTruncated) :=
    if totalLen >? availableChars then
      let previewUc :=
        if jslen rawUc >? 50 then substring0 rawUc 50 ++ ellipsis else rawUc in
      let previewChars := map clip80 (firstn 3 rawChars) in
      let previewChars :=
        if Z.of_nat (List.length rawChars) >? 3
        then previewChars ++ [moreMarker] else previewChars in
      let currentCharsLen :=
        fold_left (fun sum c => sum + jslen c + 30) previewChars 0 in
      let used := jslen previewUc + currentCharsLen in
      let remaining := availableChars - used in
      let previewPrompt :=
        if (jslen rawPrompt >? remaining) && (remaining >? 0)
        then substring0 rawPrompt remaining ++ ellipsis else rawPrompt in
      (previewPrompt, previewUc, previewChars, true)
    else (rawPrompt, rawUc, rawChars, false) in
  (headerStr
   ++ promptBlock " *Prompt*" previewPrompt
   ++ captionChars 0 previewChars
   ++ (match previewUc with [] => [] | _ => negativeBlock previewUc end)
   ++ footerStr,
   isTruncated).

(** Lines 976-979: the footer, from what [String] gives for the sampler,
    the steps and the seed. *)
Definition footerStrOf (info : Info) : outcome jsstring :=
  samplerStr <- escapeMd (js_or (sampler info) (JStr (js "N/A"))) ;;
  stepsStr <- escapeMd (js_or (steps info) (JStr (js "N/A"))) ;;
  seedStr <- escapeMd (js_or (seed info) (JStr (js "N/A"))) ;;
  Ret (footerOf samplerStr stepsStr seedStr).

(** The [if (found)] block: every exception in it reaches the outer
    [catch].  [rawPrompt.substring], [char.substring] and, for a truthy
    [rawUc], [rawUc.substring] are the first uses of these values, and
    throw unless they are strings. *)
Definition render (info : Info) : outcome Result :=
  footerStr <- footerStrOf info ;;
  rawPrompt <- asString (js_or (prompt info) (JStr [])) ;;
  rawChars <- asStrings (chars info) ;;
  rawUc <- asString (js_or (uc info) (JStr [])) ;;
  let preview := previewOf footerStr rawPrompt rawUc rawChars in
  Ret (mkResult (fst preview)
                (fullTextOf footerStr rawPrompt rawUc rawChars)
                (snd preview)).

Section Extractor.

(** [new TextDecoder().decode] and [JSON.parse] are the platform's. *)
Variable decode : list byte -> jsstring.
Variable JSON_parse : jsstring -> outcome jsval.

(** The inner [try] (lines 943-957) on the current [info]: what was
    assigned before an exception stays assigned. *)
Definition commentTry (value : jsstring) (info : Info) : Info * outcome unit :=
  match JSON_parse value with
  | Throw e => (info, Throw e)
  | Ret json =>
      match getProp json "uc" with
      | Throw e => (info, Throw e)
      | Ret juc =>
          let p k := match getProp json k with Ret x => x | Throw _ => JUndef end in
          let info :=
            mkInfo (if truthy (p "prompt") then p "prompt" else prompt info)
                   (js_or juc (js_or (p "negative_prompt") (JStr [])))
                   (js_or (p "steps") (JStr []))
                   (js_or (p "seed") (JStr []))
                   (js_or (p "sampler") (js_or (p "sampler_name") (JStr (js "N/A"))))
                   (chars info) in
          match js_or (p "characterPrompts") (js_or (p "character_prompts") (JArr [])) with
          | JArr l =>
              match mapPrompts l with
              | Throw e => (info, Throw e)
              | Ret l' => (set_chars (filter truthy l') info, Ret tt)
              end
          | _ => (info, Ret tt)
          end
      end
  end.

(** Lines 932-964: one [tEXt] or [iTXt] chunk, decoded. *)
Definition onText (textData : jsstring) (st : Info * bool) : Info * bool :=
  let key := chunkKey textData in
  let value := chunkValue textData in
  if jseqb key (js "Description") then (set_prompt (JStr value) (fst st), true)
  else if jseqb key (js "Comment") then
    match commentTry value (fst st) with
    | (info, Ret _) => (info, true)
    | (info, Throw _) =>
        if includes value (js "masterpiece")
        then (set_prompt (JStr value) info, true)
        else (info, snd st)
    end
  else st.

(** Lines 929-965: the chunk whose header starts at [offset] and announces
    [len] bytes of data. *)
Definition visitChunk (uint8 : list byte) (offset len : Z) (st : Info * bool)
  : Info * bool :=
  let type := decode (slice uint8 (offset + 4) (offset + 8)) in
  if jseqb type (js "tEXt") || jseqb type (js "iTXt")
  then onText (decode (slice uint8 (offset + 8) (offset + 8 + len))) st
  else st.

(** The [while] loop of line 927; [fuel] bounds the number of turns. *)
Fixpoint walk (fuel : nat) (uint8 : list byte) (offset : Z) (st : Info * bool)
  : outcome (Info * bool) :=
  match fuel with
  | O => Ret st
  | S fuel' =>
      if offset <? Z.of_nat (List.length uint8) - 8 then
        len <- getUint32 uint8 offset ;;
        walk fuel' uint8 (offset + 12 + len) (visitChunk uint8 offset len st)
      else Ret st
  end.

(** The function, with the slices of the file it reads.  Every turn of the
    loop moves [offset] by twelve bytes at least, so the length of the
    buffer is fuel enough ([walk_fuel] below). *)
Definition extractAIPrompt (file : File) : list (Z * Z) * outcome (option Result) :=
  if negb (jseqb (file_type file) (js "image/png")) then ([], Ret None)
  else
    ([(0, 262144)],
     try_catch
       (let uint8 := slice (file_bytes file) 0 262144 in
        st <- walk (List.length uint8) uint8 8 (info0, false) ;;
        if snd st then r <- render (fst st) ;; Ret (Some r) else Ret None)
       (fun _ => Ret None)).

End Extractor.

(** ** Responses, request parameters and the metadata record *)

(** A dictionary from labels to texts, as a plain object in insertion
    order: [o[k] = v]. *)
Definition Dict : Type := list (string * string).

Fixpoint dictSet (o : Dict) (k v : string) : Dict :=
  match o with
  | [] => [(k, v)]
  | (k', v') :: r =>
      if String.eqb k' k then (k, v) :: r else (k', v') :: dictSet r k v
  end.

Definition keys (o : Dict) : list string := map fst o.

(** Every text of a dictionary is non-empty. *)
Definition textsNonEmpty (o : Dict) : Prop :=
  Forall (fun kv => snd kv <> EmptyString) o.

(** The text of a response: plain, or the JSON text of a value, kept as
    the value: [SrcBody link] is [JSON.stringify([{ src: link }])] and
    [DictBody d] is [JSON.stringify(d)]. *)
Inductive Body : Type :=
| TextBody (s : string)
| SrcBody (link : string)
| DictBody (d : Dict).

Record Response : Type := mkResponse { status : Z; body : Body }.

(** [createResponse(body, { status })] of uploadTools. *)
Definition createResponse (body : Body) (status : Z) : Response :=
  mkResponse status body.

(** [url.searchParams]: [get] gives the first value of a name, [set]
    replaces it (and drops later ones) or appends. *)
Definition SearchParams : Type := list (string * string).

Fixpoint spGet (sp : SearchParams) (k : string) : option string :=
  match sp with
  | [] => None
  | (k', v) :: r => if String.eqb k' k then Some v else spGet r k
  end.

Fixpoint spSet (sp : SearchParams) (k v : string) : SearchParams :=
  match sp with
  | [] => [(k, v)]
  | (k', v') :: r =>
      if String.eqb k' k
      then (k, v) :: filter (fun kv => negb (String.eqb (fst kv) k)) r
      else (k', v') :: spSet r k v
  end.

(** [(bytes / 1024 / 1024).toFixed(2)] for a size in bytes.  Both divisions
    are exact in a double, so the text is [bytes / 2^20] rounded half up to
    hundredths. *)
Definition toFixedMB (bytes : Z) : string :=
  let n := (200 * bytes + 1048576) / 2097152 in
  let digits (z : Z) := NilZero.string_of_uint (N.to_uint (Z.to_N z)) in
  let cents := n mod 100 in
  (digits (n / 100) ++ "." ++ (if Z.ltb cents 10 then "0" else "") ++ digits cents)%string.

(** The metadata object of line 161.  [LabelZh] is the property the source
    names in Chinese; [Dimensions] stands for [Width] and [Height];
    [Channel], [ChannelName] and [Label] are absent until a back end sets
    them, and the other fields a back end adds are kept as a dictionary. *)
Record Metadata : Type := mkMetadata {
  FileName : string;
  FileType : string;
  FileSize : string;
  FileSizeBytes : Z;
  UploadIP : string;
  UploadAddress : string;
  ListType : string;
  TimeStamp : Z;
  LabelZh : string;
  Directory : string;
  Tags : list string;
  Dimensions : option (Z * Z);
  Channel : option string;
  ChannelName : option string;
  Label : option string;
  Extra : Dict
}.

(** ** Folder normalisation (lines 150-159) *)

(** Whether [s] begins with a slash. *)
Definition startsSlash (s : string) : bool :=
  match s with
  | String c _ => Ascii.eqb c "/"
  | EmptyString => false
  end.

(** [s.replace(/^\/+/, '')] *)
Fixpoint stripLeadingSlashes (s : string) : string :=
  match s with
  | String c r => if Ascii.eqb c "/" then stripLeadingSlashes r else s
  | EmptyString => EmptyString
  end.

(** [s.replace(/\/{2,}/g, '/')]: of each run of slashes one is kept. *)
Fixpoint collapseSlashes (s : string) : string :=
  match s with
  | EmptyString => EmptyString
  | String c r =>
      if Ascii.eqb c "/" && startsSlash r then collapseSlashes r
      else String c (collapseSlashes r)
  end.

(** [s.replace(/\/$/, '')] *)
Fixpoint stripTrailingSlash (s : string) : string :=
  match s with
  | EmptyString => EmptyString
  | String c r =>
      match r with
      | EmptyString => if Ascii.eqb c "/" then EmptyString else s
      | String _ _ => String c (stripTrailingSlash r)
      end
  end.

(** [s.split(c)] for a one-character separator. *)
Fixpoint splitOn (c : ascii) (s : string) : list string :=
  match s with
  | EmptyString => [EmptyString]
  | String a r =>
      if Ascii.eqb a c then EmptyString :: splitOn c r
      else match splitOn c r with
           | p :: ps => String a p :: ps
           | [] => [String a EmptyString]
           end
  end.

(** [fileName.split('/').slice(0, -1).join('/')] *)
Definition folderOfName (fileName : string) : string :=
  String.concat "/" (removelast (splitOn "/"%char fileName)).

Definition normalizeFolder (uploadFolder : string) : string :=
  match uploadFolder with
  | EmptyString => EmptyString
  | _ => stripTrailingSlash (collapseSlashes (stripLeadingSlashes uploadFolder))
  end.

(** Lines 95 and 151-159: the folder named by the request, or else the one
    in the file name, normalised. *)
Definition normalizedFolderOf (sp : SearchParams) (fileName : string) : string :=
  let uploadFolder :=
    match spGet sp "uploadFolder" with
    | Some f => f
    | None => EmptyString
    end in
  let uploadFolder :=
    match uploadFolder with
    | EmptyString => folderOfName fileName
    | _ => uploadFolder
    end in
  normalizeFolder uploadFolder.

(** Line 171. *)
Definition directoryOf (normalizedFolder : string) : string :=
  match normalizedFolder with
  | EmptyString => EmptyString
  | _ => normalizedFolder ++ "/"
  end.

(** What the statements about paths say. *)
Definition beginsWithSlash (s : string) : Prop := exists r, s = String "/" r.

Definition endsWithSlash (s : string) : Prop := exists p, s = (p ++ "/")%string.

Definition hasDoubleSlash (s : string) : Prop := exists p q, s = (p ++ "//" ++ q)%string.

(** The same, computed. *)
Fixpoint endsSlash (s : string) : bool :=
  match s with
  | EmptyString => false
  | String c r =>
      match r with
      | EmptyString => Ascii.eqb c "/"
      | String _ _ => endsSlash r
      end
  end.

Fixpoint doubleSlash (s : string) : bool :=
  match s with
  | EmptyString => false
  | String c r => (Ascii.eqb c "/" && startsSlash r) || doubleSlash r
  end.

(** ** Channel selection (lines 97-120) *)

(** The values of the [uploadChannel] parameter the [switch] names. *)
Definition recognizedChannels : list string :=
  ["telegram"; "cfr2"; "s3"; "discord"; "huggingface"; "external"].

Definition selectUploadChannel (urlParamUploadChannel : option string) : string :=
  match urlParamUploadChannel with
  | Some p =>
      if String.eqb p "telegram" then "TelegramNew"
      else if String.eqb p "cfr2" then "CloudflareR2"
      else if String.eqb p "s3" then "S3"
      else if String.eqb p "discord" then "Discord"
      else if String.eqb p "huggingface" then "HuggingFace"
      else if String.eqb p "external" then "External"
      else "TelegramNew"
  | None => "TelegramNew"
  end.

(** ** The objects one request shares, and the log of back-end attempts *)

(** [formdata.get('file')]: [type] and [name] may be missing when the form
    field is not a file. *)
Record FormFile : Type := mkFormFile {
  ftype : option string;
  fname : option string;
  fsize : Z
}.

(** What the upload functions receive besides the shared objects. *)
Record UploadArgs : Type := mkUploadArgs {
  fullId : string;
  fileExt : string;
  fileName : string;
  fileType : string;
  returnLink : string
}.

(** The objects passed by reference through one request: the [context]
    (its URL parameters and chosen channel name), the [metadata] object,
    and the rest of the world (configuration, database, remote services). *)
Record Store (W : Type) : Type := mkStore {
  searchParams : SearchParams;
  specifiedChannelName : option string;
  metadata : Metadata;
  world : W
}.
Arguments mkStore {W}.
Arguments searchParams {W}.
Arguments specifiedChannelName {W}.
Arguments metadata {W}.
Arguments world {W}.

(** One call of an upload function: the family, the [serverCompress]
    parameter it could read, and what it gave back. *)
Record Attempt : Type := mkAttempt {
  family : string;
  compressFlag : option string;
  result : outcome Response
}.

(** An attempt succeeded when it returned a response with status 200. *)
Definition succeeded (r : outcome Response) : bool :=
  match r with
  | Ret res => status res =? 200
  | Throw _ => false
  end.

(** An attempt failed when it returned a response with another status. *)
Definition failed (r : outcome Response) : Prop :=
  exists res, r = Ret res /\ status res <> 200.

Section Orchestrator.

Variable W : Type.

(** Computations on the shared objects that may throw, with the log. *)
Definition M (A : Type) : Type :=
  Store W * list Attempt -> outcome A * (Store W * list Attempt).

Definition mret {A} (a : A) : M A := fun s => (Ret a, s).

Definition mbind {A B} (m : M A) (k : A -> M B) : M B :=
  fun s =>
    match m s with
    | (Ret a, s') => k a s'
    | (Throw e, s') => (Throw e, s')
    end.

Notation "x <~ m ;; k" := (mbind m (fun x => k))
  (at level 61, m at next level, right associativity).

(** An upload function: it may change the shared objects and may throw. *)
Definition Uploader : Type :=
  UploadArgs -> Store W -> outcome Response * Store W.

Variable uploadFileToCloudflareR2 : Uploader.
Variable uploadFileToS3 : Uploader.
Variable uploadFileToTelegram : Uploader.
Variable uploadFileToExternal : Uploader.
Variable uploadFileToDiscord : Uploader.
Variable uploadFileToHuggingFace : Uploader.

(** [JSON.stringify], for the two shapes of value this file serialises. *)
Variable JSON_src : string -> string.
Variable JSON_dict : Dict -> string.

(** [await res.text()] *)
Definition text (res : Response) : string :=
  match body res with
  | TextBody s => s
  | SrcBody link => JSON_src link
  | DictBody d => JSON_dict d
  end.

(** The entry a call leaves in the log. *)
Definition logged (fam : string) (st : Store W) (r : outcome Response) : Attempt :=
  mkAttempt fam (spGet (searchParams st) "serverCompress") r.

(** [await upload(context, fullId, metadata, ...)], logged. *)
Definition call (fam : string) (up : Uploader) (args : UploadArgs) : M Response :=
  fun s =>
    let '(st, log) := s in
    let '(r, st') := up args st in
    (r, (st', log ++ [logged fam st r])).

(** The chain of comparisons of lines 869-879 and 892-902; [None] is the
    [null] a name outside the chain leaves in [res]. *)
Definition callChannel (ch : string) (args : UploadArgs) : M (option Response) :=
  if String.eqb ch "CloudflareR2" then
    r <~ call ch uploadFileToCloudflareR2 args ;; mret (Some r)
  else if String.eqb ch "TelegramNew" then
    r <~ call ch uploadFileToTelegram args ;; mret (Some r)
  else if String.eqb ch "S3" then
    r <~ call ch uploadFileToS3 args ;; mret (Some r)
  else if String.eqb ch "HuggingFace" then
    r <~ call ch uploadFileToHuggingFace args ;; mret (Some r)
  else if String.eqb ch "Discord" then
    r <~ call ch uploadFileToDiscord args ;; mret (Some r)
  else mret None.

(** The upload function the chain gives a family its turn with. *)
Definition uploaderOf (ch : string) : option Uploader :=
  if String.eqb ch "CloudflareR2" then Some uploadFileToCloudflareR2
  else if String.eqb ch "TelegramNew" then Some uploadFileToTelegram
  else if String.eqb ch "S3" then Some uploadFileToS3
  else if String.eqb ch "HuggingFace" then Some uploadFileToHuggingFace
  else if String.eqb ch "Discord" then Some uploadFileToDiscord
  else None.

(** Line 862. *)
Definition channelList : list string :=
  ["CloudflareR2"; "TelegramNew"; "S3"; "HuggingFace"; "Discord"].

(** The families the loop gives a turn: the list without the original one. *)
Definition others (uploadChannel : string) (rest : list string) : list string :=
  filter (fun c => negb (String.eqb c uploadChannel)) rest.

(** [url.searchParams.set('serverCompress', 'false')], line 867. *)
Definition disableServerCompress : M unit :=
  fun s =>
    let '(st, log) := s in
    (Ret tt,
     (mkStore (spSet (searchParams st) "serverCompress" "false")
              (specifiedChannelName st) (metadata st) (world st),
      log)).

(** The [for] loop of lines 889-910 over what is left of [channelList]. *)
Fixpoint switchChannels (rest : list string) (uploadChannel : string)
         (args : UploadArgs) (errMessages : Dict) : M Response :=
  match rest with
  | [] => mret (createResponse (DictBody errMessages) 500)
  | c :: rest' =>
      if negb (String.eqb c uploadChannel) then
        res <~ callChannel c args ;;
        match res with
        | Some res =>
            if status res =? 200 then mret res
            else switchChannels rest' uploadChannel args
                   (dictSet errMessages c ("Error: " ++ c ++ text res))
        | None => switchChannels rest' uploadChannel args errMessages
        end
      else switchChannels rest' uploadChannel args errMessages
  end.

(** [tryRetry], lines 858-913. *)
Definition tryRetry (err : string) (uploadChannel : string) (args : UploadArgs)
  : M Response :=
  let errMessages := dictSet [] uploadChannel ("Error: " ++ uploadChannel ++ err) in
  _ <~ disableServerCompress ;;
  retryRes <~ callChannel uploadChannel args ;;
  match retryRes with
  | Some res =>
      if status res =? 200 then mret res
      else switchChannels channelList uploadChannel args
             (dictSet errMessages (uploadChannel ++ "_retry")
                      ("Error: " ++ uploadChannel ++ " retry - " ++ text res))
  | None => switchChannels channelList uploadChannel args errMessages
  end.

(** The log lines [l] are calls made one after the other: the first is the
    upload function of its family run on the shared objects [s], each next
    one runs on what the call before it left, and the last one leaves
    [s']. *)
Fixpoint callsFrom (args : UploadArgs) (s : Store W) (l : list Attempt) (s' : Store W)
  : Prop :=
  match l with
  | [] => s' = s
  | a :: l' =>
      exists up,
        uploaderOf (family a) = Some up /\
        a = logged (family a) s (fst (up args s)) /\
        callsFrom args (snd (up args s)) l' s'
  end.

(** What [processFileUpload] takes from the request and from its helpers
    ([getUploadIp], [getIPAddress], [getImageDimensions], [isExtValid],
    [buildUniqueFileId], the clock). *)
Record Request : Type := mkRequest {
  req_searchParams : SearchParams;
  req_origin : string;
  req_file : FormFile;
  req_uploadIp : string;
  req_ipAddress : string;
  req_time : Z;
  req_imageDimensions : option (Z * Z);
  req_isExtValid : string -> bool;
  req_fullId : string
}.

(** Lines 181-189. *)
Definition fileExtOf (isExtValid : string -> bool) (fileName fileType : string)
  : string :=
  let fileExt := last (splitOn "."%char fileName) EmptyString in
  if isExtValid fileExt then fileExt
  else
    let fileExt := last (splitOn "/"%char fileType) EmptyString in
    if String.eqb fileExt fileType || String.eqb fileExt EmptyString
    then "unknown" else fileExt.

(** Line 161. *)
Definition initialMetadata (req : Request) (fileName fileType : string) : Metadata :=
  let fileSizeBytes := fsize (req_file req) in
  mkMetadata fileName fileType (toFixedMB fileSizeBytes) fileSizeBytes
             (req_uploadIp req) (req_ipAddress req) "None" (req_time req) "None"
             (directoryOf (normalizedFolderOf (req_searchParams req) fileName))
             [] (req_imageDimensions req) None None None [].

(** Lines 194-205. *)
Definition uploadArgsOf (req : Request) (fileName fileType : string) : UploadArgs :=
  let returnFormat :=
    match spGet (req_searchParams req) "returnFormat" with
    | Some EmptyString | None => "default"
    | Some f => f
    end in
  let returnLink :=
    if String.eqb returnFormat "full"
    then (req_origin req ++ "/file/" ++ req_fullId req)%string
    else ("/file/" ++ req_fullId req)%string in
  mkUploadArgs (req_fullId req) (fileExtOf (req_isExtValid req) fileName fileType)
               fileName fileType returnLink.

Definition autoRetryOf (sp : SearchParams) : bool :=
  match spGet sp "autoRetry" with
  | Some v => negb (String.eqb v "false")
  | None => true
  end.

(** The shared objects as the first upload finds them (lines 123 and 161). *)
Definition initialStore (req : Request) (fileName fileType : string) (w : W) : Store W :=
  mkStore (req_searchParams req)
          (match spGet (req_searchParams req) "channelName" with
           | Some EmptyString | None => None
           | Some n => Some n
           end)
          (initialMetadata req fileName fileType) w.

(** The first upload of lines 209-253 and what follows it. *)
Definition firstUpload (uploadChannel : string) (autoRetry : bool) (args : UploadArgs)
  : M Response :=
  let withRetry (up : Uploader) : M Response :=
    res <~ call uploadChannel up args ;;
    if (status res =? 200) || negb autoRetry then mret res
    else tryRetry (text res) uploadChannel args in
  if String.eqb uploadChannel "CloudflareR2" then withRetry uploadFileToCloudflareR2
  else if String.eqb uploadChannel "S3" then withRetry uploadFileToS3
  else if String.eqb uploadChannel "Discord" then withRetry uploadFileToDiscord
  else if String.eqb uploadChannel "HuggingFace" then withRetry uploadFileToHuggingFace
  else if String.eqb uploadChannel "External" then
    call uploadChannel uploadFileToExternal args
  else withRetry uploadFileToTelegram.

(** [processFileUpload], lines 76-258, run on a world [w]: the response,
    and the shared objects and the log as the request leaves them. *)
Definition processFileUpload (req : Request) (w : W)
  : outcome Response * (option (Store W) * list Attempt) :=
  let uploadChannel :=
    selectUploadChannel (spGet (req_searchParams req) "uploadChannel") in
  match ftype (req_file req), fname (req_file req) with
  | Some fileType, Some fileName =>
      let '(r, (st, log)) :=
        firstUpload uploadChannel (autoRetryOf (req_searchParams req))
                    (uploadArgsOf req fileName fileType)
                    (initialStore req fileName fileType w, []) in
      (r, (Some st, log))
  | _, _ =>
      (Ret (createResponse
              (TextBody
                 "Error: fileType or fileName is wrong, check the integrity of this file!")
              400),
       (None, []))
  end.

End Orchestrator.

(** ** uploadFileToDiscord (lines 640-734) *)

Module Discord.

(** One entry of [uploadConfig.discord.channels]; a missing property is [None]. *)
Record DiscordChannel : Type := mkDiscordChannel {
  dc_name : option string;
  dc_botToken : option string;
  dc_channelId : option string;
  dc_isNitro : option bool;
  dc_proxyUrl : option string
}.

(** [uploadConfig.discord]; [ds_loadBalance] is [loadBalance?.enabled]. *)
Record DiscordSettings : Type := mkDiscordSettings {
  ds_channels : option (list DiscordChannel);
  ds_loadBalance : option bool
}.

(** [discordAPI.getFileInfo(response)] *)
Record DiscordFileInfo : Type := mkDiscordFileInfo {
  info_file_size : Z;
  info_message_id : string;
  info_url : string
}.

(** What [discordAPI.sendFile] followed by [getFileInfo] does. *)
Inductive DiscordSend : Type :=
| SendThrows (message : string)
| SendReturns (info : option DiscordFileInfo).

(** What [moderateContent] does: it gives a label, or throws. *)
Inductive DiscordModerate : Type :=
| ModerateThrows (message : string)
| ModerateReturns (label : string).

(** The calls the function makes outside itself. *)
Inductive Event : Type :=
| EvSendFile (channelId fileName : string)
| EvModerate (url : string)
| EvDbPut (id : string) (meta : Metadata)
| EvEndUpload (id : string).

(** The world as this function sees it: configuration, the uploaded file,
    the draw [Math.random] would give, the answers of the remote services,
    and the calls made so far. *)
Record DiscordWorld : Type := mkDiscordWorld {
  dw_settings : option DiscordSettings;
  dw_file : FormFile;
  dw_random : nat;
  dw_send : DiscordSend;
  dw_moderate : string -> DiscordModerate;
  dw_dbPutFails : bool;
  dw_events : list Event
}.

Definition emit (e : Event) (w : DiscordWorld) : DiscordWorld :=
  mkDiscordWorld (dw_settings w) (dw_file w) (dw_random w) (dw_send w)
                 (dw_moderate w) (dw_dbPutFails w) (dw_events w ++ [e]).

(** Truthiness of a string property that may be missing. *)
Definition present (o : option string) : bool :=
  match o with
  | Some (String _ _) => true
  | _ => false
  end.

(** [o || d] *)
Definition orDefault (o : option string) (d : string) : string :=
  match o with
  | Some (String _ _ as s) => s
  | _ => d
  end.

Fixpoint stripPrefix (p s : string) : option string :=
  match p, s with
  | EmptyString, _ => Some s
  | String a p', String b s' => if Ascii.eqb a b then stripPrefix p' s' else None
  | String _ _, EmptyString => None
  end.

(** What stands before and after the first occurrence of [pat] in [s]. *)
Fixpoint findFirst (pat s : string) : option (string * string) :=
  match stripPrefix pat s with
  | Some after => Some (EmptyString, after)
  | None =>
      match s with
      | EmptyString => None
      | String c r =>
          match findFirst pat r with
          | Some (before, after) => Some (String c before, after)
          | None => None
          end
      end
  end.

Local Open Scope char_scope.

(** The replacement text of [String.prototype.replace] for a string
    pattern: [$$], [$&], [$`] and [$'] are expanded. *)
Fixpoint substitution (rep matched before after : string) : string :=
  match rep with
  | EmptyString => EmptyString
  | String c r =>
      match c, r with
      | "$", String "$" r' => String "$" (substitution r' matched before after)
      | "$", String "&" r' => (matched ++ substitution r' matched before after)%string
      | "$", String "`" r' => (before ++ substitution r' matched before after)%string
      | "$", String "'" r' => (after ++ substitution r' matched before after)%string
      | _, _ => String c (substitution r matched before after)
      end
  end.

Local Close Scope char_scope.

(** [s.replace(pat, rep)] for a string [pat]: the first occurrence only. *)
Definition replaceFirst (s pat rep : string) : string :=
  match findFirst pat s with
  | Some (before, after) => (before ++ substitution rep pat before after ++ after)%string
  | None => s
  end.

(** Lines 650-660. *)
Definition selectDiscordChannel (settings : DiscordSettings)
           (channels : list DiscordChannel) (specified : option string) (rnd : nat)
  : option DiscordChannel :=
  let byName :=
    if present specified then
      find (fun ch =>
              match dc_name ch, specified with
              | Some n, Some m => String.eqb n m
              | _, _ => false
              end) channels
    else None in
  match byName with
  | Some ch => Some ch
  | None =>
      match ds_loadBalance settings with
      | Some true => nth_error channels (Nat.modulo rnd (List.length channels))
      | _ => nth_error channels 0
      end
  end.

(** [discordChannel.isNitro || false], line 671. *)
Definition isNitroOf (ch : DiscordChannel) : bool :=
  match dc_isNitro ch with
  | Some b => b
  | None => false
  end.

(** Line 672. *)
Definition DISCORD_MAX_SIZE (isNitro : bool) : Z :=
  if isNitro then 25 * 1024 * 1024 else 10 * 1024 * 1024.

Definition withWorld (st : Store DiscordWorld) (m : Metadata) (w : DiscordWorld)
  : Store DiscordWorld :=
  mkStore (searchParams st) (specifiedChannelName st) m w.

(** Lines 680-733: the [try] block, after the size check. *)
Definition discordTransfer (args : UploadArgs) (ch : DiscordChannel)
           (channelId botToken : string) (st : Store DiscordWorld)
  : outcome Response * Store DiscordWorld :=
  let m := metadata st in
  let w := emit (EvSendFile channelId (FileName m)) (world st) in
  match dw_send w with
  | SendThrows message =>
      (Ret (createResponse (TextBody ("Error: Discord upload failed - " ++ message)) 500),
       withWorld st m w)
  | SendReturns None =>
      (Ret (createResponse
              (TextBody
                 "Error: Discord upload failed - Failed to get file info from Discord response")
              500),
       withWorld st m w)
  | SendReturns (Some fileInfo) =>
      let extra :=
        dictSet (dictSet (dictSet (Extra m)
          "DiscordMessageId" (info_message_id fileInfo))
          "DiscordChannelId" channelId)
          "DiscordBotToken" botToken in
      let extra :=
        if present (dc_proxyUrl ch)
        then dictSet extra "DiscordProxyUrl" (orDefault (dc_proxyUrl ch) EmptyString)
        else extra in
      let moderateUrl :=
        if present (dc_proxyUrl ch)
        then replaceFirst (info_url fileInfo) "https://cdn.discordapp.com"
               ("https://" ++ orDefault (dc_proxyUrl ch) EmptyString)
        else info_url fileInfo in
      let updated (label : option string) :=
        mkMetadata (FileName m) (FileType m) (toFixedMB (info_file_size fileInfo))
                   (FileSizeBytes m) (UploadIP m) (UploadAddress m) (ListType m)
                   (TimeStamp m) (LabelZh m) (Directory m) (Tags m)
                   (Dimensions m) (Some "Discord")
                   (Some (orDefault (dc_name ch) "Discord_env"))
                   label extra in
      let w := emit (EvModerate moderateUrl) w in
      match dw_moderate w moderateUrl with
      | ModerateThrows message =>
          (Ret (createResponse (TextBody ("Error: Discord upload failed - " ++ message))
                               500),
           withWorld st (updated (Label m)) w)
      | ModerateReturns label =>
          let m := updated (Some label) in
          let w := emit (EvDbPut (fullId args) m) w in
          if dw_dbPutFails w then
            (Ret (createResponse (TextBody "Error: Failed to write to KV database") 500),
             withWorld st m w)
          else
            let w := emit (EvEndUpload (fullId args)) w in
            (Ret (createResponse (SrcBody (returnLink args)) 200), withWorld st m w)
      end
  end.

Definition uploadFileToDiscord (args : UploadArgs) (st : Store DiscordWorld)
  : outcome Response * Store DiscordWorld :=
  let notConfigured :=
    (Ret (createResponse (TextBody "Error: No Discord channel configured") 400), st) in
  let notProperly :=
    (Ret (createResponse (TextBody "Error: Discord channel not properly configured") 400),
     st) in
  match dw_settings (world st) with
  | None => notConfigured
  | Some discordSettings =>
      match ds_channels discordSettings with
      | None | Some [] => notConfigured
      | Some discordChannels =>
          let discordChannel :=
            selectDiscordChannel discordSettings discordChannels
                                 (specifiedChannelName st) (dw_random (world st)) in
          match discordChannel with
          | Some ch =>
              if present (dc_botToken ch) && present (dc_channelId ch) then
                let fileSize := fsize (dw_file (world st)) in
                let isNitro := isNitroOf ch in
                if fileSize >? DISCORD_MAX_SIZE isNitro then
                  let limitMB := if isNitro then "25" else "10" in
                  (Ret (createResponse
                          (TextBody ("Error: File size exceeds Discord limit (" ++ limitMB
                                       ++ "MB), please use another channel"))
                          413),
                   st)
                else
                  discordTransfer args ch
                    (orDefault (dc_channelId ch) EmptyString)
                    (orDefault (dc_botToken ch) EmptyString) st
              else notProperly
          | None => notProperly
          end
      end
  end.

End Discord.

(** ** What the other upload functions share *)

(** What an awaited call of a service gives: a value, or an exception with
    its [message]. *)
Inductive Answer (A : Type) : Type :=
| Thrown (message : string)
| Returned (a : A).
Arguments Thrown {A} message.
Arguments Returned {A} a.

(** The shared objects with [metadata] and the world replaced. *)
Definition putStore {W} (st : Store W) (m : Metadata) (w : W) : Store W :=
  mkStore (searchParams st) (specifiedChannelName st) m w.

(** The shared objects after [url.searchParams.set('serverCompress',
    'false')]. *)
Definition withoutCompression {W} (st : Store W) : Store W :=
  mkStore (spSet (searchParams st) "serverCompress" "false")
          (specifiedChannelName st) (metadata st) (world st).

(** [metadata.Channel = channel; metadata.ChannelName = channelName]; a
    [channelName] of [None] is the [undefined] of a channel without name. *)
Definition setChannel (channel : string) (channelName : option string) (m : Metadata)
  : Metadata :=
  mkMetadata (FileName m) (FileType m) (FileSize m) (FileSizeBytes m) (UploadIP m)
             (UploadAddress m) (ListType m) (TimeStamp m) (LabelZh m) (Directory m)
             (Tags m) (Dimensions m) (Some channel) channelName (Label m) (Extra m).

(** [metadata.Label = label] *)
Definition setLabel (label : string) (m : Metadata) : Metadata :=
  mkMetadata (FileName m) (FileType m) (FileSize m) (FileSizeBytes m) (UploadIP m)
             (UploadAddress m) (ListType m) (TimeStamp m) (LabelZh m) (Directory m)
             (Tags m) (Dimensions m) (Channel m) (ChannelName m) (Some label) (Extra m).

(** [metadata.FileSize = fileSize] *)
Definition setFileSize (fileSize : string) (m : Metadata) : Metadata :=
  mkMetadata (FileName m) (FileType m) fileSize (FileSizeBytes m) (UploadIP m)
             (UploadAddress m) (ListType m) (TimeStamp m) (LabelZh m) (Directory m)
             (Tags m) (Dimensions m) (Channel m) (ChannelName m) (Label m) (Extra m).

(** [metadata[k] = v] for a property a back end adds. *)
Definition setExtra (k v : string) (m : Metadata) : Metadata :=
  mkMetadata (FileName m) (FileType m) (FileSize m) (FileSizeBytes m) (UploadIP m)
             (UploadAddress m) (ListType m) (TimeStamp m) (LabelZh m) (Directory m)
             (Tags m) (Dimensions m) (Channel m) (ChannelName m) (Label m)
             (dictSet (Extra m) k v).

(** [o[k]] *)
Fixpoint dictGet (o : Dict) (k : string) : option string :=
  match o with
  | [] => None
  | (k', v) :: r => if String.eqb k' k then Some v else dictGet r k
  end.

(** [if (specifiedChannelName) channel = channels.find(ch => ch.name ===
    specifiedChannelName)], the same in every upload function. *)
Definition channelNamed {C} (name : C -> option string) (specified : option string)
           (channels : list C) : option C :=
  if Discord.present specified then
    find (fun ch =>
            match name ch, specified with
            | Some n, Some m => String.eqb n m
            | _, _ => false
            end) channels
  else None.

(** What a template literal prints for a property that may be missing. *)
Definition templateText (o : option string) : string :=
  match o with
  | Some s => s
  | None => "undefined"
  end.

(** ** uploadFileToCloudflareR2 (lines 261-321) *)

Module R2.

(** One entry of [uploadConfig.cfr2.channels]. *)
Record R2Channel : Type := mkR2Channel {
  rc_name : option string;
  rc_publicUrl : option string
}.

Inductive Event : Type :=
| EvBucketPut (id : string)
| EvModerate (url : string)
| EvDbPut (id : string) (meta : Metadata)
| EvEndUpload (id : string).

(** The world as this function sees it: whether [env.img_r2] is bound,
    [uploadConfig.cfr2] (absent, or its [channels], which may be absent
    too), what the bucket, the moderation service and the database answer,
    and the calls made so far. *)
Record R2World : Type := mkR2World {
  rw_bucketBound : bool;
  rw_settings : option (option (list R2Channel));
  rw_bucketPut : Answer unit;
  rw_moderate : string -> Answer string;
  rw_dbPutFails : bool;
  rw_events : list Event
}.

Definition emit (e : Event) (w : R2World) : R2World :=
  mkR2World (rw_bucketBound w) (rw_settings w) (rw_bucketPut w) (rw_moderate w)
            (rw_dbPutFails w) (rw_events w ++ [e]).

(** Lines 290-320, after the object was put in the bucket. *)
Definition recordUpload (args : UploadArgs) (r2Channel : R2Channel)
           (st : Store R2World) (w : R2World)
  : outcome Response * Store R2World :=
  let m := setChannel "CloudflareR2"
                      (Some (Discord.orDefault (rc_name r2Channel) "R2_env"))
                      (metadata st) in
  let moderateUrl := (templateText (rc_publicUrl r2Channel) ++ "/" ++ fullId args)%string in
  let w := emit (EvModerate moderateUrl) w in
  match rw_moderate w moderateUrl with
  | Thrown _ => (Throw OtherError, putStore st m w)
  | Returned label =>
      let m := setLabel label m in
      let w := emit (EvDbPut (fullId args) m) w in
      if rw_dbPutFails w then
        (Ret (createResponse (TextBody "Error: Failed to write to database") 500),
         putStore st m w)
      else
        let w := emit (EvEndUpload (fullId args)) w in
        (Ret (createResponse (SrcBody (returnLink args)) 200), putStore st m w)
  end.

Definition uploadFileToCloudflareR2 (args : UploadArgs) (st : Store R2World)
  : outcome Response * Store R2World :=
  let w := world st in
  if negb (rw_bucketBound w) then
    (Ret (createResponse (TextBody "Error: Please configure R2 database") 500), st)
  else
    match rw_settings w with
    | None => (Throw TypeError, st)
    | Some None | Some (Some []) =>
        (Ret (createResponse (TextBody "Error: No R2 channel provided") 400), st)
    | Some (Some (first :: _ as channels)) =>
        let r2Channel :=
          match channelNamed rc_name (specifiedChannelName st) channels with
          | Some ch => ch
          | None => first
          end in
        let w := emit (EvBucketPut (fullId args)) w in
        match rw_bucketPut w with
        | Thrown _ => (Throw OtherError, putStore st (metadata st) w)
        | Returned _ => recordUpload args r2Channel st w
        end
    end.

End R2.

(** ** uploadFileToS3 (lines 325-439) *)

(** [s.replace(/https?:\/\//, "")]: the first [http://] or [https://] of the
    text is taken out. *)
Fixpoint stripScheme (s : string) : string :=
  match Discord.stripPrefix "https://" s with
  | Some r => r
  | None =>
      match Discord.stripPrefix "http://" s with
      | Some r => r
      | None =>
          match s with
          | EmptyString => EmptyString
          | String c r => String c (stripScheme r)
          end
      end
  end.

Module S3.

(** One entry of [uploadConfig.s3.channels], with the fields every
    configured channel has; [name], [region] and [cdnDomain] may be
    missing. *)
Record S3Channel : Type := mkS3Channel {
  sc_name : option string;
  sc_endpoint : string;
  sc_pathStyle : bool;
  sc_accessKeyId : string;
  sc_secretAccessKey : string;
  sc_bucketName : string;
  sc_region : option string;
  sc_cdnDomain : option string
}.

(** [uploadConfig.s3]: [channels], and [loadBalance.enabled] when there is
    a [loadBalance]. *)
Record S3Settings : Type := mkS3Settings {
  ss_channels : option (list S3Channel);
  ss_loadBalance : option bool
}.

Inductive Event : Type :=
| EvSend (bucket key : string) (contentType : option string)
| EvDbPut (id : string) (meta : Metadata)
| EvPurge (url : string)
| EvModerate (url : string)
| EvEndUpload (id : string).

Definition isDbPut (e : Event) : bool :=
  match e with
  | EvDbPut _ _ => true
  | _ => false
  end.

(** The world as this function sees it.  [sw_upload] is
    [securityConfig.upload] (absent, or whether its [moderate] is there and
    enabled); [sw_dbPutFails n] tells whether the database refuses a write
    when [n] were made before. *)
Record S3World : Type := mkS3World {
  sw_upload : option bool;
  sw_settings : option S3Settings;
  sw_random : nat;
  sw_hostname : string;
  sw_file : option FormFile;
  sw_send : Answer unit;
  sw_purge : Answer unit;
  sw_moderate : string -> Answer string;
  sw_dbPutFails : nat -> bool;
  sw_events : list Event
}.

Definition emit (e : Event) (w : S3World) : S3World :=
  mkS3World (sw_upload w) (sw_settings w) (sw_random w) (sw_hostname w) (sw_file w)
            (sw_send w) (sw_purge w) (sw_moderate w) (sw_dbPutFails w)
            (sw_events w ++ [e]).

(** [await db.put(fullId, "", { metadata })]: the world after the call, and
    whether it threw. *)
Definition dbPut (id : string) (m : Metadata) (w : S3World) : S3World * bool :=
  (emit (EvDbPut id m) w,
   sw_dbPutFails w (List.length (filter isDbPut (sw_events w)))).

(** Lines 332-343. *)
Definition selectS3Channel (s3Settings : S3Settings) (specified : option string)
           (rnd : nat) : outcome (option S3Channel) :=
  match ss_channels s3Settings with
  | None => Throw TypeError
  | Some s3Channels =>
      match channelNamed sc_name specified s3Channels with
      | Some ch => Ret (Some ch)
      | None =>
          match ss_loadBalance s3Settings with
          | None => Throw TypeError
          | Some true =>
              Ret (nth_error s3Channels (Nat.modulo rnd (List.length s3Channels)))
          | Some false => Ret (nth_error s3Channels 0)
          end
      end
  end.

(** Lines 388-393. *)
Definition s3Location (ch : S3Channel) (s3FileName : string) : string :=
  let s3ServerDomain := stripScheme (sc_endpoint ch) in
  if sc_pathStyle ch
  then ("https://" ++ s3ServerDomain ++ "/" ++ sc_bucketName ch ++ "/" ++ s3FileName)%string
  else ("https://" ++ sc_bucketName ch ++ "." ++ s3ServerDomain ++ "/" ++ s3FileName)%string.

(** Lines 385-405: what the function writes into the metadata; a boolean
    is kept as the text [String] gives for it. *)
Definition describe (ch : S3Channel) (s3FileName : string) (m : Metadata) : Metadata :=
  let m := setChannel "S3" (sc_name ch) m in
  let m := setExtra "S3Location" (s3Location ch s3FileName) m in
  let m := setExtra "S3Endpoint" (sc_endpoint ch) m in
  let m := setExtra "S3PathStyle" (if sc_pathStyle ch then "true" else "false") m in
  let m := setExtra "S3AccessKeyId" (sc_accessKeyId ch) m in
  let m := setExtra "S3SecretAccessKey" (sc_secretAccessKey ch) m in
  let m := setExtra "S3Region" (Discord.orDefault (sc_region ch) "auto") m in
  let m := setExtra "S3BucketName" (sc_bucketName ch) m in
  let m := setExtra "S3FileKey" s3FileName m in
  if Discord.present (sc_cdnDomain ch)
  then setExtra "S3CdnFileUrl"
                (stripTrailingSlash (Discord.orDefault (sc_cdnDomain ch) EmptyString)
                 ++ "/" ++ s3FileName) m
  else m.

Definition uploadFailed (message : string) : Response :=
  createResponse (TextBody ("Error: Failed to upload to S3 - " ++ message)) 500.

(** Lines 420-435. *)
Definition finish (args : UploadArgs) (st : Store S3World) (m : Metadata) (w : S3World)
  : outcome Response * Store S3World :=
  let '(w, threw) := dbPut (fullId args) m w in
  if threw then
    (Ret (createResponse (TextBody "Error: Failed to write to database") 500),
     putStore st m w)
  else
    let w := emit (EvEndUpload (fullId args)) w in
    (Ret (createResponse (SrcBody (returnLink args)) 200), putStore st m w).

(** Lines 372-438: the [try] block. *)
Definition transfer (args : UploadArgs) (ch : S3Channel) (file : FormFile)
           (uploadModerate : bool) (st : Store S3World) (w : S3World)
  : outcome Response * Store S3World :=
  let s3FileName := fullId args in
  let w := emit (EvSend (sc_bucketName ch) s3FileName (ftype file)) w in
  match sw_send w with
  | Thrown message => (Ret (uploadFailed message), putStore st (metadata st) w)
  | Returned _ =>
      let m := describe ch s3FileName (metadata st) in
      if uploadModerate then
        let '(w, threw) := dbPut (fullId args) m w in
        if threw then
          (Ret (createResponse (TextBody "Error: Failed to write to KV database") 500),
           putStore st m w)
        else
          let moderateUrl := ("https://" ++ sw_hostname w ++ "/file/" ++ fullId args)%string in
          let w := emit (EvPurge moderateUrl) w in
          match sw_purge w with
          | Thrown message => (Ret (uploadFailed message), putStore st m w)
          | Returned _ =>
              let w := emit (EvModerate moderateUrl) w in
              match sw_moderate w moderateUrl with
              | Thrown message => (Ret (uploadFailed message), putStore st m w)
              | Returned label => finish args st (setLabel label m) w
              end
          end
      else finish args st m w
  end.

Definition uploadFileToS3 (args : UploadArgs) (st : Store S3World)
  : outcome Response * Store S3World :=
  let w := world st in
  match sw_upload w with
  | None => (Throw TypeError, st)
  | Some uploadModerate =>
      match sw_settings w with
      | None => (Throw TypeError, st)
      | Some s3Settings =>
          match selectS3Channel s3Settings (specifiedChannelName st) (sw_random w) with
          | Throw e => (Throw e, st)
          | Ret None =>
              (Ret (createResponse (TextBody "Error: No S3 channel provided") 400), st)
          | Ret (Some s3Channel) =>
              match sw_file w with
              | None =>
                  (Ret (createResponse (TextBody "Error: No file provided") 400), st)
              | Some file => transfer args s3Channel file uploadModerate st w
              end
          end
      end
  end.

End S3.

(** ** uploadFileToTelegram (lines 443-597) *)

(** [s.replace(/suf$/, rep)] for a literal [suf]: the pattern matches at the
    end of the text only. *)
Fixpoint replaceSuffix (suf rep s : string) : string :=
  if String.eqb s suf then rep
  else
    match s with
    | EmptyString => EmptyString
    | String c r => String c (replaceSuffix suf rep r)
    end.

Module Telegram.

(** One entry of [uploadConfig.telegram.channels], with the token and the
    chat every configured channel has. *)
Record TgChannel : Type := mkTgChannel {
  tc_name : option string;
  tc_botToken : string;
  tc_chatId : string;
  tc_proxyUrl : option string
}.

(** [uploadConfig.telegram]: [channels], and [loadBalance.enabled] when
    there is a [loadBalance]. *)
Record TgSettings : Type := mkTgSettings {
  ts_channels : option (list TgChannel);
  ts_loadBalance : option bool
}.

(** The file of the form: its name and what the extractor reads. *)
Record TgFile : Type := mkTgFile {
  tf_name : string;
  tf_content : File
}.

(** [telegramAPI.getFileInfo(response)] *)
Record TgFileInfo : Type := mkTgFileInfo {
  fi_file_id : string;
  fi_file_size : Z
}.

(** What [sendFile] resolves to: [ok], [result.message_id] when there is a
    [result], and what [getFileInfo] reads in it. *)
Record TgResponse : Type := mkTgResponse {
  tr_ok : bool;
  tr_messageId : option Z;
  tr_fileInfo : option TgFileInfo
}.

Inductive Event : Type :=
| EvSendFile (file : TgFile) (chatId url type : string) (caption : jsstring)
| EvSendMessage (chatId : string) (text : jsstring) (replyTo : option Z)
| EvGetFilePath (fileId : string)
| EvModerate (url : string)
| EvDbPut (id : string) (meta : Metadata)
| EvEndUpload (id : string).

(** The world as this function sees it: configuration, the draw
    [Math.random] would give, the file in the form, the answers of the
    Telegram API, of moderation and of the database, and the calls made. *)
Record TelegramWorld : Type := mkTelegramWorld {
  tw_settings : option TgSettings;
  tw_random : nat;
  tw_file : TgFile;
  tw_sendFile : TgFile -> string -> Answer TgResponse;
  tw_sendMessage : Answer unit;
  tw_getFilePath : string -> Answer string;
  tw_moderate : string -> Answer string;
  tw_dbPutFails : bool;
  tw_events : list Event
}.

Definition emit (e : Event) (w : TelegramWorld) : TelegramWorld :=
  mkTelegramWorld (tw_settings w) (tw_random w) (tw_file w) (tw_sendFile w)
                  (tw_sendMessage w) (tw_getFilePath w) (tw_moderate w)
                  (tw_dbPutFails w) (tw_events w ++ [e]).

(** [formdata.set('file', newFile)] *)
Definition setFile (f : TgFile) (w : TelegramWorld) : TelegramWorld :=
  mkTelegramWorld (tw_settings w) (tw_random w) f (tw_sendFile w)
                  (tw_sendMessage w) (tw_getFilePath w) (tw_moderate w)
                  (tw_dbPutFails w) (tw_events w).

(** Lines 451-459.  Without [channels] every path reads a property of
    [undefined]; without [loadBalance] the second [if] does. *)
Definition selectTgChannel (tgSettings : TgSettings) (specified : option string)
           (rnd : nat) : outcome (option TgChannel) :=
  match ts_channels tgSettings with
  | None => Throw TypeError
  | Some tgChannels =>
      match channelNamed tc_name specified tgChannels with
      | Some ch => Ret (Some ch)
      | None =>
          match ts_loadBalance tgSettings with
          | None => Throw TypeError
          | Some true =>
              Ret (nth_error tgChannels (Nat.modulo rnd (List.length tgChannels)))
          | Some false => Ret (nth_error tgChannels 0)
          end
      end
  end.

(** Lines 490-499: the name the file is sent under when the extension asks
    for one. *)
Definition renamed (fileExt fileName : string) : option string :=
  if String.eqb fileExt "gif" then Some (replaceSuffix ".gif" ".jpeg" fileName)
  else if String.eqb fileExt "webp" then Some (replaceSuffix ".webp" ".jpeg" fileName)
  else None.

(** Lines 502-525: the API method and the kind of the upload. *)
Definition fileTypeMap : list (string * (string * string)) :=
  [("image/", ("sendPhoto", "photo"));
   ("video/", ("sendVideo", "video"));
   ("audio/", ("sendAudio", "audio"));
   ("application/pdf", ("sendDocument", "document"))].

Definition defaultType : string * string := ("sendDocument", "document").

Definition sendFunctionOf (fileType fileExt : string) (serverCompress : option string)
  : string * string :=
  let sendFunction :=
    match find (fun kv => String.prefix (fst kv) fileType) fileTypeMap with
    | Some kv => snd kv
    | None => defaultType
    end in
  let sendFunction :=
    if String.eqb fileType "image/gif" || String.eqb fileType "image/webp"
       || String.eqb fileExt "gif" || String.eqb fileExt "webp"
    then ("sendAnimation", "animation")
    else if String.eqb fileType "image/svg+xml" || String.eqb fileType "image/x-icon"
         then ("sendDocument", "document")
         else sendFunction in
  match serverCompress with
  | Some v => if String.eqb v "false" then ("sendDocument", "document") else sendFunction
  | None => sendFunction
  end.

(** Line 483. *)
Definition CHUNK_SIZE : Z := 16 * 1024 * 1024.

Definition uploadError : Response :=
  createResponse
    (TextBody "upload error, check your environment params about telegram channel!") 400.

Section Upload.

(** The platform's text decoder, JSON parser and [File] constructor
    ([new File([file], name, { type })]), and the upload of large files of
    chunkUpload. *)
Variable decode : list byte -> jsstring.
Variable JSON_parse : jsstring -> outcome jsval.
Variable File_new : TgFile -> string -> string -> TgFile.
Variable uploadLargeFileToTelegram :
  UploadArgs -> TgFile -> TgChannel -> Store TelegramWorld ->
  outcome Response * Store TelegramWorld.

(** Lines 490-499: the form, with the file replaced by one of the new name
    when the extension asks for it. *)
Definition renameFile (args : UploadArgs) (w : TelegramWorld) : TelegramWorld :=
  match renamed (fileExt args) (fileName args) with
  | Some newFileName => setFile (File_new (tw_file w) newFileName (fileType args)) w
  | None => w
  end.

(** Lines 568-589, once the file is on Telegram and its path is known. *)
Definition recordUpload (args : UploadArgs) (tgChannel : TgChannel)
           (fileInfo : TgFileInfo) (filePath : string)
           (st : Store TelegramWorld) (w : TelegramWorld)
  : outcome Response * Store TelegramWorld :=
  let tgProxyUrl := Discord.orDefault (tc_proxyUrl tgChannel) EmptyString in
  let m := setFileSize (toFixedMB (fi_file_size fileInfo)) (metadata st) in
  let moderateDomain :=
    if Discord.present (tc_proxyUrl tgChannel)
    then ("https://" ++ tgProxyUrl)%string
    else "https://api.telegram.org"%string in
  let moderateUrl :=
    (moderateDomain ++ "/file/bot" ++ tc_botToken tgChannel ++ "/" ++ filePath)%string in
  let w := emit (EvModerate moderateUrl) w in
  match tw_moderate w moderateUrl with
  | Thrown _ => (Ret uploadError, putStore st m w)
  | Returned label =>
      let m := setLabel label m in
      let m := setChannel "TelegramNew" (tc_name tgChannel) m in
      let m := setExtra "TgFileId" (fi_file_id fileInfo) m in
      let m := setExtra "TgChatId" (tc_chatId tgChannel) m in
      let m := setExtra "TgBotToken" (tc_botToken tgChannel) m in
      let m :=
        if Discord.present (tc_proxyUrl tgChannel)
        then setExtra "TgProxyUrl" tgProxyUrl m else m in
      let w := emit (EvDbPut (fullId args) m) w in
      let res :=
        if tw_dbPutFails w
        then createResponse (TextBody "Error: Failed to write to KV database") 500
        else createResponse (SrcBody (returnLink args)) 200 in
      let w := emit (EvEndUpload (fullId args)) w in
      (Ret res, putStore st m w)
  end.

(** Lines 527-596: the [try] with its [catch] and [finally]. *)
Definition transfer (args : UploadArgs) (tgChannel : TgChannel)
           (aiData : option Result) (sendFunction : string * string)
           (st : Store TelegramWorld) (w : TelegramWorld)
  : outcome Response * Store TelegramWorld :=
  let caption :=
    match aiData with
    | Some r => caption r
    | None => []
    end in
  let file := tw_file w in
  let w := emit (EvSendFile file (tc_chatId tgChannel) (fst sendFunction)
                            (snd sendFunction) caption) w in
  match tw_sendFile w file (fst sendFunction) with
  | Thrown _ => (Ret uploadError, putStore st (metadata st) w)
  | Returned response =>
      if negb (tr_ok response) then (Ret uploadError, putStore st (metadata st) w)
      else
        let w :=
          match aiData with
          | Some r =>
              if needsSecondMessage r then
                let w := emit (EvSendMessage (tc_chatId tgChannel) (fullText r)
                                             (tr_messageId response)) w in
                match tw_sendMessage w with
                | Thrown _ => w
                | Returned _ => w
                end
              else w
          | None => w
          end in
        match tr_fileInfo response with
        | None => (Ret uploadError, putStore st (metadata st) w)
        | Some fileInfo =>
            let w := emit (EvGetFilePath (fi_file_id fileInfo)) w in
            match tw_getFilePath w (fi_file_id fileInfo) with
            | Thrown _ => (Ret uploadError, putStore st (metadata st) w)
            | Returned filePath => recordUpload args tgChannel fileInfo filePath st w
            end
        end
  end.

Definition uploadFileToTelegram (args : UploadArgs) (st : Store TelegramWorld)
  : outcome Response * Store TelegramWorld :=
  let w := world st in
  match tw_settings w with
  | None => (Throw TypeError, st)
  | Some tgSettings =>
      match selectTgChannel tgSettings (specifiedChannelName st) (tw_random w) with
      | Throw e => (Throw e, st)
      | Ret None =>
          (Ret (createResponse (TextBody "Error: No Telegram channel provided") 400), st)
      | Ret (Some tgChannel) =>
          let file := tw_file w in
          let fileSize := Z.of_nat (List.length (file_bytes (tf_content file))) in
          match snd (extractAIPrompt decode JSON_parse (tf_content file)) with
          | Throw e => (Throw e, st)
          | Ret aiData =>
              if fileSize >? CHUNK_SIZE then
                uploadLargeFileToTelegram args file tgChannel st
              else
                transfer args tgChannel aiData
                         (sendFunctionOf (fileType args) (fileExt args)
                                         (spGet (searchParams st) "serverCompress"))
                         st (renameFile args w)
          end
      end
  end.

End Upload.

End Telegram.

(** ** uploadFileToExternal (lines 601-636) *)

Module External.

Inductive Event : Type :=
| EvDbPut (id : string) (meta : Metadata)
| EvEndUpload (id : string).

(** The world as this function sees it: the [url] field of the form (a
    text, when it is there), whether the database refuses the write, and
    the calls made so far. *)
Record ExternalWorld : Type := mkExternalWorld {
  ew_url : option string;
  ew_dbPutFails : bool;
  ew_events : list Event
}.

Definition emit (e : Event) (w : ExternalWorld) : ExternalWorld :=
  mkExternalWorld (ew_url w) (ew_dbPutFails w) (ew_events w ++ [e]).

Definition uploadFileToExternal (args : UploadArgs) (st : Store ExternalWorld)
  : outcome Response * Store ExternalWorld :=
  let w := world st in
  let m := setChannel "External" (Some "External") (metadata st) in
  match ew_url w with
  | None =>
      (Ret (createResponse (TextBody "Error: No url provided") 400), putStore st m w)
  | Some extUrl =>
      let m := setExtra "ExternalLink" extUrl m in
      let w := emit (EvDbPut (fullId args) m) w in
      if ew_dbPutFails w then
        (Ret (createResponse (TextBody "Error: Failed to write to KV database") 500),
         putStore st m w)
      else
        let w := emit (EvEndUpload (fullId args)) w in
        (Ret (createResponse (SrcBody (returnLink args)) 200), putStore st m w)
  end.

End External.

(** ** uploadFileToHuggingFace (lines 738-854) *)

Module HuggingFace.

(** One entry of [uploadConfig.huggingface.channels]; a missing property
    is [None]. *)
Record HfChannel : Type := mkHfChannel {
  hc_name : option string;
  hc_token : option string;
  hc_repo : option string;
  hc_isPrivate : option bool
}.

(** [uploadConfig.huggingface]; [hs_loadBalance] is [loadBalance?.enabled]. *)
Record HfSettings : Type := mkHfSettings {
  hs_channels : option (list HfChannel);
  hs_loadBalance : option bool
}.

(** What [huggingfaceAPI.uploadFile] resolves to. *)
Record HfResult : Type := mkHfResult {
  hr_success : bool;
  hr_fileUrl : string
}.

Inductive Event : Type :=
| EvUpload (path message : string) (sha256 : option string)
| EvDbPut (id : string) (meta : Metadata)
| EvPurge (url : string)
| EvModerate (url : string)
| EvEndUpload (id : string).

Definition isDbPut (e : Event) : bool :=
  match e with
  | EvDbPut _ _ => true
  | _ => false
  end.

(** The world as this function sees it.  [hw_moderate] tells whether
    [securityConfig.upload?.moderate] is there and enabled, [hw_sha256] is
    the [sha256] field of the form, and [hw_dbPutFails n] tells whether
    the database refuses a write when [n] were made before. *)
Record HfWorld : Type := mkHfWorld {
  hw_settings : option HfSettings;
  hw_random : nat;
  hw_moderate : bool;
  hw_hostname : string;
  hw_sha256 : option string;
  hw_upload : Answer HfResult;
  hw_purge : Answer unit;
  hw_moderateContent : string -> Answer string;
  hw_dbPutFails : nat -> bool;
  hw_events : list Event
}.

Definition emit (e : Event) (w : HfWorld) : HfWorld :=
  mkHfWorld (hw_settings w) (hw_random w) (hw_moderate w) (hw_hostname w) (hw_sha256 w)
            (hw_upload w) (hw_purge w) (hw_moderateContent w) (hw_dbPutFails w)
            (hw_events w ++ [e]).

Definition dbPut (id : string) (m : Metadata) (w : HfWorld) : HfWorld * bool :=
  (emit (EvDbPut id m) w,
   hw_dbPutFails w (List.length (filter isDbPut (hw_events w)))).

(** Lines 757-765. *)
Definition selectHfChannel (hfSettings : HfSettings) (hfChannels : list HfChannel)
           (specified : option string) (rnd : nat) : option HfChannel :=
  match channelNamed hc_name specified hfChannels with
  | Some ch => Some ch
  | None =>
      match hs_loadBalance hfSettings with
      | Some true => nth_error hfChannels (Nat.modulo rnd (List.length hfChannels))
      | _ => nth_error hfChannels 0
      end
  end.

(** [hfChannel.isPrivate || false] *)
Definition isPrivateOf (ch : HfChannel) : bool :=
  match hc_isPrivate ch with
  | Some b => b
  | None => false
  end.

Definition uploadFailed (message : string) : Response :=
  createResponse (TextBody ("Error: HuggingFace upload failed - " ++ message)) 500.

Definition dbFailed : Response :=
  createResponse (TextBody "Error: Failed to write to KV database") 500.

(** Lines 801-807. *)
Definition describe (ch : HfChannel) (token repo hfFilePath fileUrl : string)
           (m : Metadata) : Metadata :=
  let m := setChannel "HuggingFace"
                      (Some (Discord.orDefault (hc_name ch) "HuggingFace_env")) m in
  let m := setExtra "HfRepo" repo m in
  let m := setExtra "HfFilePath" hfFilePath m in
  let m := setExtra "HfToken" token m in
  let m := setExtra "HfIsPrivate" (if isPrivateOf ch then "true" else "false") m in
  setExtra "HfFileUrl" fileUrl m.

(** Lines 831-848. *)
Definition finish (args : UploadArgs) (st : Store HfWorld) (m : Metadata) (w : HfWorld)
  : outcome Response * Store HfWorld :=
  let '(w, threw) := dbPut (fullId args) m w in
  if threw then (Ret dbFailed, putStore st m w)
  else
    let w := emit (EvEndUpload (fullId args)) w in
    (Ret (createResponse (SrcBody (returnLink args)) 200), putStore st m w).

(** Lines 790-853: the [try] block. *)
Definition transfer (args : UploadArgs) (ch : HfChannel) (token repo : string)
           (st : Store HfWorld) (w : HfWorld)
  : outcome Response * Store HfWorld :=
  let fileName := FileName (metadata st) in
  let precomputedSha256 :=
    if Discord.present (hw_sha256 w) then hw_sha256 w else None in
  let hfFilePath := fullId args in
  let w := emit (EvUpload hfFilePath ("Upload " ++ fileName) precomputedSha256) w in
  match hw_upload w with
  | Thrown message => (Ret (uploadFailed message), putStore st (metadata st) w)
  | Returned result =>
      if negb (hr_success result) then
        (Ret (uploadFailed "Failed to upload file to HuggingFace"),
         putStore st (metadata st) w)
      else
        let m := describe ch token repo hfFilePath (hr_fileUrl result) (metadata st) in
        if hw_moderate w then
          if negb (isPrivateOf ch) then
            let w := emit (EvModerate (hr_fileUrl result)) w in
            match hw_moderateContent w (hr_fileUrl result) with
            | Thrown message => (Ret (uploadFailed message), putStore st m w)
            | Returned label => finish args st (setLabel label m) w
            end
          else
            let '(w, threw) := dbPut (fullId args) m w in
            if threw then (Ret dbFailed, putStore st m w)
            else
              let moderateUrl :=
                ("https://" ++ hw_hostname w ++ "/file/" ++ fullId args)%string in
              let w := emit (EvPurge moderateUrl) w in
              match hw_purge w with
              | Thrown message => (Ret (uploadFailed message), putStore st m w)
              | Returned _ =>
                  let w := emit (EvModerate moderateUrl) w in
                  match hw_moderateContent w moderateUrl with
                  | Thrown message => (Ret (uploadFailed message), putStore st m w)
                  | Returned label => finish args st (setLabel label m) w
                  end
              end
        else finish args st m w
  end.

Definition uploadFileToHuggingFace (args : UploadArgs) (st : Store HfWorld)
  : outcome Response * Store HfWorld :=
  let w := world st in
  let notConfigured :=
    (Ret (createResponse (TextBody "Error: No HuggingFace channel configured") 400), st) in
  let notProperly :=
    (Ret (createResponse (TextBody "Error: HuggingFace channel not properly configured")
                         400), st) in
  match hw_settings w with
  | None => notConfigured
  | Some hfSettings =>
      match hs_channels hfSettings with
      | None | Some [] => notConfigured
      | Some hfChannels =>
          match selectHfChannel hfSettings hfChannels (specifiedChannelName st)
                                (hw_random w) with
          | Some ch =>
              if Discord.present (hc_token ch) && Discord.present (hc_repo ch) then
                transfer args ch (Discord.orDefault (hc_token ch) EmptyString)
                         (Discord.orDefault (hc_repo ch) EmptyString) st w
              else notProperly
          | None => notProperly
          end
      end
  end.

End HuggingFace.

(** ** onRequest (lines 16-72) *)

Section Entry.

Variable W : Type.
Variable uploadFileToCloudflareR2 : Uploader W.
Variable uploadFileToS3 : Uploader W.
Variable uploadFileToTelegram : Uploader W.
Variable uploadFileToExternal : Uploader W.
Variable uploadFileToDiscord : Uploader W.
Variable uploadFileToHuggingFace : Uploader W.
Variable JSON_src : string -> string.
Variable JSON_dict : Dict -> string.

(** What the functions of other files and the platform give: the
    permission check and its refusal, the list of blocked addresses,
    [parseInt], and the handlers of chunked uploads. *)
Variable userAuthCheck : W -> Request -> bool.
Variable UnauthorizedResponse : string -> Response.
Variable isBlockedUploadIp : W -> string -> bool.
Variable parseInt : option string -> jsnum.
Variable handleCleanupRequest : Request -> option string -> jsnum -> W -> outcome Response.
Variable initializeChunkedUpload : Request -> W -> outcome Response.
Variable handleChunkMerge : Request -> W -> outcome Response.
Variable handleChunkUpload : Request -> W -> outcome Response.

(** [url.searchParams.get(name) === 'true'] *)
Definition isTrue (sp : SearchParams) (name : string) : bool :=
  match spGet sp name with
  | Some v => String.eqb v "true"
  | None => false
  end.

(** The function: its response, and the shared objects and the log of
    calls of upload functions [processFileUpload] leaves when it is
    reached. *)
Definition onRequest (req : Request) (w : W)
  : outcome Response * (option (Store W) * list Attempt) :=
  let sp := req_searchParams req in
  if negb (userAuthCheck w req) then
    (Ret (UnauthorizedResponse "Unauthorized"), (None, []))
  else if isBlockedUploadIp w (req_uploadIp req) then
    (Ret (createResponse (TextBody "Error: Your IP is blocked") 403), (None, []))
  else if isTrue sp "cleanup" then
    let uploadId := spGet sp "uploadId" in
    let n := parseInt (spGet sp "totalChunks") in
    let totalChunks := if num_is_zero n then mkNum true (js "0") else n in
    (handleCleanupRequest req uploadId totalChunks w, (None, []))
  else if isTrue sp "initChunked" then (initializeChunkedUpload req w, (None, []))
  else if isTrue sp "chunked" then
    if isTrue sp "merge" then (handleChunkMerge req w, (None, []))
    else (handleChunkUpload req w, (None, []))
  else
    processFileUpload W uploadFileToCloudflareR2 uploadFileToS3 uploadFileToTelegram
                      uploadFileToExternal uploadFileToDiscord uploadFileToHuggingFace
                      JSON_src JSON_dict req w.

End Entry.

(** ** The PNG container, for inputs laid out as the format prescribes *)

(** A chunk: four bytes of type, the data, four bytes of CRC.  On the wire
    the data length comes first, as a big-endian 32-bit number. *)
Record Chunk : Type := mkChunk {
  chunk_type : list byte;
  chunk_data : list byte;
  chunk_crc : list byte
}.

Definition byteOf (z : Z) : byte :=
  match Byte.of_N (Z.to_N (z mod 256)) with
  | Some b => b
  | None => x00
  end.

Definition be32 (n : Z) : list byte :=
  [byteOf (n / 16777216); byteOf (n / 65536); byteOf (n / 256); byteOf n].

Definition chunkLength (c : Chunk) : Z := Z.of_nat (List.length (chunk_data c)).

Definition encodeChunk (c : Chunk) : list byte :=
  be32 (chunkLength c) ++ chunk_type c ++ chunk_data c ++ chunk_crc c.

Definition pngSignature : list byte := [x89; x50; x4e; x47; x0d; x0a; x1a; x0a].

Definition encodePng (cs : list Chunk) : list byte :=
  pngSignature ++ flat_map encodeChunk cs.

Definition wellFormedChunk (c : Chunk) : Prop :=
  List.length (chunk_type c) = 4%nat /\
  List.length (chunk_crc c) = 4%nat /\
  chunkLength c < 4294967296.

Definition bytesEqb (a b : list byte) : bool :=
  if list_eq_dec Byte.byte_eq_dec a b then true else false.

(** The two chunk types the extractor decodes. *)
Definition isTextTag (t : list byte) : bool :=
  bytesEqb t (list_byte_of_string "tEXt") || bytesEqb t (list_byte_of_string "iTXt").

(** Every text chunk of [cs], the first of which starts at [offset], starts
    at [limit] or later. *)
Fixpoint textChunksBeyond (limit offset : Z) (cs : list Chunk) : bool :=
  match cs with
  | [] => true
  | c :: r =>
      (negb (isTextTag (chunk_type c)) || (limit <=? offset))
      && textChunksBeyond limit (offset + 12 + chunkLength c) r
  end.

(** What the theorems ask of the platform's decoder: four bytes decode to
    one of the two tags only when they spell it, and ASCII bytes decode to
    themselves.  UTF-8 decoding has both properties. *)
Definition tagFaithful (decode : list byte -> jsstring) : Prop :=
  forall t : list byte,
    List.length t = 4%nat ->
    jseqb (decode t) (js "tEXt") || jseqb (decode t) (js "iTXt") = true ->
    isTextTag t = true.

Definition asciiFaithful (decode : list byte -> jsstring) : Prop :=
  forall bs : list byte,
    Forall (fun b => byteZ b < 128) bs -> decode bs = map Byte.to_N bs.

(** ** Inputs for the examples *)

(** A decoder that gives one code unit per byte, as UTF-8 decoding does on
    ASCII bytes, and a parser that accepts nothing. *)
Definition decodeBytewise (bs : list byte) : jsstring := map Byte.to_N bs.

Definition parseNothing (s : jsstring) : outcome jsval := Throw SyntaxError.

(** A PNG cut short: the only chunk announces 4294967295 bytes of data and
    brings seventeen. *)
Definition cutShortPng : list byte :=
  pngSignature ++ [xff; xff; xff; xff] ++ list_byte_of_string "tEXt"
  ++ list_byte_of_string "Description" ++ [x00] ++ list_byte_of_string "a cat".

(** A PNG whose image data fills the first 262144 bytes and more, followed
    by a text chunk with a prompt. *)
Definition lateTextPng : list Chunk :=
  [mkChunk (list_byte_of_string "IHDR") (repeat x00 13) [x00; x00; x00; x00];
   mkChunk (list_byte_of_string "IDAT") (repeat x00 (Z.to_nat 262200))
           [x00; x00; x00; x00];
   mkChunk (list_byte_of_string "tEXt")
           (list_byte_of_string "Description" ++ [x00] ++ list_byte_of_string "a cat")
           [x00; x00; x00; x00];
   mkChunk (list_byte_of_string "IEND") [] [x00; x00; x00; x00]].

(** The text [a], [n] times. *)
Definition letters (n : nat) : jsstring := repeat 97%N n.

Definition stringsOnly (p u st sd sa : jsstring) (cs : list jsstring) : Info :=
  mkInfo (JStr p) (JStr u) (JStr st) (JStr sd) (JStr sa) (map JStr cs).

(** Upload functions on a world that counts the calls made, and a request
    for a given [uploadChannel] parameter. *)
Definition countCall (st : Store nat) : Store nat :=
  mkStore (searchParams st) (specifiedChannelName st) (metadata st) (S (world st)).

Definition alwaysFails (label : string) : Uploader nat :=
  fun _ st => (Ret (createResponse (TextBody label) 500), countCall st).

Definition alwaysSucceeds : Uploader nat :=
  fun args st => (Ret (createResponse (SrcBody (returnLink args)) 200), countCall st).

Definition exampleRequest (params : SearchParams) : Request :=
  mkRequest params "https://img.example"
            (mkFormFile (Some "image/png") (Some "cat.png") 1024)
            "203.0.113.7" "Nowhere" 0 None (fun _ => true) "abc.png".

(** A serialiser for the examples, none of which reads a JSON body back. *)
Definition noText {A} (x : A) : string := EmptyString.

Definition exampleArgs : UploadArgs :=
  uploadArgsOf (exampleRequest []) "cat.png" "image/png".

(** A store whose only Discord channel is [ch] and whose file has [size]
    bytes; the service would answer with a message that lacks a file. *)
Definition discordStore (ch : Discord.DiscordChannel) (size : Z)
  : Store Discord.DiscordWorld :=
  mkStore [] None (initialMetadata (exampleRequest []) "cat.png" "image/png")
          (Discord.mkDiscordWorld
             (Some (Discord.mkDiscordSettings (Some [ch]) None))
             (mkFormFile (Some "image/png") (Some "cat.png") size)
             0 (Discord.SendReturns None)
             (fun _ => Discord.ModerateReturns "None") false []).

(** Whether [s] holds the character [c]. *)
Fixpoint hasChar (c : ascii) (s : string) : bool :=
  match s with
  | EmptyString => false
  | String a r => Ascii.eqb a c || hasChar c r
  end.

(** A parser that reads every text as the value [v]. *)
Definition parseAs (v : jsval) (s : jsstring) : outcome jsval := Ret v.

(** A PNG whose only text chunk is a Comment. *)
Definition commentPng : list byte :=
  encodePng
    [mkChunk (list_byte_of_string "tEXt")
             (list_byte_of_string "Comment" ++ [x00] ++ list_byte_of_string "{}")
             [x00; x00; x00; x00];
     mkChunk (list_byte_of_string "IEND") [] [x00; x00; x00; x00]].

(** An R2 world with one channel, whose bucket answers as given. *)
Definition r2World (bucketPut : Answer unit) (dbPutFails : bool) : R2.R2World :=
  R2.mkR2World true (Some (Some [R2.mkR2Channel (Some "main") (Some "https://r2.example")]))
               bucketPut (fun _ => Returned "None") dbPutFails [].

(** An upload function over any world that always answers 500. *)
Definition refuses {W} (label : string) : Uploader W :=
  fun _ st => (Ret (createResponse (TextBody label) 500), st).

(** A Telegram world with one channel, no proxy and no load balancing,
    whose API accepts a file sent through one of the methods [accepted]. *)
Definition tgWorld (file : Telegram.TgFile) (accepted : list string)
  : Telegram.TelegramWorld :=
  Telegram.mkTelegramWorld
    (Some (Telegram.mkTgSettings
             (Some [Telegram.mkTgChannel (Some "main") "token" "chat" None])
             (Some false)))
    0 file
    (fun _ url =>
       Returned (Telegram.mkTgResponse
                   (existsb (String.eqb url) accepted) (Some 7)
                   (Some (Telegram.mkTgFileInfo "file-id" 1024))))
    (Returned tt) (fun _ => Returned "photos/1.png") (fun _ => Returned "None")
    false [].

(** A [File] constructor that keeps the content, and an upload of large
    files that refuses. *)
Definition newFileNamed (f : Telegram.TgFile) (name type : string) : Telegram.TgFile :=
  Telegram.mkTgFile name (Telegram.tf_content f).

Definition noLargeFiles (args : UploadArgs) (f : Telegram.TgFile)
           (ch : Telegram.TgChannel) (st : Store Telegram.TelegramWorld)
  : outcome Response * Store Telegram.TelegramWorld :=
  (Ret (createResponse (TextBody "Error: file too large") 500), st).

(** The PNG of [cutShortPng] as the file of a form. *)
Definition promptFile : Telegram.TgFile :=
  Telegram.mkTgFile "cat.png" (mkFile (js "image/png") cutShortPng).

(** * Facts about strings *)

Lemma split_cons (sep : N) (s : jsstring) :
  exists k ps, split sep s = k :: ps.
Proof.
  induction s as [|c r IH]; simpl.
  - eauto.
  - destruct (N.eqb c sep); [eauto|].
    destruct IH as (k & ps & ->). eauto.
Qed.

Lemma split_no_sep (sep : N) (s : jsstring) :
  ~ In sep s -> split sep s = [s].
Proof.
  induction s as [|c r IH]; simpl; intros H; [reflexivity|].
  destruct (N.eqb_spec c sep) as [->|ne]; [tauto|].
  rewrite IH by tauto. reflexivity.
Qed.

Lemma split_first (sep : N) (s : jsstring) :
  ~ In sep (nth 0 (split sep s) []) /\
  ((~ In sep s /\ split sep s = [s]) \/
   (exists rest, s = nth 0 (split sep s) [] ++ sep :: rest /\
                 split sep s = nth 0 (split sep s) [] :: split sep rest)).
Proof.
  induction s as [|c r IH]; simpl.
  - split; [tauto|]. left. tauto.
  - destruct (N.eqb_spec c sep) as [->|ne]; simpl.
    + split; [tauto|]. right. exists r. split; reflexivity.
    + destruct (split_cons sep r) as (k & ps & E). rewrite E in *. simpl in *.
      destruct IH as [nk IH]. split; [intros [?|?]; [congruence|tauto]|].
      destruct IH as [[nr Er]|[rest [E1 E2]]].
      * left. split; [intros [?|?]; [congruence|tauto]|]. congruence.
      * right. exists rest. split; [rewrite E1 at 1; reflexivity|]. congruence.
Qed.

Lemma split_single (sep : N) (s k : jsstring) :
  split sep s = [k] -> ~ In sep s.
Proof.
  revert k. induction s as [|c r IH]; intros k; simpl; [tauto|].
  destruct (split_cons sep r) as (k' & ps & E). rewrite E.
  destruct (N.eqb_spec c sep) as [->|ne]; [discriminate|].
  intros H. injection H as _ ->. specialize (IH _ E). intros [?|?]; [congruence|tauto].
Qed.

Lemma last_cons2 {A} (a b : A) (l : list A) (d : A) :
  last (a :: b :: l) d = last (b :: l) d.
Proof. reflexivity. Qed.

Lemma split_last (sep : N) (s : jsstring) :
  ~ In sep (last (split sep s) []) /\
  ((~ In sep s /\ last (split sep s) [] = s) \/
   (exists before, s = before ++ sep :: last (split sep s) [])).
Proof.
  induction s as [|c r IH].
  - simpl. split; [tauto|]. left. tauto.
  - destruct IH as [nl IH]. cbn [split].
    destruct (split_cons sep r) as (k & ps & E).
    destruct (N.eqb_spec c sep) as [->|ne].
    + rewrite E in *. rewrite last_cons2. split; [exact nl|]. right.
      destruct IH as [[nr Er]|[before Eb]].
      * exists []. rewrite Er. reflexivity.
      * exists (sep :: before). cbn [app]. f_equal. exact Eb.
    + rewrite E in *. destruct ps as [|q ps].
      * cbn [last] in *. split; [intros [?|?]; [congruence|tauto]|].
        destruct IH as [[nr Er]|[before Eb]].
        -- left. split; [intros [?|?]; [congruence|tauto]|]. congruence.
        -- exfalso. apply (split_single _ _ _ E). rewrite Eb.
           apply in_or_app. right. left. reflexivity.
      * rewrite last_cons2 in *. split; [exact nl|]. right.
        destruct IH as [[nr Er]|[before Eb]].
        -- exfalso. rewrite (split_no_sep sep r nr) in E. discriminate.
        -- exists (c :: before). cbn [app]. f_equal. exact Eb.
Qed.

Theorem text_chunk_key_and_value (textData : jsstring) :
  let key := chunkKey textData in
  let value := chunkValue textData in
  ~ In 0%N key /\ ~ In 0%N value /\
  ((~ In 0%N textData /\ key = textData /\ value = textData) \/
   (exists rest before,
       textData = key ++ 0%N :: rest /\
       textData = before ++ 0%N :: value /\
       (~ In 0%N rest -> value = rest))).
Proof.
  unfold chunkKey, chunkValue. cbv zeta.
  destruct (split_first 0%N textData) as [nk F].
  destruct (split_last 0%N textData) as [nv L].
  split; [exact nk|]. split; [exact nv|].
  destruct F as [[nz E]|[rest [E1 E2]]].
  - left. rewrite E. simpl. tauto.
  - right. destruct L as [[nz _]|[before Eb]].
    + exfalso. apply nz. rewrite E1. apply in_or_app. right. left. reflexivity.
    + exists rest, before. split; [exact E1|]. split; [exact Eb|].
      intros nr. rewrite E2. rewrite (split_no_sep _ _ nr). reflexivity.
Qed.

Lemma text_chunk_value_is_last_field :
  let payload := js "Title" ++ [0%N] ++ js "en" ++ [0%N] ++ js "text" in
  chunkKey payload = js "Title" /\
  chunkValue payload = js "text" /\
  chunkValue payload <> js "en" ++ [0%N] ++ js "text".
Proof.
  cbv zeta. split; [reflexivity|]. split; [reflexivity|]. vm_compute. discriminate.
Qed.
(** * The preview caption and its budget *)

Lemma jslen_app (a b : jsstring) : jslen (a ++ b) = jslen a + jslen b.
Proof. unfold jslen. rewrite length_app. lia. Qed.

Lemma jslen_nonneg (a : jsstring) : 0 <= jslen a.
Proof. unfold jslen. lia. Qed.

Lemma jslen_substring0 (s : jsstring) (n : Z) :
  0 <= n -> jslen (substring0 s n) <= n /\ jslen (substring0 s n) <= jslen s.
Proof.
  intros Hn. unfold jslen, substring0. rewrite length_firstn. lia.
Qed.

Lemma sumLen_nonneg (l : list jsstring) : 0 <= sumLen l.
Proof. induction l as [|c r IH]; simpl; [lia|]. pose proof (jslen_nonneg c). lia. Qed.

Lemma reduce_lengths (l : list jsstring) (a : Z) :
  fold_left (fun sum c => sum + jslen c) l a = a + sumLen l.
Proof.
  revert a. induction l as [|c r IH]; intros a; simpl; [lia|]. rewrite IH. lia.
Qed.

Lemma reduce_lengths_30 (l : list jsstring) (a : Z) :
  fold_left (fun sum c => sum + jslen c + 30) l a
  = a + sumLen l + 30 * Z.of_nat (List.length l).
Proof.
  revert a. induction l as [|c r IH]; intros a; [simpl; lia|].
  cbn [fold_left sumLen List.length]. rewrite IH. lia.
Qed.

Lemma decimal_one_digit (idx : nat) :
  (idx < 9)%nat -> jslen (decimal (idx + 1)) = 1.
Proof.
  intros H. do 9 (destruct idx as [|idx]; [reflexivity|]). lia.
Qed.

Lemma characterBlock_len (idx : nat) (text : jsstring) :
  (idx < 9)%nat -> jslen (characterBlock idx text) = jslen text + 27.
Proof.
  intros H. unfold characterBlock. rewrite !jslen_app, (decimal_one_digit idx H).
  change (jslen bust) with 2. change (jslen (js " *Character ")) with 12.
  change (jslen (js "*")) with 1. change (jslen nl) with 1.
  change (jslen fence) with 3. lia.
Qed.

Lemma negativeBlock_len (text : jsstring) :
  jslen (negativeBlock text) = jslen text + 23.
Proof.
  unfold negativeBlock. rewrite !jslen_app.
  change (jslen [10060%N]) with 1. change (jslen (js " *Negative*")) with 11.
  change (jslen nl) with 1. change (jslen fence) with 3. lia.
Qed.

Lemma jseqb_eq (a b : jsstring) : jseqb a b = true -> a = b.
Proof. unfold jseqb. destruct (list_eq_dec N.eq_dec a b); [trivial|discriminate]. Qed.

Lemma captionChars_len (l : list jsstring) :
  forall idx : nat,
    (idx + List.length l <= 9)%nat ->
    jslen (captionChars idx l) <= sumLen l + 27 * Z.of_nat (List.length l).
Proof.
  induction l as [|c r IH]; intros idx H; [unfold jslen; simpl; lia|].
  cbn [captionChars sumLen List.length] in *. rewrite jslen_app.
  specialize (IH (S idx) ltac:(lia)).
  destruct (jseqb c moreMarker) eqn:E.
  - apply jseqb_eq in E. subst c. rewrite !jslen_app.
    change (jslen bust) with 2.
    change (jslen (js " *More Characters* omitted in preview.")) with 38.
    change (jslen nl) with 1. change (jslen moreMarker) with 22. lia.
  - rewrite characterBlock_len by lia. lia.
Qed.

Lemma promptBlock_len (text : jsstring) :
  jslen (promptBlock " *Prompt*" text) = jslen text + 21.
Proof.
  unfold promptBlock. rewrite !jslen_app. change (jslen [10024%N]) with 1.
  change (jslen (js " *Prompt*")) with 9. change (jslen nl) with 1.
  change (jslen fence) with 3. lia.
Qed.

Lemma headerStr_len : jslen headerStr = 25.
Proof. reflexivity. Qed.

Lemma clip80_len (c : jsstring) : jslen (clip80 c) <= 83.
Proof.
  unfold clip80. destruct (jslen c >? 80) eqn:E.
  - rewrite jslen_app. change (jslen ellipsis) with 3.
    pose proof (jslen_substring0 c 80 ltac:(lia)). lia.
  - lia.
Qed.

Lemma sumLen_clip80 (l : list jsstring) :
  sumLen (map clip80 l) <= 83 * Z.of_nat (List.length l).
Proof.
  induction l as [|c r IH]; [simpl; lia|].
  cbn [map sumLen List.length]. pose proof (clip80_len c). lia.
Qed.

Lemma sumLen_app (a b : list jsstring) : sumLen (a ++ b) = sumLen a + sumLen b.
Proof. induction a as [|c r IH]; simpl; [lia|]. rewrite IH. lia. Qed.

Lemma negative_part_len (text : jsstring) :
  jslen (match text with [] => [] | _ :: _ => negativeBlock text end) <= jslen text + 23.
Proof.
  destruct text as [|c r]; [cbn; lia|]. rewrite negativeBlock_len. lia.
Qed.

(** The budget holds on the truncating branch, and without truncation for
    at most one character prompt, as long as the footer is short. *)
Lemma previewOf_within_budget
        (footerStr rawPrompt rawUc : jsstring) (rawChars : list jsstring) :
  jslen footerStr <= 474 ->
  snd (previewOf footerStr rawPrompt rawUc rawChars) = true
  \/ (List.length rawChars <= 1)%nat ->
  jslen (fst (previewOf footerStr rawPrompt rawUc rawChars)) <= MAX_CAPTION.
Proof.
  intros Hfoot Hcase. unfold previewOf in *.
  rewrite headerStr_len in *. unfold MAX_CAPTION in *.
  pose proof (jslen_nonneg footerStr) as Hf0.
  destruct (1024 - (25 + jslen footerStr + 80) <? 200) eqn:Efloor; [lia|].
  rewrite reduce_lengths in *.
  destruct (jslen rawPrompt + (0 + sumLen rawChars) + jslen rawUc
            >? 1024 - (25 + jslen footerStr + 80)) eqn:Etotal.
  - (* the truncating branch *)
    clear Hcase. cbn [fst snd].
    set (previewUc := if jslen rawUc >? 50 then substring0 rawUc 50 ++ ellipsis else rawUc).
    set (shown := map clip80 (firstn 3 rawChars)).
    set (previewChars :=
           if Z.of_nat (List.length rawChars) >? 3 then shown ++ [moreMarker] else shown).
    rewrite reduce_lengths_30.
    set (remaining := 1024 - (25 + jslen footerStr + 80)
                      - (jslen previewUc + (0 + sumLen previewChars
                                            + 30 * Z.of_nat (List.length previewChars)))).
    set (previewPrompt :=
           if (jslen rawPrompt >? remaining) && (remaining >? 0)
           then substring0 rawPrompt remaining ++ ellipsis else rawPrompt).
    assert (Huc : jslen previewUc <= 53).
    { subst previewUc. destruct (jslen rawUc >? 50) eqn:E.
      - rewrite jslen_app. change (jslen ellipsis) with 3.
        pose proof (jslen_substring0 rawUc 50 ltac:(lia)). lia.
      - lia. }
    assert (Hshown : (List.length shown <= 3)%nat /\ sumLen shown <= 83 * Z.of_nat (List.length shown)).
    { subst shown. split.
      - rewrite length_map, length_firstn. lia.
      - rewrite length_map. apply sumLen_clip80. }
    assert (Hchars : (List.length previewChars <= 4)%nat
                     /\ sumLen previewChars + 30 * Z.of_nat (List.length previewChars) <= 391).
    { subst previewChars. destruct (Z.of_nat (List.length rawChars) >? 3).
      - rewrite length_app, sumLen_app. cbn [List.length sumLen].
        change (jslen moreMarker) with 22. lia.
      - lia. }
    assert (Hrem : 0 < remaining) by (subst remaining; lia).
    assert (Hprompt : jslen previewPrompt <= remaining + 3).
    { subst previewPrompt. destruct (jslen rawPrompt >? remaining) eqn:E; cbn [andb].
      - replace (remaining >? 0) with true by (symmetry; apply Z.gtb_lt; lia).
        rewrite jslen_app. change (jslen ellipsis) with 3.
        pose proof (jslen_substring0 rawPrompt remaining ltac:(lia)). lia.
      - lia. }
    rewrite !jslen_app, promptBlock_len, headerStr_len.
    pose proof (captionChars_len previewChars 0 ltac:(lia)) as Hcap.
    pose proof (negative_part_len previewUc) as Hneg.
    pose proof (jslen_nonneg previewUc). pose proof (sumLen_nonneg previewChars).
    subst remaining. lia.
  - (* nothing is cut *)
    cbn [fst snd] in *. destruct Hcase as [Hc|Hc]; [discriminate|].
    rewrite !jslen_app, promptBlock_len, headerStr_len.
    pose proof (captionChars_len rawChars 0 ltac:(lia)) as Hcap.
    pose proof (negative_part_len rawUc) as Hneg.
    lia.
Qed.

Lemma asStrings_length (l : list jsval) (ss : list (list N)) :
  asStrings l = Ret ss -> List.length ss = List.length l.
Proof.
  revert ss. induction l as [|v r IH]; intros ss; simpl.
  - intros H. injection H as <-. reflexivity.
  - destruct v; try discriminate. simpl.
    destruct (asStrings r) as [ss'|e]; [|discriminate]. simpl.
    intros H. injection H as <-. simpl. rewrite (IH ss' eq_refl). reflexivity.
Qed.

(** C1 (amended).  When the footer line (sampler, steps and seed, escaped)
    is at most 474 code units long, the preview caption the extractor
    returns is at most [MAX_CAPTION] = 1024 code units long whenever the
    truncating branch was taken, and also without truncation when there is
    at most one character prompt. *)
Theorem preview_caption_within_budget (info : Info) (footerStr : list N) (r : Result) :
  render info = Ret r ->
  footerStrOf info = Ret footerStr ->
  jslen footerStr <= 474 ->
  needsSecondMessage r = true \/ (List.length (chars info) <= 1)%nat ->
  jslen (caption r) <= MAX_CAPTION.
Proof.
  unfold render. intros Hr Hf Hlen Hcase. rewrite Hf in Hr. cbn [obind] in Hr.
  destruct (asString (js_or (prompt info) (JStr []))) as [rawPrompt|e]; [|discriminate].
  cbn [obind] in Hr.
  destruct (asStrings (chars info)) as [rawChars|e] eqn:Ec; [|discriminate].
  cbn [obind] in Hr.
  destruct (asString (js_or (uc info) (JStr []))) as [rawUc|e]; [|discriminate].
  cbn [obind] in Hr. injection Hr as <-. cbn [caption needsSecondMessage] in *.
  apply previewOf_within_budget; [exact Hlen|].
  destruct Hcase as [H|H]; [left; exact H|right].
  rewrite (asStrings_length _ _ Ec). exact H.
Qed.

(** Fifty character prompts of a thousand letters each, a prompt and a
    negative prompt of five thousand. *)
Lemma preview_caption_within_budget_witness :
  jslen (fst (previewOf (footerOf (js "Euler") (js "28") (js "42"))
                        (letters 5000) (letters 5000) (repeat (letters 1000) 50)))
  <= MAX_CAPTION.
Proof.
  apply (preview_caption_within_budget
           (stringsOnly (letters 5000) (letters 5000) (js "28") (js "42") (js "Euler")
                        (repeat (letters 1000) 50))
           (footerOf (js "Euler") (js "28") (js "42"))
           (mkResult
              (fst (previewOf (footerOf (js "Euler") (js "28") (js "42"))
                              (letters 5000) (letters 5000) (repeat (letters 1000) 50)))
              (fullTextOf (footerOf (js "Euler") (js "28") (js "42"))
                          (letters 5000) (letters 5000) (repeat (letters 1000) 50))
              (snd (previewOf (footerOf (js "Euler") (js "28") (js "42"))
                              (letters 5000) (letters 5000) (repeat (letters 1000) 50))))).
  - reflexivity.
  - reflexivity.
  - vm_compute. discriminate.
  - left. vm_compute. reflexivity.
Defined.

(** The claim as written fails: a sampler name of a thousand letters makes
    the footer alone longer than the budget. *)
Lemma caption_overflows_with_long_sampler :
  match render (stringsOnly (js "a cat") [] (js "28") (js "42") (letters 1000) []) with
  | Ret r => jslen (caption r) = 1095 /\ MAX_CAPTION < jslen (caption r)
  | Throw _ => False
  end.
Proof. vm_compute. split; reflexivity. Qed.

(** Without truncation the cost of the character blocks is not counted: a
    prompt of 859 letters, a negative prompt and two characters of one
    letter each pass the test of line 1014 and give 1034 code units. *)
Lemma caption_overflows_with_two_characters :
  match render (stringsOnly (letters 859) (js "b") [] [] [] [js "c"; js "d"]) with
  | Ret r => needsSecondMessage r = false /\ jslen (caption r) = 1034
  | Throw _ => False
  end.
Proof. vm_compute. split; reflexivity. Qed.
(** * The Directory field *)

Lemma startsSlash_spec (s : string) : beginsWithSlash s -> startsSlash s = true.
Proof. intros [r ->]. reflexivity. Qed.

Lemma endsSlash_spec (s : string) : endsWithSlash s -> endsSlash s = true.
Proof.
  intros [p ->]. induction p as [|c p IH]; [reflexivity|].
  cbn [String.append endsSlash]. destruct (p ++ "/")%string eqn:E; [|exact IH].
  destruct p; discriminate.
Qed.

Lemma doubleSlash_spec (s : string) : hasDoubleSlash s -> doubleSlash s = true.
Proof.
  intros (p & q & ->). induction p as [|c p IH]; [reflexivity|].
  cbn [String.append doubleSlash] in *. rewrite IH. apply orb_true_r.
Qed.

Lemma stripLeadingSlashes_start (s : string) :
  startsSlash (stripLeadingSlashes s) = false.
Proof.
  induction s as [|c r IH]; [reflexivity|]. simpl.
  destruct (Ascii.eqb c "/") eqn:E; [exact IH|]. simpl. exact E.
Qed.

Lemma collapseSlashes_start (s : string) :
  startsSlash s = false -> startsSlash (collapseSlashes s) = false.
Proof.
  destruct s as [|c r]; [reflexivity|]. simpl. intros E. rewrite E. simpl. exact E.
Qed.

Lemma collapseSlashes_start_inv (s : string) :
  startsSlash (collapseSlashes s) = true -> startsSlash s = true.
Proof.
  intros H. destruct (startsSlash s) eqn:E; [reflexivity|].
  rewrite (collapseSlashes_start s E) in H. discriminate.
Qed.

Lemma collapseSlashes_double (s : string) : doubleSlash (collapseSlashes s) = false.
Proof.
  induction s as [|c r IH]; [reflexivity|]. simpl.
  destruct (Ascii.eqb c "/" && startsSlash r) eqn:E; [exact IH|].
  cbn [doubleSlash]. rewrite IH, orb_false_r.
  destruct (Ascii.eqb c "/"); [|reflexivity]. simpl in *.
  destruct (startsSlash (collapseSlashes r)) eqn:F; [|reflexivity].
  apply collapseSlashes_start_inv in F. congruence.
Qed.

Lemma stripTrailingSlash_start (s : string) :
  startsSlash (stripTrailingSlash s) = true -> startsSlash s = true.
Proof.
  destruct s as [|c r]; [trivial|]. simpl. destruct r; [|trivial].
  destruct (Ascii.eqb c "/") eqn:E; simpl; [discriminate|]. rewrite E. trivial.
Qed.

Lemma stripTrailingSlash_double (s : string) :
  doubleSlash s = false -> doubleSlash (stripTrailingSlash s) = false.
Proof.
  induction s as [|c r IH]; [reflexivity|]. intros H.
  cbn [doubleSlash] in H. apply orb_false_elim in H. destruct H as [H1 H2].
  cbn [stripTrailingSlash]. destruct r as [|d r'].
  - destruct (Ascii.eqb c "/") eqn:E; simpl; rewrite ?E; reflexivity.
  - cbn [doubleSlash]. rewrite (IH H2), orb_false_r.
    destruct (Ascii.eqb c "/"); [|reflexivity]. cbn [andb startsSlash] in H1. cbn [andb].
    destruct (startsSlash (stripTrailingSlash (String d r'))) eqn:F; [|reflexivity].
    apply stripTrailingSlash_start in F. cbn [startsSlash] in F. congruence.
Qed.

Lemma stripTrailingSlash_empty (s : string) :
  stripTrailingSlash s = EmptyString -> s = EmptyString \/ s = "/"%string.
Proof.
  destruct s as [|c r]; [tauto|]. simpl. destruct r; [|discriminate].
  destruct (Ascii.eqb_spec c "/") as [->|ne]; [tauto|discriminate].
Qed.

Lemma stripTrailingSlash_end (s : string) :
  doubleSlash s = false -> endsSlash (stripTrailingSlash s) = false.
Proof.
  induction s as [|c r IH]; [reflexivity|]. intros H.
  cbn [doubleSlash] in H. apply orb_false_elim in H. destruct H as [H1 H2].
  cbn [stripTrailingSlash]. destruct r as [|d r'].
  - destruct (Ascii.eqb c "/") eqn:E; [reflexivity|]. simpl. exact E.
  - cbn [endsSlash]. destruct (stripTrailingSlash (String d r')) eqn:T; [|exact (IH H2)].
    apply stripTrailingSlash_empty in T. destruct T as [T|T]; [discriminate|].
    injection T as -> ->. simpl in H1. rewrite andb_true_r in H1. exact H1.
Qed.

Lemma append_slash_start (n : string) :
  n <> EmptyString -> startsSlash (n ++ "/") = startsSlash n.
Proof. destruct n; [congruence|reflexivity]. Qed.

Lemma append_slash_double (n : string) :
  doubleSlash n = false -> endsSlash n = false -> doubleSlash (n ++ "/") = false.
Proof.
  induction n as [|c r IH]; [reflexivity|]. intros H E.
  cbn [doubleSlash] in H. apply orb_false_elim in H. destruct H as [H1 H2].
  cbn [String.append doubleSlash]. destruct r as [|d r'].
  - simpl in *. rewrite E. reflexivity.
  - rewrite (IH H2 E), orb_false_r. exact H1.
Qed.

(** What [normalizeFolder] gives: no slash at either end, no two in a row. *)
Lemma normalizeFolder_normal (uploadFolder : string) :
  startsSlash (normalizeFolder uploadFolder) = false /\
  endsSlash (normalizeFolder uploadFolder) = false /\
  doubleSlash (normalizeFolder uploadFolder) = false.
Proof.
  unfold normalizeFolder. destruct uploadFolder as [|c r]; [repeat split|].
  set (u := String c r).
  pose proof (collapseSlashes_double (stripLeadingSlashes u)) as D.
  pose proof (collapseSlashes_start _ (stripLeadingSlashes_start u)) as S.
  repeat split.
  - destruct (startsSlash (stripTrailingSlash _)) eqn:F; [|reflexivity].
    apply stripTrailingSlash_start in F. congruence.
  - apply stripTrailingSlash_end, D.
  - apply stripTrailingSlash_double, D.
Qed.

(** C5 (amended).  The Directory field of the metadata record is empty, or
    it is a normalised folder (no slash at either end, no two slashes in a
    row) followed by one slash: it never begins with a slash and never
    holds two in a row, and it ends with a slash whenever it is not empty. *)
Theorem directory_is_normalized_prefix (req : Request) (fileName fileType : string) :
  let d := Directory (initialMetadata req fileName fileType) in
  ~ beginsWithSlash d /\
  ~ hasDoubleSlash d /\
  (d = EmptyString \/
   exists n, d = (n ++ "/")%string /\ n <> EmptyString /\
             ~ beginsWithSlash n /\ ~ endsWithSlash n /\ ~ hasDoubleSlash n).
Proof.
  cbv zeta. unfold initialMetadata. cbn [Directory].
  unfold normalizedFolderOf.
  match goal with |- context [normalizeFolder ?u] => generalize u end.
  intros u. destruct (normalizeFolder_normal u) as (S & E & D).
  unfold directoryOf. destruct (normalizeFolder u) as [|c r] eqn:N.
  - split; [intros [? ?]; discriminate|]. split; [|left; reflexivity].
    intros H. apply doubleSlash_spec in H. discriminate.
  - rewrite <- N in *. assert (ne : normalizeFolder u <> EmptyString) by congruence.
    split; [|split].
    + intros H. apply startsSlash_spec in H.
      rewrite append_slash_start in H by exact ne. congruence.
    + intros H. apply doubleSlash_spec in H.
      rewrite append_slash_double in H by assumption. discriminate.
    + right. exists (normalizeFolder u). split; [reflexivity|]. split; [exact ne|].
      split; [|split]; intros H.
      * apply startsSlash_spec in H. congruence.
      * apply endsSlash_spec in H. congruence.
      * apply doubleSlash_spec in H. congruence.
Qed.

(** The claim as written fails: a request for folder [a] gets [a/]. *)
Lemma directory_ends_with_slash :
  let req := mkRequest [("uploadFolder", "a")] "https://img.example"
                       (mkFormFile (Some "image/png") (Some "cat.png") 1024)
                       "203.0.113.7" "Nowhere" 0 None (fun _ => true) "abc.png" in
  Directory (initialMetadata req "cat.png" "image/png") = "a/"%string /\
  endsWithSlash (Directory (initialMetadata req "cat.png" "image/png")).
Proof.
  cbv zeta. split; [reflexivity|]. exists "a"%string. reflexivity.
Qed.
(** * Failover *)

Lemma failed_dec (r : outcome Response) : failed r \/ ~ failed r.
Proof.
  destruct r as [res|e].
  - destruct (Z.eq_dec (status res) 200) as [E|E].
    + right. intros (res' & H & ne). injection H as <-. contradiction.
    + left. exists res. split; [reflexivity|exact E].
  - right. intros (res' & H & _). discriminate.
Qed.

Lemma succeeded_not_failed (r : outcome Response) :
  succeeded r = true -> ~ failed r.
Proof.
  intros S (res & -> & ne). simpl in S. apply Z.eqb_eq in S. contradiction.
Qed.

Lemma keys_dictSet_fresh (o : Dict) (k v : string) :
  ~ In k (keys o) -> keys (dictSet o k v) = keys o ++ [k].
Proof.
  induction o as [|[k' v'] r IH]; intros H; [reflexivity|].
  simpl in *. destruct (String.eqb_spec k' k) as [->|ne]; [tauto|].
  simpl. rewrite IH by tauto. reflexivity.
Qed.

Lemma textsNonEmpty_dictSet (o : Dict) (k v : string) :
  textsNonEmpty o -> v <> EmptyString -> textsNonEmpty (dictSet o k v).
Proof.
  unfold textsNonEmpty. induction o as [|[k' v'] r IH]; intros H nv.
  - constructor; [exact nv|constructor].
  - simpl. inversion H; subst. destruct (String.eqb k' k); constructor; auto.
Qed.

Lemma spGet_spSet (sp : SearchParams) (k v : string) :
  spGet (spSet sp k v) k = Some v.
Proof.
  induction sp as [|[k' v'] r IH]; simpl.
  - rewrite String.eqb_refl. reflexivity.
  - destruct (String.eqb k' k) eqn:E; simpl.
    + rewrite String.eqb_refl. reflexivity.
    + rewrite E. exact IH.
Qed.

Lemma append_differs (s t : string) : t <> EmptyString -> s <> (s ++ t)%string.
Proof.
  intros nt. induction s as [|c s IH]; simpl.
  - intros H. apply nt. symmetry. exact H.
  - intros H. injection H as H. contradiction.
Qed.

Lemma channelList_nodup : NoDup channelList.
Proof.
  unfold channelList.
  repeat (constructor; [simpl; intuition discriminate|]). constructor.
Qed.

Lemma retry_key_fresh (c ch : string) :
  In c channelList -> In ch channelList -> c <> (ch ++ "_retry")%string.
Proof.
  unfold channelList. simpl. intuition (subst; discriminate).
Qed.



Section FailoverFacts.

Variable W : Type.
Variable uploadFileToCloudflareR2 : Uploader W.
Variable uploadFileToS3 : Uploader W.
Variable uploadFileToTelegram : Uploader W.
Variable uploadFileToExternal : Uploader W.
Variable uploadFileToDiscord : Uploader W.
Variable uploadFileToHuggingFace : Uploader W.
Variable JSON_src : string -> string.
Variable JSON_dict : Dict -> string.

Local Abbreviation uploaderOf' :=
  (uploaderOf W uploadFileToCloudflareR2 uploadFileToS3 uploadFileToTelegram
              uploadFileToDiscord uploadFileToHuggingFace).
Local Abbreviation callChannel' :=
  (callChannel W uploadFileToCloudflareR2 uploadFileToS3 uploadFileToTelegram
               uploadFileToDiscord uploadFileToHuggingFace).
Local Abbreviation switchChannels' :=
  (switchChannels W uploadFileToCloudflareR2 uploadFileToS3 uploadFileToTelegram
                  uploadFileToDiscord uploadFileToHuggingFace JSON_src JSON_dict).
Local Abbreviation tryRetry' :=
  (tryRetry W uploadFileToCloudflareR2 uploadFileToS3 uploadFileToTelegram
            uploadFileToDiscord uploadFileToHuggingFace JSON_src JSON_dict).
Local Abbreviation firstUpload' :=
  (firstUpload W uploadFileToCloudflareR2 uploadFileToS3 uploadFileToTelegram
               uploadFileToExternal uploadFileToDiscord uploadFileToHuggingFace
               JSON_src JSON_dict).
Local Abbreviation text' := (text JSON_src JSON_dict).
Local Abbreviation callsFrom' :=
  (callsFrom W uploadFileToCloudflareR2 uploadFileToS3 uploadFileToTelegram
             uploadFileToDiscord uploadFileToHuggingFace).
Local Abbreviation processFileUpload' :=
  (processFileUpload W uploadFileToCloudflareR2 uploadFileToS3 uploadFileToTelegram
                     uploadFileToExternal uploadFileToDiscord uploadFileToHuggingFace
                     JSON_src JSON_dict).

Lemma call_run (fam : string) (up : Uploader W) (args : UploadArgs)
      (st : Store W) (log : list Attempt) :
  call W fam up args (st, log)
  = (fst (up args st), (snd (up args st), log ++ [logged W fam st (fst (up args st))])).
Proof. unfold call, logged. destruct (up args st) as [r st']. reflexivity. Qed.

Lemma callChannel_run (ch : string) (args : UploadArgs)
      (st : Store W) (log : list Attempt) :
  callChannel' ch args (st, log)
  = match uploaderOf' ch with
    | Some up =>
        (match fst (up args st) with Ret r => Ret (Some r) | Throw e => Throw e end,
         (snd (up args st), log ++ [logged W ch st (fst (up args st))]))
    | None => (Ret None, (st, log))
    end.
Proof.
  unfold callChannel, uploaderOf.
  repeat match goal with
         | |- context [String.eqb ch ?s] => destruct (String.eqb ch s)
         end;
    try reflexivity;
    unfold mbind; rewrite call_run;
    match goal with |- context [fst (?u args st)] => destruct (fst (u args st)) end;
    reflexivity.
Qed.

Lemma uploaderOf_known (ch : string) :
  In ch channelList -> exists up, uploaderOf' ch = Some up.
Proof.
  unfold channelList. simpl.
  intros [<-|[<-|[<-|[<-|[<-|[]]]]]]; eexists; reflexivity.
Qed.


Lemma error_text_nonempty (a b : string) : ("Error: " ++ a ++ b)%string <> EmptyString.
Proof. discriminate. Qed.

(** One run of the loop: what it adds to the log, where it stops, and the
    report it builds when every family fails. *)
Lemma switchChannels_run (uploadChannel : string) (args : UploadArgs) :
  forall (rest : list string) (errMessages : Dict) (st : Store W) (log : list Attempt),
    Forall (fun c => In c channelList) rest ->
    NoDup rest ->
    (forall c, In c rest -> c <> uploadChannel -> ~ In c (keys errMessages)) ->
    textsNonEmpty errMessages ->
    exists new,
      snd (snd (switchChannels' rest uploadChannel args errMessages (st, log)))
      = log ++ new /\
      (exists k, map family new = firstn k (others uploadChannel rest)) /\
      (forall a, In a new ->
                 exists up s, uploaderOf' (family a) = Some up /\
                              result a = fst (up args s)) /\
      (forall pre a post,
          new = pre ++ a :: post -> ~ failed (result a) ->
          post = [] /\
          fst (switchChannels' rest uploadChannel args errMessages (st, log)) = result a) /\
      ((forall a, In a new -> failed (result a)) ->
       map family new = others uploadChannel rest /\
       exists errs,
         fst (switchChannels' rest uploadChannel args errMessages (st, log))
         = Ret (createResponse (DictBody errs) 500) /\
         keys errs = keys errMessages ++ others uploadChannel rest /\
         textsNonEmpty errs).
Proof.
  induction rest as [|c rest IH]; intros errs st log Hknown Hnodup Hfresh Htexts.
  - exists []. simpl. rewrite !List.app_nil_r. split; [reflexivity|].
    split; [exists 0%nat; reflexivity|]. split; [intros a []|]. split.
    + intros pre a post H. destruct pre; discriminate.
    + intros _. split; [reflexivity|]. exists errs. auto.
  - inversion Hknown as [|? ? Hc Hknown']; subst.
    inversion Hnodup as [|? ? Hnotin Hnodup']; subst.
    cbn [switchChannels]. unfold others. cbn [filter]. fold (others uploadChannel rest).
    destruct (String.eqb_spec c uploadChannel) as [->|ne]; cbn [negb].
    + apply IH; auto. intros c' Hc'. apply Hfresh. right. exact Hc'.
    + unfold mbind. rewrite callChannel_run.
      destruct (uploaderOf_known c Hc) as [up Hup]. rewrite Hup.
      destruct (up args st) as [r st1] eqn:Eup. cbn [fst snd].
      assert (Hcall : forall a, In a [logged W c st r] ->
                                exists up0 s, uploaderOf' (family a) = Some up0 /\
                                              result a = fst (up0 args s)).
      { intros a [<-|[]]. exists up, st. rewrite Eup. split; [exact Hup|reflexivity]. }
      destruct r as [res|e].
      * destruct (Z.eqb_spec (status res) 200) as [E200|E200].
        -- (* a success ends the loop *)
           exists [logged W c st (Ret res)]. cbn [mret fst snd].
           split; [reflexivity|]. split; [exists 1%nat; reflexivity|].
           split; [exact Hcall|]. split.
           ++ intros pre a post H _.
              destruct pre as [|x pre]; [|destruct pre; discriminate].
              injection H as <- <-. split; reflexivity.
           ++ intros H. exfalso.
              destruct (H _ (or_introl eq_refl)) as (res' & Hr & ne'). cbn in Hr.
              injection Hr as <-. contradiction.
        -- (* a failure: the loop goes on *)
           set (errs1 := dictSet errs c ("Error: " ++ c ++ text' res)).
           assert (Hkeys1 : keys errs1 = keys errs ++ [c]).
           { apply keys_dictSet_fresh. apply Hfresh; [left; reflexivity|exact ne]. }
           destruct (IH errs1 st1 (log ++ [logged W c st (Ret res)]) Hknown' Hnodup')
             as (new & Hlog & [k Hk] & Hcalls & Hstop & Hall).
           { intros c' Hc' ne'. rewrite Hkeys1. intros Hin.
             apply in_app_or in Hin. destruct Hin as [Hin|[<-|[]]].
             - revert Hin. apply Hfresh; [right; exact Hc'|exact ne'].
             - contradiction. }
           { apply textsNonEmpty_dictSet; [exact Htexts|apply error_text_nonempty]. }
           exists (logged W c st (Ret res) :: new).
           split; [rewrite Hlog, <- app_assoc; reflexivity|].
           split; [exists (S k); cbn [map firstn family logged]; rewrite Hk; reflexivity|].
           split.
           { intros a [<-|Ha]; [apply Hcall; left; reflexivity|apply Hcalls; exact Ha]. }
           split.
           ++ intros pre a post H nf. destruct pre as [|x pre].
              ** injection H as <- <-. exfalso. apply nf. exists res. split; [reflexivity|exact E200].
              ** injection H as <- H. apply (Hstop pre a post H nf).
           ++ intros H. destruct Hall as (Hfam & errs' & Hr & Hk' & Ht').
              { intros a Ha. apply H. right. exact Ha. }
              split; [cbn [map family logged]; rewrite Hfam; reflexivity|].
              exists errs'. split; [exact Hr|]. split; [|exact Ht'].
              rewrite Hk', Hkeys1, <- app_assoc. reflexivity.
      * (* an exception ends everything *)
        exists [logged W c st (Throw e)]. cbn [fst snd].
        split; [reflexivity|]. split; [exists 1%nat; reflexivity|].
        split; [exact Hcall|]. split.
        -- intros pre a post H _.
           destruct pre as [|x pre]; [|destruct pre; discriminate].
           injection H as <- <-. split; reflexivity.
        -- intros H. exfalso.
           destruct (H _ (or_introl eq_refl)) as (res' & Hr & _). discriminate.
Qed.


(** [tryRetry] for one of the five families: the same family first, with
    [serverCompress] set to [false], then the loop. *)
Lemma tryRetry_run (err uploadChannel : string) (args : UploadArgs)
      (st : Store W) (log : list Attempt) :
  In uploadChannel channelList ->
  exists retry new,
    snd (snd (tryRetry' err uploadChannel args (st, log))) = log ++ retry :: new /\
    family retry = uploadChannel /\
    compressFlag retry = Some "false"%string /\
    (exists k, map family new = firstn k (others uploadChannel channelList)) /\
    (forall a, In a (retry :: new) ->
               exists up s, uploaderOf' (family a) = Some up /\
                            result a = fst (up args s)) /\
    (forall pre a post,
        retry :: new = pre ++ a :: post -> ~ failed (result a) ->
        post = [] /\ fst (tryRetry' err uploadChannel args (st, log)) = result a) /\
    ((forall a, In a (retry :: new) -> failed (result a)) ->
     map family new = others uploadChannel channelList /\
     exists errs,
       fst (tryRetry' err uploadChannel args (st, log))
       = Ret (createResponse (DictBody errs) 500) /\
       keys errs
       = uploadChannel :: (uploadChannel ++ "_retry")%string
                       :: others uploadChannel channelList /\
       textsNonEmpty errs).
Proof.
  intros Hin. unfold tryRetry, mbind, disableServerCompress.
  set (st0 := mkStore (spSet (searchParams st) "serverCompress" "false")
                      (specifiedChannelName st) (metadata st) (world st)).
  rewrite callChannel_run. destruct (uploaderOf_known uploadChannel Hin) as [up Hup].
  rewrite Hup. destruct (up args st0) as [r st1] eqn:Eup. cbn [fst snd].
  assert (Hcall : forall a, In a [logged W uploadChannel st0 r] ->
                            exists up0 s, uploaderOf' (family a) = Some up0 /\
                                          result a = fst (up0 args s)).
  { intros a [<-|[]]. exists up, st0. rewrite Eup. split; [exact Hup|reflexivity]. }
  assert (Hflag : compressFlag (logged W uploadChannel st0 r) = Some "false"%string).
  { unfold logged, st0. cbn [compressFlag searchParams]. apply spGet_spSet. }
  assert (Hsingle :
            forall (out : outcome Response) (pre : list Attempt) (a : Attempt)
                   (post : list Attempt),
              out = r ->
              [logged W uploadChannel st0 r] = pre ++ a :: post ->
              post = [] /\ out = result a).
  { intros out pre a post -> H.
    destruct pre as [|x pre]; [|destruct pre; discriminate].
    injection H as <- <-. split; reflexivity. }
  destruct r as [res|e].
  - destruct (Z.eqb_spec (status res) 200) as [E200|E200].
    + exists (logged W uploadChannel st0 (Ret res)), []. cbn [mret fst snd].
      split; [reflexivity|]. split; [reflexivity|]. split; [exact Hflag|].
      split; [exists 0%nat; reflexivity|]. split; [exact Hcall|]. split.
      * intros pre a post H _. apply (Hsingle _ pre a post eq_refl H).
      * intros H. exfalso.
        destruct (H _ (or_introl eq_refl)) as (res' & Hr & ne'). cbn in Hr.
        injection Hr as <-. contradiction.
    + set (errs0 := dictSet [] uploadChannel ("Error: " ++ uploadChannel ++ err)).
      set (errs1 := dictSet errs0 (uploadChannel ++ "_retry")
                            ("Error: " ++ uploadChannel ++ " retry - " ++ text' res)).
      assert (Hkeys : keys errs1 = [uploadChannel; (uploadChannel ++ "_retry")%string]).
      { unfold errs1. rewrite keys_dictSet_fresh; [reflexivity|].
        unfold errs0. simpl. intros [H|[]]. revert H. apply append_differs. discriminate. }
      destruct (switchChannels_run uploadChannel args channelList errs1 st1
                  (log ++ [logged W uploadChannel st0 (Ret res)]))
        as (new & Hlog & Hk & Hcalls & Hstop & Hall).
      { apply Forall_forall. auto. }
      { apply channelList_nodup. }
      { intros c Hc ne. rewrite Hkeys. intros [H|[H|[]]].
        - apply ne. symmetry. exact H.
        - revert H. intros H. apply (retry_key_fresh c uploadChannel Hc Hin). symmetry. exact H. }
      { unfold errs1, errs0. apply textsNonEmpty_dictSet; [|discriminate].
        apply textsNonEmpty_dictSet; [constructor|discriminate]. }
      exists (logged W uploadChannel st0 (Ret res)), new.
      split; [rewrite Hlog, <- app_assoc; reflexivity|].
      split; [reflexivity|]. split; [exact Hflag|]. split; [exact Hk|]. split.
      { intros a [<-|Ha]; [apply Hcall; left; reflexivity|apply Hcalls; exact Ha]. }
      split.
      * intros pre a post H nf. destruct pre as [|x pre].
        -- injection H as <- <-. exfalso. apply nf. exists res. split; [reflexivity|exact E200].
        -- injection H as <- H. apply (Hstop pre a post H nf).
      * intros H. destruct Hall as (Hfam & errs & Hr & Hk' & Ht).
        { intros a Ha. apply H. right. exact Ha. }
        split; [exact Hfam|]. exists errs. split; [exact Hr|]. split; [|exact Ht].
        rewrite Hk', Hkeys. reflexivity.
  - exists (logged W uploadChannel st0 (Throw e)), []. cbn [fst snd].
    split; [reflexivity|]. split; [reflexivity|]. split; [exact Hflag|].
    split; [exists 0%nat; reflexivity|]. split; [exact Hcall|]. split.
    + intros pre a post H _. apply (Hsingle _ pre a post eq_refl H).
    + intros H. exfalso.
      destruct (H _ (or_introl eq_refl)) as (res' & Hr & _). discriminate.
Qed.


(** The first upload of a request for one of the five families: either its
    result is returned, or [tryRetry] takes over with its error text. *)
Lemma firstUpload_run (uploadChannel : string) (autoRetry : bool) (args : UploadArgs)
      (st : Store W) (log : list Attempt) :
  In uploadChannel channelList ->
  exists up,
    uploaderOf' uploadChannel = Some up /\
    ((firstUpload' uploadChannel autoRetry args (st, log)
      = (fst (up args st),
         (snd (up args st), log ++ [logged W uploadChannel st (fst (up args st))]))
      /\ (~ failed (fst (up args st)) \/ autoRetry = false))
     \/
     (exists res,
         fst (up args st) = Ret res /\ status res <> 200 /\ autoRetry = true /\
         firstUpload' uploadChannel autoRetry args (st, log)
         = tryRetry' (text' res) uploadChannel args
                     (snd (up args st),
                      log ++ [logged W uploadChannel st (Ret res)]))).
Proof.
  intros Hin.
  assert (Hstep :
            forall up : Uploader W,
              (firstUpload' uploadChannel autoRetry args (st, log)
               = mbind W (call W uploadChannel up args)
                       (fun res =>
                          if (status res =? 200) || negb autoRetry then mret W res
                          else tryRetry' (text' res) uploadChannel args) (st, log)) ->
              uploaderOf' uploadChannel = Some up ->
              exists up0,
                uploaderOf' uploadChannel = Some up0 /\
                ((firstUpload' uploadChannel autoRetry args (st, log)
                  = (fst (up0 args st),
                     (snd (up0 args st),
                      log ++ [logged W uploadChannel st (fst (up0 args st))]))
                  /\ (~ failed (fst (up0 args st)) \/ autoRetry = false))
                 \/
                 (exists res,
                     fst (up0 args st) = Ret res /\ status res <> 200 /\ autoRetry = true /\
                     firstUpload' uploadChannel autoRetry args (st, log)
                     = tryRetry' (text' res) uploadChannel args
                                 (snd (up0 args st),
                                  log ++ [logged W uploadChannel st (Ret res)])))).
  { intros up Hrun Hup. exists up. split; [exact Hup|]. rewrite Hrun.
    unfold mbind. rewrite call_run. destruct (fst (up args st)) as [res|e] eqn:Er.
    - destruct (Z.eqb_spec (status res) 200) as [E|E]; cbn [orb].
      + left. split; [reflexivity|]. left. intros (res' & Hr & ne).
        injection Hr as <-. contradiction.
      + destruct autoRetry; cbn [negb].
        * right. exists res. repeat split; auto.
        * left. split; [reflexivity|]. right. reflexivity.
    - left. split; [reflexivity|]. left. intros (res' & Hr & _). discriminate. }
  unfold channelList in Hin. simpl in Hin.
  destruct Hin as [<-|[<-|[<-|[<-|[<-|[]]]]]]; eapply Hstep; reflexivity.
Qed.



Lemma callsFrom_app (args : UploadArgs) (l1 l2 : list Attempt) :
  forall s s1 s2 : Store W,
    callsFrom' args s l1 s1 -> callsFrom' args s1 l2 s2 -> callsFrom' args s (l1 ++ l2) s2.
Proof.
  induction l1 as [|a l1 IH]; intros s s1 s2 H1 H2; cbn [callsFrom app] in *.
  - subst s1. exact H2.
  - destruct H1 as (up & Hup & Ha & Hrest). exists up.
    split; [exact Hup|]. split; [exact Ha|]. exact (IH _ _ _ Hrest H2).
Qed.

(** One turn of the chain of comparisons: at most one call, made on the
    shared objects as they are. *)
Lemma callChannel_calls (ch : string) (args : UploadArgs)
      (st : Store W) (log : list Attempt) :
  exists new,
    snd (snd (callChannel' ch args (st, log))) = log ++ new /\
    callsFrom' args st new (fst (snd (callChannel' ch args (st, log)))).
Proof.
  rewrite callChannel_run. destruct (uploaderOf' ch) as [up|] eqn:Hup.
  - exists [logged W ch st (fst (up args st))]. cbn [fst snd callsFrom family logged].
    split; [reflexivity|]. exists up. split; [exact Hup|]. split; reflexivity.
  - exists []. cbn [fst snd callsFrom]. rewrite app_nil_r. split; reflexivity.
Qed.

(** Every line the loop adds to the log is a call of the family's upload
    function on the shared objects the call before it left. *)
Lemma switchChannels_calls (uploadChannel : string) (args : UploadArgs) :
  forall (rest : list string) (errMessages : Dict) (st : Store W) (log : list Attempt),
  exists new,
    snd (snd (switchChannels' rest uploadChannel args errMessages (st, log))) = log ++ new /\
    callsFrom' args st new
               (fst (snd (switchChannels' rest uploadChannel args errMessages (st, log)))).
Proof.
  induction rest as [|c rest IH]; intros errs st log.
  - exists []. cbn [switchChannels mret fst snd callsFrom]. rewrite app_nil_r.
    split; reflexivity.
  - cbn [switchChannels].
    destruct (negb (String.eqb c uploadChannel)); [|apply IH].
    unfold mbind.
    destruct (callChannel_calls c args st log) as (new1 & Hlog1 & Hcalls1).
    destruct (callChannel' c args (st, log)) as [[[res|]|e] [st1 log1]];
      cbn [fst snd] in Hlog1, Hcalls1; subst log1.
    + destruct (status res =? 200).
      * exists new1. cbn [mret fst snd]. split; [reflexivity|exact Hcalls1].
      * match goal with |- context [switchChannels' rest uploadChannel args ?e0 _] =>
          destruct (IH e0 st1 (log ++ new1)) as (new2 & Hlog2 & Hcalls2) end.
        exists (new1 ++ new2). rewrite Hlog2, app_assoc. split; [reflexivity|].
        exact (callsFrom_app args new1 new2 _ _ _ Hcalls1 Hcalls2).
    + destruct (IH errs st1 (log ++ new1)) as (new2 & Hlog2 & Hcalls2).
      exists (new1 ++ new2). rewrite Hlog2, app_assoc. split; [reflexivity|].
      exact (callsFrom_app args new1 new2 _ _ _ Hcalls1 Hcalls2).
    + exists new1. cbn [fst snd]. split; [reflexivity|exact Hcalls1].
Qed.

(** The same for [tryRetry]: its first call finds [serverCompress] set to
    [false]. *)
Lemma tryRetry_calls (err uploadChannel : string) (args : UploadArgs)
      (st : Store W) (log : list Attempt) :
  exists new,
    snd (snd (tryRetry' err uploadChannel args (st, log))) = log ++ new /\
    callsFrom' args (withoutCompression st) new
               (fst (snd (tryRetry' err uploadChannel args (st, log)))).
Proof.
  unfold tryRetry, mbind, disableServerCompress. fold (withoutCompression st).
  destruct (callChannel_calls uploadChannel args (withoutCompression st) log)
    as (new1 & Hlog1 & Hcalls1).
  destruct (callChannel' uploadChannel args (withoutCompression st, log))
    as [[[res|]|e] [st1 log1]];
    cbn [fst snd] in Hlog1, Hcalls1; subst log1.
  - destruct (status res =? 200).
    + exists new1. cbn [mret fst snd]. split; [reflexivity|exact Hcalls1].
    + match goal with |- context [switchChannels' channelList uploadChannel args ?e0 _] =>
        destruct (switchChannels_calls uploadChannel args channelList e0 st1 (log ++ new1))
          as (new2 & Hlog2 & Hcalls2) end.
      exists (new1 ++ new2). rewrite Hlog2, app_assoc. split; [reflexivity|].
      exact (callsFrom_app args new1 new2 _ _ _ Hcalls1 Hcalls2).
  - match goal with |- context [switchChannels' channelList uploadChannel args ?e0 _] =>
      destruct (switchChannels_calls uploadChannel args channelList e0 st1 (log ++ new1))
        as (new2 & Hlog2 & Hcalls2) end.
    exists (new1 ++ new2). rewrite Hlog2, app_assoc. split; [reflexivity|].
    exact (callsFrom_app args new1 new2 _ _ _ Hcalls1 Hcalls2).
  - exists new1. cbn [fst snd]. split; [reflexivity|exact Hcalls1].
Qed.

(** In a list of attempts either all failed or one did not. *)
Lemma all_failed_or_not (l : list Attempt) :
  (forall a, In a l -> failed (result a)) \/
  (exists pre a post, l = pre ++ a :: post /\ ~ failed (result a)).
Proof.
  induction l as [|x l IH].
  - left. intros a [].
  - destruct (failed_dec (result x)) as [F|F].
    + destruct IH as [IH|(pre & a & post & -> & nf)].
      * left. intros a [<-|Ha]; [exact F|exact (IH a Ha)].
      * right. exists (x :: pre), a, post. split; [reflexivity|exact nf].
    + right. exists [], x, l. split; [reflexivity|exact F].
Qed.



Lemma others_length (uploadChannel : string) :
  In uploadChannel channelList ->
  List.length (others uploadChannel channelList) = 4%nat /\
  List.length (nodup string_dec
                 (uploadChannel :: uploadChannel :: others uploadChannel channelList))
  = 5%nat.
Proof.
  unfold channelList. simpl.
  intros [<-|[<-|[<-|[<-|[<-|[]]]]]]; split; vm_compute; reflexivity.
Qed.

(** C2 (amended).  When every upload attempt of a request fails and
    auto-retry is on, the response has status 500 and its body is the JSON
    text of an object with one key for each of the five attempted families
    and one more, [<family>_retry], for the second attempt at the original
    family: six keys for five families, each with a non-empty text.  The
    attempts are the calls the request made: the first upload, then the
    calls of [tryRetry], each on the shared objects the call before it
    left. *)
Theorem exhausted_report_keys (uploadChannel : string) (args : UploadArgs)
        (st : Store W) (log new : list Attempt) :
  In uploadChannel channelList ->
  snd (snd (firstUpload' uploadChannel true args (st, log))) = log ++ new ->
  (forall a, In a new -> failed (result a)) ->
  exists errs,
    fst (firstUpload' uploadChannel true args (st, log))
    = Ret (createResponse (DictBody errs) 500) /\
    map family new = uploadChannel :: uploadChannel :: others uploadChannel channelList /\
    keys errs
    = uploadChannel :: (uploadChannel ++ "_retry")%string
                    :: others uploadChannel channelList /\
    textsNonEmpty errs /\
    List.length (nodup string_dec (map family new)) = 5%nat /\
    List.length (keys errs) = 6%nat /\
    exists up rest,
      uploaderOf' uploadChannel = Some up /\
      new = logged W uploadChannel st (fst (up args st)) :: rest /\
      callsFrom' args (withoutCompression (snd (up args st))) rest
                 (fst (snd (firstUpload' uploadChannel true args (st, log)))).
Proof.
  intros Hin Hnew Hfail.
  destruct (firstUpload_run uploadChannel true args st log Hin)
    as (up & Hup & [[Hrun [Hnf|Hoff]]|(res & Hres & Hne & _ & Hrun)]);
    try discriminate.
  - exfalso. rewrite Hrun in Hnew. cbn [fst snd] in Hnew.
    apply app_inv_head in Hnew. subst new. apply Hnf. apply (Hfail _ (or_introl eq_refl)).
  - destruct (tryRetry_run (text' res) uploadChannel args (snd (up args st))
                (log ++ [logged W uploadChannel st (Ret res)]) Hin)
      as (retry & rest & Hlog & Hfam & Hflag & _ & _ & _ & Hall).
    destruct (tryRetry_calls (text' res) uploadChannel args (snd (up args st))
                (log ++ [logged W uploadChannel st (Ret res)]))
      as (new' & Hlog' & Hcalls).
    rewrite Hlog in Hlog'. apply app_inv_head in Hlog'. subst new'.
    rewrite Hrun, Hlog, <- app_assoc in Hnew. apply app_inv_head in Hnew.
    cbn [app] in Hnew. subst new.
    destruct Hall as (Hrest & errs & Hout & Hkeys & Htexts).
    { intros a Ha. apply Hfail. right. exact Ha. }
    destruct (others_length uploadChannel Hin) as [Hlen4 Hlen5].
    exists errs. rewrite Hrun, Hout. split; [reflexivity|].
    assert (Hfams : map family (logged W uploadChannel st (Ret res) :: retry :: rest)
                    = uploadChannel :: uploadChannel :: others uploadChannel channelList).
    { cbn [map family logged]. rewrite Hfam, Hrest. reflexivity. }
    split; [exact Hfams|]. split; [exact Hkeys|]. split; [exact Htexts|].
    split; [rewrite Hfams; exact Hlen5|].
    split; [rewrite Hkeys; cbn [List.length]; rewrite Hlen4; reflexivity|].
    exists up, (retry :: rest). rewrite Hres. split; [exact Hup|].
    split; [reflexivity|exact Hcalls].
Qed.


Lemma selectUploadChannel_cases (p : option string) :
  selectUploadChannel p = "External"%string \/ In (selectUploadChannel p) channelList.
Proof.
  unfold selectUploadChannel, channelList. destruct p as [p|]; [|simpl; tauto].
  repeat match goal with
         | |- context [String.eqb p ?s] => destruct (String.eqb p s)
         end; simpl; tauto.
Qed.

(** The first upload and what follows stop at the first attempt that
    returns anything but a failure response. *)
Lemma firstUpload_stops (uploadChannel : string) (autoRetry : bool) (args : UploadArgs)
      (st : Store W) :
  uploadChannel = "External"%string \/ In uploadChannel channelList ->
  forall pre a post,
    snd (snd (firstUpload' uploadChannel autoRetry args (st, []))) = pre ++ a :: post ->
    ~ failed (result a) ->
    post = [] /\ fst (firstUpload' uploadChannel autoRetry args (st, [])) = result a.
Proof.
  intros [->|Hin] pre a post.
  - unfold firstUpload. cbn [String.eqb Ascii.eqb Bool.eqb andb]. rewrite call_run.
    cbn [fst snd app]. intros H _.
    destruct pre as [|x pre]; [|destruct pre; discriminate].
    injection H as <- <-. split; reflexivity.
  - destruct (firstUpload_run uploadChannel autoRetry args st [] Hin)
      as (up & Hup & [[Hrun _]|(res & Hres & Hne & _ & Hrun)]).
    + rewrite Hrun. cbn [fst snd app]. intros H _.
      destruct pre as [|x pre]; [|destruct pre; discriminate].
      injection H as <- <-. split; reflexivity.
    + rewrite Hrun.
      destruct (tryRetry_run (text' res) uploadChannel args (snd (up args st))
                  ([] ++ [logged W uploadChannel st (Ret res)]) Hin)
        as (retry & rest & Hlog & _ & _ & _ & _ & Hstop & _).
      rewrite Hlog. cbn [app]. intros H nf. destruct pre as [|x pre].
      * injection H as <- _. exfalso. apply nf. exists res. split; [reflexivity|exact Hne].
      * injection H as _ H. apply (Hstop pre a post H nf).
Qed.

Lemma processFileUpload_valid (req : Request) (w : W) (fileType fileName : string) :
  ftype (req_file req) = Some fileType ->
  fname (req_file req) = Some fileName ->
  let run :=
    firstUpload' (selectUploadChannel (spGet (req_searchParams req) "uploadChannel"))
                 (autoRetryOf (req_searchParams req))
                 (uploadArgsOf req fileName fileType)
                 (initialStore W req fileName fileType w, []) in
  fst (processFileUpload' req w) = fst run /\
  snd (snd (processFileUpload' req w)) = snd (snd run).
Proof.
  intros Ht Hn. cbv zeta. unfold processFileUpload. rewrite Ht, Hn.
  destruct (firstUpload' _ _ _ _) as [r [st log]]. split; reflexivity.
Qed.

(** C7.  In one request, an attempt that returns success is the last call
    of an upload function, and its response is what the request returns. *)
Theorem stops_at_first_success (req : Request) (w : W)
        (pre : list Attempt) (a : Attempt) (post : list Attempt) :
  snd (snd (processFileUpload' req w)) = pre ++ a :: post ->
  succeeded (result a) = true ->
  post = [] /\ fst (processFileUpload' req w) = result a.
Proof.
  intros Hlog Hok.
  destruct (ftype (req_file req)) as [fileType|] eqn:Ht;
    [destruct (fname (req_file req)) as [fileName|] eqn:Hn|].
  - destruct (processFileUpload_valid req w fileType fileName Ht Hn) as [Hr Hl].
    rewrite Hr. rewrite Hl in Hlog.
    refine (firstUpload_stops _ _ _ _ _ pre a post Hlog (succeeded_not_failed _ Hok)).
    destruct (selectUploadChannel_cases (spGet (req_searchParams req) "uploadChannel"));
      tauto.
  - unfold processFileUpload in Hlog. rewrite Ht, Hn in Hlog.
    destruct pre; discriminate.
  - unfold processFileUpload in Hlog. rewrite Ht in Hlog.
    destruct pre; discriminate.
Qed.

(** C9.  A request whose [uploadChannel] parameter is missing or is none of
    the six recognised values is not turned away: the Telegram upload
    function is called first, on the shared objects as the request made
    them.  When that call does not fail, or auto-retry is off, its result
    is the answer of the request and nothing else is called.  When it fails
    and auto-retry is on, the other calls follow on what it left with
    [serverCompress] set to [false], and the answer is the result of the
    last call when that is no failure, and the report of status 500 only
    when every call failed. *)
Theorem unrecognized_channel_goes_to_telegram (req : Request) (w : W)
        (fileType fileName : string) :
  ftype (req_file req) = Some fileType ->
  fname (req_file req) = Some fileName ->
  (forall v, spGet (req_searchParams req) "uploadChannel" = Some v ->
             ~ In v recognizedChannels) ->
  let st0 := initialStore W req fileName fileType w in
  let args0 := uploadArgsOf req fileName fileType in
  let first := uploadFileToTelegram args0 st0 in
  let out := processFileUpload' req w in
  selectUploadChannel (spGet (req_searchParams req) "uploadChannel")
  = "TelegramNew"%string /\
  exists rest,
    snd (snd out) = logged W "TelegramNew" st0 (fst first) :: rest /\
    (~ failed (fst first) \/ autoRetryOf (req_searchParams req) = false ->
     rest = [] /\ fst out = fst first /\ fst (snd out) = Some (snd first)) /\
    (failed (fst first) -> autoRetryOf (req_searchParams req) = true ->
     exists retry others stEnd,
       rest = retry :: others /\
       retry = logged W "TelegramNew" (withoutCompression (snd first))
                      (fst (uploadFileToTelegram args0 (withoutCompression (snd first)))) /\
       fst (snd out) = Some stEnd /\
       callsFrom' args0 (withoutCompression (snd first)) rest stEnd /\
       ((exists pre a, rest = pre ++ [a] /\ ~ failed (result a) /\ fst out = result a) \/
        ((forall a, In a rest -> failed (result a)) /\
         exists errs,
           fst out = Ret (createResponse (DictBody errs) 500) /\
           keys errs = ["TelegramNew"; "TelegramNew_retry"; "CloudflareR2"; "S3";
                        "HuggingFace"; "Discord"]%string))).
Proof.
  intros Ht Hn Hun. cbv zeta.
  assert (Hsel : selectUploadChannel (spGet (req_searchParams req) "uploadChannel")
                 = "TelegramNew"%string).
  { unfold selectUploadChannel.
    destruct (spGet (req_searchParams req) "uploadChannel") as [p|]; [|reflexivity].
    specialize (Hun p eq_refl). unfold recognizedChannels in Hun. simpl in Hun.
    repeat match goal with
           | |- context [String.eqb p ?s] =>
               destruct (String.eqb_spec p s) as [E|E];
               [exfalso; apply Hun; rewrite E; auto 10|clear E]
           end.
    reflexivity. }
  split; [exact Hsel|].
  set (st0 := initialStore W req fileName fileType w).
  set (args0 := uploadArgsOf req fileName fileType).
  assert (Hout : processFileUpload' req w
                 = (fst (firstUpload' "TelegramNew" (autoRetryOf (req_searchParams req))
                                      args0 (st0, [])),
                    (Some (fst (snd (firstUpload' "TelegramNew"
                                       (autoRetryOf (req_searchParams req))
                                       args0 (st0, [])))),
                     snd (snd (firstUpload' "TelegramNew"
                                 (autoRetryOf (req_searchParams req))
                                 args0 (st0, [])))))).
  { unfold processFileUpload. rewrite Ht, Hn, Hsel. fold st0 args0.
    destruct (firstUpload' _ _ _ _) as [r [st log]]. reflexivity. }
  rewrite Hout. cbn [fst snd].
  assert (Hin : In "TelegramNew"%string channelList) by (unfold channelList; simpl; tauto).
  destruct (firstUpload_run "TelegramNew" (autoRetryOf (req_searchParams req))
                            args0 st0 [] Hin)
    as (up & Hup & [[Hrun Hwhy]|(res & Hres & Hne & Hauto & Hrun)]);
    injection Hup as <-; rewrite Hrun.
  - exists []. cbn [fst snd app]. split; [reflexivity|].
    split; [intros _; repeat split|].
    intros Hf Ha. exfalso. destruct Hwhy as [Hnf|Hoff]; [exact (Hnf Hf)|congruence].
  - destruct (tryRetry_run (text' res) "TelegramNew" args0
                (snd (uploadFileToTelegram args0 st0))
                ([] ++ [logged W "TelegramNew" st0 (Ret res)]) Hin)
      as (retry & rest & Hlog & Hfam & _ & _ & _ & Hstop & Hall).
    destruct (tryRetry_calls (text' res) "TelegramNew" args0
                (snd (uploadFileToTelegram args0 st0))
                ([] ++ [logged W "TelegramNew" st0 (Ret res)]))
      as (new & Hlog' & Hcalls).
    rewrite Hlog in Hlog'. apply app_inv_head in Hlog'. subst new.
    rewrite Hlog, Hres. exists (retry :: rest). split; [reflexivity|].
    split.
    { intros [Hnf|Hoff]; [|congruence].
      exfalso. apply Hnf. exists res. split; [reflexivity|exact Hne]. }
    intros _ _. exists retry, rest. eexists. split; [reflexivity|].
    split.
    { pose proof Hcalls as Hc. cbn [callsFrom] in Hc.
      destruct Hc as (up' & Hup' & Hretry & _). rewrite Hfam in Hup'.
      injection Hup' as <-. rewrite Hfam in Hretry. exact Hretry. }
    split; [reflexivity|]. split; [exact Hcalls|].
    destruct (all_failed_or_not (retry :: rest)) as [Hfailed|(pre & a & post & Hsplit & nf)].
    + right. split; [exact Hfailed|].
      destruct (Hall Hfailed) as (_ & errs & Hr & Hk & _).
      exists errs. split; [exact Hr|]. rewrite Hk. reflexivity.
    + left. destruct (Hstop pre a post Hsplit nf) as [-> Hr].
      exists pre, a. split; [exact Hsplit|]. split; [exact nf|exact Hr].
Qed.

End FailoverFacts.
(** ** The failover theorems on concrete runs *)

(** Every back end is down. *)
Local Abbreviation allDown :=
  (processFileUpload nat (alwaysFails " r2 down") (alwaysFails " s3 down")
                     (alwaysFails " tg down") (alwaysFails " ext down")
                     (alwaysFails " dc down") (alwaysFails " hf down")
                     noText noText).

(** Only Telegram is up. *)
Local Abbreviation telegramUp :=
  (processFileUpload nat (alwaysFails " r2 down") (alwaysFails " s3 down")
                     alwaysSucceeds (alwaysFails " ext down")
                     (alwaysFails " dc down") (alwaysFails " hf down")
                     noText noText).

(** The claim as written fails: five families were tried, and the report
    has six keys. *)
Lemma exhausted_report_has_retry_key :
  let out := allDown (exampleRequest [("uploadChannel", "s3")]) 0%nat in
  exists errs,
    fst out = Ret (createResponse (DictBody errs) 500) /\
    keys errs = ["S3"; "S3_retry"; "CloudflareR2"; "TelegramNew"; "HuggingFace"; "Discord"]%string /\
    nodup string_dec (map family (snd (snd out)))
    = ["S3"; "CloudflareR2"; "TelegramNew"; "HuggingFace"; "Discord"]%string /\
    List.length (keys errs) <> List.length (nodup string_dec (map family (snd (snd out)))).
Proof.
  cbv zeta. eexists. split; [vm_compute; reflexivity|].
  split; [reflexivity|]. split; [vm_compute; reflexivity|].
  vm_compute. discriminate.
Qed.

Lemma exhausted_report_keys_witness :
  let st := initialStore nat (exampleRequest [("uploadChannel", "s3")])
                         "cat.png" "image/png" 0%nat in
  let args := uploadArgsOf (exampleRequest [("uploadChannel", "s3")])
                           "cat.png" "image/png" in
  exists errs,
    fst (firstUpload nat (alwaysFails " r2 down") (alwaysFails " s3 down")
                     (alwaysFails " tg down") (alwaysFails " ext down")
                     (alwaysFails " dc down") (alwaysFails " hf down")
                     noText noText "S3" true args (st, []))
    = Ret (createResponse (DictBody errs) 500) /\
    List.length (keys errs) = 6%nat.
Proof.
  cbv zeta.
  destruct (exhausted_report_keys nat (alwaysFails " r2 down") (alwaysFails " s3 down")
              (alwaysFails " tg down") (alwaysFails " ext down")
              (alwaysFails " dc down") (alwaysFails " hf down") noText noText "S3"
              (uploadArgsOf (exampleRequest [("uploadChannel", "s3")])
                            "cat.png" "image/png")
              (initialStore nat (exampleRequest [("uploadChannel", "s3")])
                            "cat.png" "image/png" 0%nat)
              []
              [mkAttempt "S3" None (Ret (createResponse (TextBody " s3 down") 500));
               mkAttempt "S3" (Some "false"%string)
                         (Ret (createResponse (TextBody " s3 down") 500));
               mkAttempt "CloudflareR2" (Some "false"%string)
                         (Ret (createResponse (TextBody " r2 down") 500));
               mkAttempt "TelegramNew" (Some "false"%string)
                         (Ret (createResponse (TextBody " tg down") 500));
               mkAttempt "HuggingFace" (Some "false"%string)
                         (Ret (createResponse (TextBody " hf down") 500));
               mkAttempt "Discord" (Some "false"%string)
                         (Ret (createResponse (TextBody " dc down") 500))])
    as (errs & Hout & _ & _ & _ & _ & Hlen & _).
  - unfold channelList. simpl. tauto.
  - vm_compute. reflexivity.
  - intros a Ha. simpl in Ha.
    destruct Ha as [<-|[<-|[<-|[<-|[<-|[<-|[]]]]]]];
      (eexists; split; [reflexivity|discriminate]).
  - exists errs. split; [exact Hout|exact Hlen].
Defined.


(** S3 is asked for and fails twice, R2 fails, Telegram takes the file:
    three families, four calls, and nothing after the success. *)
Lemma telegram_takes_over :
  let out := telegramUp (exampleRequest [("uploadChannel", "s3")]) 0%nat in
  map family (snd (snd out)) = ["S3"; "S3"; "CloudflareR2"; "TelegramNew"]%string /\
  map compressFlag (snd (snd out)) = [None; Some "false"; Some "false"; Some "false"]%string /\
  fst out = Ret (createResponse (SrcBody "/file/abc.png") 200).
Proof.
  cbv zeta. split; [vm_compute; reflexivity|]. split; vm_compute; reflexivity.
Qed.

Lemma stops_at_first_success_witness :
  let out := telegramUp (exampleRequest [("uploadChannel", "s3")]) 0%nat in
  (@nil Attempt = [] /\ fst out = Ret (createResponse (SrcBody "/file/abc.png") 200)).
Proof.
  cbv zeta.
  refine (stops_at_first_success nat (alwaysFails " r2 down") (alwaysFails " s3 down")
            alwaysSucceeds (alwaysFails " ext down")
            (alwaysFails " dc down") (alwaysFails " hf down") noText noText
            (exampleRequest [("uploadChannel", "s3")]) 0%nat
            [mkAttempt "S3" None (Ret (createResponse (TextBody " s3 down") 500));
             mkAttempt "S3" (Some "false"%string)
                       (Ret (createResponse (TextBody " s3 down") 500));
             mkAttempt "CloudflareR2" (Some "false"%string)
                       (Ret (createResponse (TextBody " r2 down") 500))]
            (mkAttempt "TelegramNew" (Some "false"%string)
                       (Ret (createResponse (SrcBody "/file/abc.png") 200)))
            [] _ _).
  - vm_compute. reflexivity.
  - reflexivity.
Defined.

Lemma unrecognized_channel_goes_to_telegram_witness :
  selectUploadChannel (spGet (req_searchParams (exampleRequest [("uploadChannel", "ftp")]))
                             "uploadChannel")
  = "TelegramNew"%string /\
  snd (snd (telegramUp (exampleRequest [("uploadChannel", "ftp")]) 0%nat))
  = [mkAttempt "TelegramNew" None (Ret (createResponse (SrcBody "/file/abc.png") 200))] /\
  fst (telegramUp (exampleRequest [("uploadChannel", "ftp")]) 0%nat)
  = Ret (createResponse (SrcBody "/file/abc.png") 200).
Proof.
  destruct (unrecognized_channel_goes_to_telegram nat (alwaysFails " r2 down")
              (alwaysFails " s3 down") alwaysSucceeds (alwaysFails " ext down")
              (alwaysFails " dc down") (alwaysFails " hf down") noText noText
              (exampleRequest [("uploadChannel", "ftp")]) 0%nat "image/png" "cat.png")
    as (Hsel & rest & Hlog & Hone & _).
  - reflexivity.
  - reflexivity.
  - intros v H. injection H as <-. unfold recognizedChannels. simpl.
    intuition discriminate.
  - destruct Hone as (-> & Hres & _).
    + left. intros (res & H & ne). vm_compute in H. injection H as <-.
      apply ne. reflexivity.
    + split; [exact Hsel|]. split; [rewrite Hlog; reflexivity|rewrite Hres; reflexivity].
Defined.
(** * The Discord size ceiling *)

(** C6 (amended).  When the channel chosen for the upload has a bot token
    and a channel id, a file above its ceiling (10 MiB, or 25 MiB with the
    Nitro flag) gets status 413 at once; when the chosen channel lacks
    either, the answer is the configuration error 400 whatever the size.
    In both cases nothing is sent and the shared objects are untouched. *)
Theorem discord_size_ceiling (args : UploadArgs) (st : Store Discord.DiscordWorld)
        (settings : Discord.DiscordSettings) (channels : list Discord.DiscordChannel)
        (ch : Discord.DiscordChannel) :
  Discord.dw_settings (world st) = Some settings ->
  Discord.ds_channels settings = Some channels ->
  Discord.selectDiscordChannel settings channels (specifiedChannelName st)
                               (Discord.dw_random (world st)) = Some ch ->
  fsize (Discord.dw_file (world st)) > Discord.DISCORD_MAX_SIZE (Discord.isNitroOf ch) ->
  snd (Discord.uploadFileToDiscord args st) = st /\
  (Discord.present (Discord.dc_botToken ch)
   && Discord.present (Discord.dc_channelId ch) = true ->
   exists msg,
     fst (Discord.uploadFileToDiscord args st)
     = Ret (createResponse (TextBody msg) 413)) /\
  (Discord.present (Discord.dc_botToken ch)
   && Discord.present (Discord.dc_channelId ch) = false ->
   fst (Discord.uploadFileToDiscord args st)
   = Ret (createResponse (TextBody "Error: Discord channel not properly configured") 400)) /\
  Discord.DISCORD_MAX_SIZE false = 10485760 /\
  Discord.DISCORD_MAX_SIZE true = 26214400.
Proof.
  intros Hs Hc Hsel Hsize. unfold Discord.uploadFileToDiscord.
  rewrite Hs, Hc. destruct channels as [|c0 cs].
  - unfold Discord.selectDiscordChannel in Hsel.
    destruct (Discord.present (specifiedChannelName st)); cbn [find] in Hsel;
      destruct (Discord.ds_loadBalance settings) as [[|]|];
      rewrite ?nth_error_nil in Hsel; discriminate.
  - rewrite Hsel.
    destruct (Discord.present (Discord.dc_botToken ch)
              && Discord.present (Discord.dc_channelId ch)) eqn:Hok.
    + assert (Hb : (fsize (Discord.dw_file (world st))
                    >? Discord.DISCORD_MAX_SIZE (Discord.isNitroOf ch)) = true)
        by (apply Z.gtb_lt; lia).
      rewrite Hb. cbn [fst snd].
      split; [reflexivity|]. split; [intros _; eexists; reflexivity|].
      split; [discriminate|]. split; reflexivity.
    + cbn [fst snd]. split; [reflexivity|]. split; [discriminate|].
      split; [reflexivity|]. split; reflexivity.
Qed.

(** The claim as written fails: thirty MiB for a channel without the Nitro
    flag and without a bot token is answered 400, not 413. *)
Lemma discord_oversize_without_token :
  let ch := Discord.mkDiscordChannel (Some "main") None (Some "1122") None None in
  fsize (Discord.dw_file (world (discordStore ch 31457280)))
  > Discord.DISCORD_MAX_SIZE (Discord.isNitroOf ch) /\
  Discord.uploadFileToDiscord exampleArgs (discordStore ch 31457280)
  = (Ret (createResponse (TextBody "Error: Discord channel not properly configured") 400),
     discordStore ch 31457280).
Proof.
  cbv zeta. split; [reflexivity|]. reflexivity.
Qed.

(** Thirty MiB for a channel without the Nitro flag: 413, nothing sent. *)
Lemma discord_size_ceiling_witness :
  let ch := Discord.mkDiscordChannel (Some "main") (Some "token") (Some "1122") None None in
  snd (Discord.uploadFileToDiscord exampleArgs (discordStore ch 31457280))
  = discordStore ch 31457280 /\
  exists msg,
    fst (Discord.uploadFileToDiscord exampleArgs (discordStore ch 31457280))
    = Ret (createResponse (TextBody msg) 413).
Proof.
  cbv zeta.
  destruct (discord_size_ceiling exampleArgs
              (discordStore (Discord.mkDiscordChannel (Some "main") (Some "token")
                                                      (Some "1122") None None)
                            31457280)
              (Discord.mkDiscordSettings
                 (Some [Discord.mkDiscordChannel (Some "main") (Some "token")
                                                 (Some "1122") None None])
                 None)
              [Discord.mkDiscordChannel (Some "main") (Some "token") (Some "1122") None None]
              (Discord.mkDiscordChannel (Some "main") (Some "token") (Some "1122") None None)
              eq_refl eq_refl eq_refl eq_refl)
    as (Hst & H413 & _).
  split; [exact Hst|]. apply H413. reflexivity.
Defined.

(** Within the ceiling the file is sent: here the service's answer lacks a
    file, and the function reports it with status 500. *)
Lemma discord_small_file_is_sent :
  let ch := Discord.mkDiscordChannel (Some "main") (Some "token") (Some "1122") None None in
  let out := Discord.uploadFileToDiscord exampleArgs (discordStore ch 1024) in
  Discord.dw_events (world (snd out)) = [Discord.EvSendFile "1122" "cat.png"] /\
  fst out
  = Ret (createResponse
           (TextBody "Error: Discord upload failed - Failed to get file info from Discord response")
           500).
Proof.
  cbv zeta. split; reflexivity.
Qed.
(** * The extractor *)

Lemma jseqb_true_iff (a b : list N) : jseqb a b = true <-> a = b.
Proof.
  unfold jseqb. destruct (list_eq_dec N.eq_dec a b); split; congruence.
Qed.

Lemma byteZ_range (b : byte) : 0 <= byteZ b < 256.
Proof.
  unfold byteZ. pose proof (Byte.to_N_bounded b). lia.
Qed.

Lemma getUint32_nonneg (buf : list byte) (offset len : Z) :
  getUint32 buf offset = Ret len -> 0 <= len.
Proof.
  unfold getUint32. destruct (_ || _); [discriminate|].
  destruct (firstn 4 (skipn (Z.to_nat offset) buf)) as [|b0 [|b1 [|b2 [|b3 [|? ?]]]]];
    try discriminate.
  intros H. injection H as <-.
  pose proof (byteZ_range b0). pose proof (byteZ_range b1).
  pose proof (byteZ_range b2). pose proof (byteZ_range b3). lia.
Qed.

Section ExtractorFacts.

Variable decode : list byte -> list N.
Variable JSON_parse : list N -> outcome jsval.

Local Abbreviation walk' := (walk decode JSON_parse).
Local Abbreviation visitChunk' := (visitChunk decode JSON_parse).
Local Abbreviation extractAIPrompt' := (extractAIPrompt decode JSON_parse).

(** Every turn of the loop moves the offset forward, so more fuel than the
    buffer has bytes changes nothing. *)
Lemma walk_fuel (uint8 : list byte) :
  forall (fuel : nat) (offset : Z) (st : Info * bool),
    Z.of_nat (List.length uint8) - 8 - offset <= Z.of_nat fuel ->
    walk' (S fuel) uint8 offset st = walk' fuel uint8 offset st.
Proof.
  induction fuel as [|fuel IH]; intros offset st Hfuel.
  - cbn [walk]. destruct (Z.ltb_spec offset (Z.of_nat (List.length uint8) - 8)); [lia|].
    reflexivity.
  - change (walk' (S (S fuel)) uint8 offset st)
      with (if offset <? Z.of_nat (List.length uint8) - 8
            then len <- getUint32 uint8 offset ;;
                 walk' (S fuel) uint8 (offset + 12 + len) (visitChunk' uint8 offset len st)
            else Ret st).
    change (walk' (S fuel) uint8 offset st)
      with (if offset <? Z.of_nat (List.length uint8) - 8
            then len <- getUint32 uint8 offset ;;
                 walk' fuel uint8 (offset + 12 + len) (visitChunk' uint8 offset len st)
            else Ret st).
    destruct (offset <? Z.of_nat (List.length uint8) - 8); [|reflexivity].
    destruct (getUint32 uint8 offset) as [len|e] eqn:E; [|reflexivity].
    cbn [obind]. apply IH. pose proof (getUint32_nonneg _ _ _ E). lia.
Qed.

Lemma walk_enough_fuel (uint8 : list byte) (st : Info * bool) (extra : nat) :
  walk' (List.length uint8 + extra) uint8 8 st = walk' (List.length uint8) uint8 8 st.
Proof.
  induction extra as [|extra IH]; [rewrite Nat.add_0_r; reflexivity|].
  rewrite Nat.add_succ_r, walk_fuel; [exact IH|lia].
Qed.

(** A chunk whose announced length reaches the end of the buffer is the
    last one the loop visits. *)
Lemma walk_last_chunk (fuel : nat) (uint8 : list byte) (offset len : Z)
      (st : Info * bool) :
  offset < Z.of_nat (List.length uint8) - 8 ->
  getUint32 uint8 offset = Ret len ->
  Z.of_nat (List.length uint8) - 8 <= offset + 12 + len ->
  walk' (S (S fuel)) uint8 offset st = Ret (visitChunk' uint8 offset len st).
Proof.
  intros Hin Hlen Hout. cbn [walk].
  destruct (Z.ltb_spec offset (Z.of_nat (List.length uint8) - 8)); [|lia].
  rewrite Hlen. cbn [obind].
  destruct (Z.ltb_spec (offset + 12 + len) (Z.of_nat (List.length uint8) - 8)); [lia|].
  reflexivity.
Qed.

(** C8 (amended).  The extractor never throws: it returns a result or "no
    data".  A file whose type is not image/png gets "no data" with no read.
    A chunk whose announced length runs past the end of the buffer is the
    last one visited, and a Comment text that JSON.parse rejects and that
    does not contain "masterpiece" leaves what was found so far as it was:
    neither turns data found before into "no data". *)
Theorem extractor_never_throws (file : File) :
  (exists r, snd (extractAIPrompt' file) = Ret r) /\
  (file_type file <> js "image/png" -> extractAIPrompt' file = ([], Ret None)) /\
  (forall fuel uint8 offset len st,
      offset < Z.of_nat (List.length uint8) - 8 ->
      getUint32 uint8 offset = Ret len ->
      Z.of_nat (List.length uint8) - 8 <= offset + 12 + len ->
      walk' (S (S fuel)) uint8 offset st = Ret (visitChunk' uint8 offset len st)) /\
  (forall textData st e,
      chunkKey textData = js "Comment" ->
      JSON_parse (chunkValue textData) = Throw e ->
      includes (chunkValue textData) (js "masterpiece") = false ->
      onText JSON_parse textData st = st).
Proof.
  split; [|split; [|split]].
  - unfold extractAIPrompt. destruct (negb _); cbn [snd]; [eexists; reflexivity|].
    unfold try_catch.
    match goal with |- context [match ?b with Ret _ => _ | Throw _ => _ end] =>
      destruct b end; eexists; reflexivity.
  - intros H. unfold extractAIPrompt.
    destruct (jseqb (file_type file) (js "image/png")) eqn:E; [|reflexivity].
    apply jseqb_true_iff in E. contradiction.
  - intros fuel uint8 offset len st. apply walk_last_chunk.
  - intros textData [info found] e Hkey Hparse Hmark. unfold onText.
    rewrite Hkey. change (jseqb (js "Comment") (js "Description")) with false.
    change (jseqb (js "Comment") (js "Comment")) with true. cbn [fst snd].
    unfold commentTry. rewrite Hparse, Hmark. reflexivity.
Qed.

End ExtractorFacts.

Lemma ascii_bytes_example :
  Forall (fun b => byteZ b < 128) (list_byte_of_string "tEXt") /\
  Forall (fun b => byteZ b < 128)
         (list_byte_of_string "Description" ++ [x00] ++ list_byte_of_string "a cat").
Proof. split; repeat constructor. Qed.

(** The run on [cutShortPng] is the same on every platform whose decoder
    leaves ASCII bytes as they are: the chunk is a Description, and the
    parser is not consulted. *)
Lemma cutShortPng_on_any_platform
      (decode : list byte -> list N) (JSON_parse : list N -> outcome jsval) :
  asciiFaithful decode ->
  extractAIPrompt decode JSON_parse (mkFile (js "image/png") cutShortPng)
  = extractAIPrompt decodeBytewise parseNothing (mkFile (js "image/png") cutShortPng).
Proof.
  intros Hascii. destruct ascii_bytes_example as [Htag Hdata].
  assert (Hrun : forall (d : list byte -> list N) (p : list N -> outcome jsval),
             asciiFaithful d ->
             walk d p (List.length cutShortPng) cutShortPng 8 (info0, false)
             = Ret (set_prompt (JStr (js "a cat")) info0, true)).
  { intros d p Hd.
    change (List.length cutShortPng) with (S (S 31)).
    rewrite (walk_last_chunk d p 31 cutShortPng 8 4294967295 (info0, false));
      [|reflexivity|reflexivity|vm_compute; discriminate].
    unfold visitChunk.
    change (slice cutShortPng (8 + 4) (8 + 8)) with (list_byte_of_string "tEXt").
    change (slice cutShortPng (8 + 8) (8 + 8 + 4294967295))
      with (list_byte_of_string "Description" ++ [x00] ++ list_byte_of_string "a cat").
    rewrite (Hd _ Htag), (Hd _ Hdata). reflexivity. }
  unfold extractAIPrompt. cbn [file_type file_bytes].
  change (slice cutShortPng 0 262144) with cutShortPng.
  rewrite (Hrun decode JSON_parse Hascii).
  rewrite (Hrun decodeBytewise parseNothing); [reflexivity|].
  intros bs _. reflexivity.
Qed.

(** A Comment that is not JSON but contains "masterpiece" becomes the prompt. *)
Lemma comment_fallback (JSON_parse : list N -> outcome jsval) (textData : list N)
      (st : Info * bool) (e : exn) :
  chunkKey textData = js "Comment" ->
  JSON_parse (chunkValue textData) = Throw e ->
  includes (chunkValue textData) (js "masterpiece") = true ->
  onText JSON_parse textData st = (set_prompt (JStr (chunkValue textData)) (fst st), true).
Proof.
  intros Hkey Hparse Hmark. unfold onText. rewrite Hkey.
  change (jseqb (js "Comment") (js "Description")) with false.
  change (jseqb (js "Comment") (js "Comment")) with true. cbn [fst snd].
  unfold commentTry. rewrite Hparse, Hmark. reflexivity.
Qed.

(** The claim as written fails: in this buffer the only chunk announces
    more data than the buffer holds, and the prompt in it is returned. *)
Lemma malformed_length_still_yields_data :
  getUint32 cutShortPng 8 = Ret 4294967295 /\
  Z.of_nat (List.length cutShortPng) = 33 /\
  match snd (extractAIPrompt decodeBytewise parseNothing
                             (mkFile (js "image/png") cutShortPng)) with
  | Ret (Some r) => includes (caption r) (js "a cat") = true
  | _ => False
  end.
Proof.
  split; [reflexivity|]. split; [reflexivity|]. vm_compute. reflexivity.
Qed.
(** * Only the first 262144 bytes are read *)

Lemma byteZ_byteOf (z : Z) : byteZ (byteOf z) = z mod 256.
Proof.
  unfold byteZ, byteOf. pose proof (Z.mod_pos_bound z 256 ltac:(lia)) as Hb.
  destruct (Byte.of_N (Z.to_N (z mod 256))) as [b|] eqn:E.
  - rewrite (Byte.to_of_N _ E). lia.
  - apply Byte.of_N_None_iff in E. lia.
Qed.

Lemma be32_value (n : Z) :
  0 <= n < 4294967296 ->
  byteZ (byteOf (n / 16777216)) * 16777216 + byteZ (byteOf (n / 65536)) * 65536
  + byteZ (byteOf (n / 256)) * 256 + byteZ (byteOf n) = n.
Proof.
  intros Hn. rewrite !byteZ_byteOf. Z.div_mod_to_equations. lia.
Qed.

(** Reading [mid] back out of a truncated [pre ++ mid ++ post]. *)
Lemma window {A} (pre mid post : list A) (L : nat) :
  (List.length pre + List.length mid <= L)%nat ->
  firstn (List.length mid) (skipn (List.length pre) (firstn L (pre ++ mid ++ post))) = mid.
Proof.
  intros H.
  rewrite firstn_app, (firstn_all2 (n := L) pre) by lia.
  rewrite skipn_app, skipn_all, Nat.sub_diag. cbn [app skipn].
  rewrite firstn_app, (firstn_all2 (n := L - List.length pre) mid) by lia.
  rewrite firstn_app, firstn_all, Nat.sub_diag. cbn [firstn]. apply List.app_nil_r.
Qed.

Lemma length_firstn_le {A} (L : nat) (l : list A) :
  (List.length (firstn L l) <= L)%nat /\ (List.length (firstn L l) <= List.length l)%nat.
Proof. rewrite length_firstn. lia. Qed.

Lemma isTextTag_false (decode : list byte -> list N) (t : list byte) :
  tagFaithful decode -> List.length t = 4%nat -> isTextTag t = false ->
  jseqb (decode t) (js "tEXt") || jseqb (decode t) (js "iTXt") = false.
Proof.
  intros Htag Hlen Hno.
  destruct (jseqb (decode t) (js "tEXt") || jseqb (decode t) (js "iTXt")) eqn:E;
    [|reflexivity].
  rewrite (Htag t Hlen E) in Hno. discriminate.
Qed.

Lemma slice_window (pre mid post : list byte) (L : nat) :
  (List.length pre + List.length mid <= L)%nat ->
  (List.length pre + List.length mid
   <= List.length (firstn L (pre ++ mid ++ post)))%nat ->
  slice (firstn L (pre ++ mid ++ post)) (Z.of_nat (List.length pre))
        (Z.of_nat (List.length pre) + Z.of_nat (List.length mid)) = mid.
Proof.
  intros HL Hlen. unfold slice, relIndex.
  set (buf := firstn L (pre ++ mid ++ post)) in *.
  destruct (Z.ltb_spec (Z.of_nat (List.length pre)) 0); [lia|].
  destruct (Z.ltb_spec (Z.of_nat (List.length pre) + Z.of_nat (List.length mid)) 0); [lia|].
  rewrite !Z.min_l by lia.
  replace (Z.to_nat (Z.of_nat (List.length pre) + Z.of_nat (List.length mid)
                     - Z.of_nat (List.length pre))) with (List.length mid) by lia.
  rewrite Nat2Z.id. apply window. exact HL.
Qed.

Section WindowFacts.

Variable decode : list byte -> list N.
Variable JSON_parse : list N -> outcome jsval.
Hypothesis decode_tags : tagFaithful decode.

Local Abbreviation walk' := (walk decode JSON_parse).
Local Abbreviation extractAIPrompt' := (extractAIPrompt decode JSON_parse).

(** The loop over well-formed chunks none of which is a text chunk that
    starts below the limit: nothing is found. *)
Lemma walk_skips_chunks (L : nat) :
  (Z.of_nat L <= 262144) ->
  forall (fuel : nat) (cs : list Chunk) (pre : list byte),
    Forall wellFormedChunk cs ->
    textChunksBeyond 262144 (Z.of_nat (List.length pre)) cs = true ->
    walk' fuel (firstn L (pre ++ flat_map encodeChunk cs)) (Z.of_nat (List.length pre))
          (info0, false)
    = Ret (info0, false).
Proof.
  intros HL. induction fuel as [|fuel IH]; intros cs pre Hwf Htext; [reflexivity|].
  cbn [walk].
  set (buf := firstn L (pre ++ flat_map encodeChunk cs)).
  destruct (Z.ltb_spec (Z.of_nat (List.length pre)) (Z.of_nat (List.length buf) - 8))
    as [Hin|Hout]; [|reflexivity].
  pose proof (length_firstn_le L (pre ++ flat_map encodeChunk cs)) as [HbL Hbl].
  fold buf in HbL, Hbl.
  destruct cs as [|c cs].
  { cbn [flat_map] in Hbl. rewrite List.app_nil_r in Hbl. lia. }
  inversion Hwf as [|? ? (Ht & Hc & Hlen) Hwf']; subst.
  cbn [textChunksBeyond] in Htext. apply andb_true_iff in Htext.
  destruct Htext as [Hc1 Hrest].
  assert (Hnt : isTextTag (chunk_type c) = false).
  { apply orb_true_iff in Hc1. destruct Hc1 as [Hc1|Hc1].
    - apply negb_true_iff in Hc1. exact Hc1.
    - apply Z.leb_le in Hc1. lia. }
  (* the bytes of the header, as the buffer holds them *)
  assert (Hbuf : buf = firstn L (pre ++ be32 (chunkLength c)
                                   ++ (chunk_type c ++ chunk_data c ++ chunk_crc c
                                         ++ flat_map encodeChunk cs))).
  { unfold buf. cbn [flat_map]. unfold encodeChunk. rewrite <- !app_assoc. reflexivity. }
  assert (Hbuf2 : buf = firstn L ((pre ++ be32 (chunkLength c)) ++ chunk_type c
                                    ++ (chunk_data c ++ chunk_crc c
                                          ++ flat_map encodeChunk cs))).
  { rewrite Hbuf, <- !app_assoc. reflexivity. }
  assert (Hlen32 : getUint32 buf (Z.of_nat (List.length pre)) = Ret (chunkLength c)).
  { unfold getUint32.
    destruct (Z.ltb_spec (Z.of_nat (List.length pre)) 0); [lia|].
    destruct (Z.ltb_spec (Z.of_nat (List.length buf)) (Z.of_nat (List.length pre) + 4));
      [lia|].
    cbn [orb]. rewrite Nat2Z.id.
    change 4%nat with (List.length (be32 (chunkLength c))).
    rewrite Hbuf, window by (cbn [be32 List.length]; lia).
    cbn [be32]. rewrite be32_value; [reflexivity|].
    unfold chunkLength in *. lia. }
  rewrite Hlen32. cbn [obind].
  assert (Htype : slice buf (Z.of_nat (List.length pre) + 4)
                        (Z.of_nat (List.length pre) + 8) = chunk_type c).
  { pose proof (slice_window (pre ++ be32 (chunkLength c)) (chunk_type c)
                             (chunk_data c ++ chunk_crc c ++ flat_map encodeChunk cs) L)
      as Hw.
    rewrite <- Hbuf2 in Hw. rewrite length_app, Ht in Hw. cbn [be32 List.length] in Hw.
    replace (Z.of_nat (List.length pre + 4)) with (Z.of_nat (List.length pre) + 4) in Hw
      by lia.
    replace (Z.of_nat (List.length pre) + 4 + Z.of_nat 4)
      with (Z.of_nat (List.length pre) + 8) in Hw by lia.
    apply Hw; lia. }
  unfold visitChunk. rewrite Htype.
  rewrite (isTextTag_false decode (chunk_type c) decode_tags Ht Hnt).
  (* on to the next chunk *)
  specialize (IH cs (pre ++ encodeChunk c) Hwf').
  assert (Hnext : Z.of_nat (List.length (pre ++ encodeChunk c))
                  = Z.of_nat (List.length pre) + 12 + chunkLength c).
  { unfold encodeChunk, chunkLength. rewrite !length_app, Ht, Hc.
    cbn [be32 List.length]. lia. }
  rewrite Hnext in IH. unfold buf. cbn [flat_map]. rewrite app_assoc.
  apply IH. exact Hrest.
Qed.

(** C10.  The extractor reads one slice of the file, its first 262144
    bytes, and its answer depends on nothing else; a PNG whose text chunks
    all start at byte 262144 or later gets "no data", whatever they hold. *)
Theorem extractor_reads_first_window :
  (forall file,
      fst (extractAIPrompt' file) = [] \/ fst (extractAIPrompt' file) = [(0, 262144)]) /\
  (forall f g,
      file_type f = file_type g ->
      firstn (Z.to_nat 262144) (file_bytes f) = firstn (Z.to_nat 262144) (file_bytes g) ->
      extractAIPrompt' f = extractAIPrompt' g) /\
  (forall cs,
      Forall wellFormedChunk cs ->
      textChunksBeyond 262144 8 cs = true ->
      extractAIPrompt' (mkFile (js "image/png") (encodePng cs))
      = ([(0, 262144)], Ret None)).
Proof.
  assert (Hslice : forall bs : list byte,
             slice bs 0 262144 = firstn (Z.to_nat 262144) bs).
  { intros bs. unfold slice, relIndex.
    change (0 <? 0) with false. change (262144 <? 0) with false. cbv iota.
    rewrite (Z.min_l 0) by lia. change (Z.to_nat 0) with 0%nat. cbn [skipn].
    rewrite Z.sub_0_r.
    destruct (Z.min_spec 262144 (Z.of_nat (List.length bs))) as [[Hlt ->]|[Hge ->]].
    - reflexivity.
    - rewrite Nat2Z.id, firstn_all. symmetry. apply firstn_all2. lia. }
  split; [|split].
  - intros file. unfold extractAIPrompt. destruct (negb _); cbn [fst]; tauto.
  - intros f g Ht Hb. unfold extractAIPrompt. rewrite !Hslice, Ht, Hb. reflexivity.
  - intros cs Hwf Htext. unfold extractAIPrompt. cbn [file_type file_bytes].
    change (jseqb (js "image/png") (js "image/png")) with true. cbn [negb].
    rewrite Hslice. unfold encodePng.
    change 8 with (Z.of_nat (List.length pngSignature)).
    rewrite (walk_skips_chunks (Z.to_nat 262144) ltac:(lia) _ cs pngSignature Hwf Htext).
    reflexivity.
Qed.

End WindowFacts.

Lemma decodeBytewise_tags : tagFaithful decodeBytewise.
Proof.
  intros t Hlen H. unfold decodeBytewise in H.
  destruct t as [|a [|b [|c [|d [|? ?]]]]]; try discriminate.
  apply orb_true_iff in H. unfold isTextTag.
  destruct H as [H|H]; apply jseqb_true_iff in H; cbn [map] in H;
    injection H as Ha Hb Hc Hd;
    apply (f_equal Byte.of_N) in Ha, Hb, Hc, Hd;
    rewrite Byte.of_to_N in Ha, Hb, Hc, Hd;
    injection Ha as ->; injection Hb as ->; injection Hc as ->; injection Hd as ->;
    reflexivity.
Qed.

Lemma extractor_reads_first_window_witness :
  extractAIPrompt decodeBytewise parseNothing
                  (mkFile (js "image/png") (encodePng lateTextPng))
  = ([(0, 262144)], Ret None).
Proof.
  apply (extractor_reads_first_window decodeBytewise parseNothing decodeBytewise_tags).
  - unfold lateTextPng, wellFormedChunk, chunkLength.
    repeat (constructor; [cbn [chunk_type chunk_data chunk_crc]; repeat split;
                          vm_compute; reflexivity|]).
    constructor.
  - vm_compute. reflexivity.
Defined.

(** The same chunks without the image data in front: the prompt is found. *)
Lemma early_text_is_found :
  match snd (extractAIPrompt decodeBytewise parseNothing
                             (mkFile (js "image/png") (encodePng (skipn 2 lateTextPng)))) with
  | Ret (Some r) => includes (caption r) (js "a cat") = true
  | _ => False
  end.
Proof. vm_compute. reflexivity. Qed.

(** * Escaping for Markdown *)

Lemma escapeText_cons (a : N) (s : list N) :
  escapeText (a :: s)
  = (if existsb (N.eqb a) escapeSet then [92%N; a] else [a]) ++ escapeText s.
Proof. reflexivity. Qed.

Lemma escapeSet_spec (c : N) : In c escapeSet <-> existsb (N.eqb c) escapeSet = true.
Proof.
  rewrite existsb_exists. split.
  - intros H. exists c. split; [exact H|apply N.eqb_refl].
  - intros (x & Hx & E). apply N.eqb_eq in E. subst x. exact Hx.
Qed.

(** X1.  In the text [escapeMd] gives for a string, every character of the
    escaped class stands right after a backslash, and the text is at least
    as long as the original and at most twice as long. *)
Theorem escaped_specials_follow_backslash (s : list N) :
  (forall pre c post,
      escapeText s = pre ++ c :: post -> In c escapeSet ->
      exists pre', pre = pre' ++ [92%N]) /\
  jslen s <= jslen (escapeText s) <= 2 * jslen s /\
  (s <> [] -> escapeMd (JStr s) = Ret (escapeText s)).
Proof.
  split; [|split].
  - induction s as [|a s IH]; intros pre c post H Hc.
    + destruct pre; discriminate.
    + rewrite escapeText_cons in H.
      destruct (existsb (N.eqb a) escapeSet) eqn:Ea.
      * destruct pre as [|x [|y pre]].
        -- injection H as <- _. exfalso. clear -Hc. unfold escapeSet in Hc. simpl in Hc.
           repeat (destruct Hc as [Hc|Hc]; [discriminate|]). exact Hc.
        -- injection H as <- _ _. exists []. reflexivity.
        -- cbn [app] in H. injection H as <- <- H.
           destruct (IH pre c post H Hc) as [pre' ->].
           exists (92%N :: a :: pre'). reflexivity.
      * destruct pre as [|x pre].
        -- injection H as <- _. apply escapeSet_spec in Hc. congruence.
        -- cbn [app] in H. injection H as <- H.
           destruct (IH pre c post H Hc) as [pre' ->].
           exists (a :: pre'). reflexivity.
  - induction s as [|a s IH]; [unfold jslen; simpl; lia|].
    rewrite escapeText_cons, jslen_app.
    change (jslen (a :: s)) with (Z.of_nat (S (List.length s))).
    unfold jslen in *. destruct (existsb (N.eqb a) escapeSet); cbn [List.length]; lia.
  - intros H. destruct s as [|a s]; [congruence|]. reflexivity.
Qed.

(** * Folders and extensions *)

Lemma stripLeadingSlashes_id (s : string) :
  startsSlash s = false -> stripLeadingSlashes s = s.
Proof. destruct s as [|c r]; [reflexivity|]. simpl. intros ->. reflexivity. Qed.

Lemma collapseSlashes_id (s : string) :
  doubleSlash s = false -> collapseSlashes s = s.
Proof.
  induction s as [|c r IH]; [reflexivity|]. cbn [doubleSlash collapseSlashes].
  intros H. apply orb_false_elim in H. destruct H as [-> H]. rewrite (IH H). reflexivity.
Qed.

Lemma stripTrailingSlash_id (s : string) :
  endsSlash s = false -> stripTrailingSlash s = s.
Proof.
  induction s as [|c r IH]; [reflexivity|]. cbn [endsSlash stripTrailingSlash].
  destruct r as [|d r']; [intros ->; reflexivity|]. intros H. rewrite (IH H). reflexivity.
Qed.

(** X2.  Normalising a folder twice gives what normalising it once gives,
    and a folder with no slash at either end and no two in a row is left
    as it is. *)
Theorem normalizeFolder_idempotent (uploadFolder : string) :
  normalizeFolder (normalizeFolder uploadFolder) = normalizeFolder uploadFolder /\
  (startsSlash uploadFolder = false -> endsSlash uploadFolder = false ->
   doubleSlash uploadFolder = false -> normalizeFolder uploadFolder = uploadFolder).
Proof.
  assert (Hfix : forall f, startsSlash f = false -> endsSlash f = false ->
                           doubleSlash f = false -> normalizeFolder f = f).
  { intros f S E D. unfold normalizeFolder. destruct f as [|c r]; [reflexivity|].
    rewrite (stripLeadingSlashes_id _ S), (collapseSlashes_id _ D).
    apply stripTrailingSlash_id, E. }
  split; [|apply Hfix].
  destruct (normalizeFolder_normal uploadFolder) as (S & E & D). apply Hfix; assumption.
Qed.

Lemma splitOn_cons (c : ascii) (s : string) : exists p ps, splitOn c s = p :: ps.
Proof.
  induction s as [|a r IH]; [eexists; eexists; reflexivity|]. simpl.
  destruct (Ascii.eqb a c); [eexists; eexists; reflexivity|].
  destruct IH as (p & ps & ->). eexists; eexists; reflexivity.
Qed.

Lemma splitOn_no_sep (s : string) : hasChar "/" s = false -> splitOn "/" s = [s].
Proof.
  induction s as [|a r IH]; [reflexivity|]. cbn [hasChar splitOn].
  intros H. apply orb_false_elim in H. destruct H as [-> H]. rewrite (IH H). reflexivity.
Qed.

Lemma splitOn_app (d f : string) :
  hasChar "/" f = false ->
  splitOn "/" (d ++ "/" ++ f) = splitOn "/" d ++ [f].
Proof.
  intros Hf. induction d as [|a r IH].
  - cbn. rewrite (splitOn_no_sep f Hf). reflexivity.
  - cbn [String.append splitOn]. destruct (Ascii.eqb a "/").
    + change (("/" ++ f)%string) with (String "/" f) in IH. rewrite IH. reflexivity.
    + change (("/" ++ f)%string) with (String "/" f) in IH. rewrite IH.
      destruct (splitOn_cons "/" r) as (p & ps & ->). reflexivity.
Qed.

(** Joining what [split] gave with the separator gives the text back. *)
Lemma join_splitOn (s : string) : String.concat "/" (splitOn "/" s) = s.
Proof.
  induction s as [|a r IH]; [reflexivity|]. cbn [splitOn].
  destruct (Ascii.eqb_spec a "/") as [->|ne].
  - destruct (splitOn_cons "/" r) as (p & ps & E). rewrite E in *.
    cbn [String.concat]. cbn [String.concat] in IH. rewrite <- IH. reflexivity.
  - destruct (splitOn_cons "/" r) as (p & ps & E). rewrite E in *.
    destruct ps as [|q ps]; cbn [String.concat] in *; rewrite <- IH; reflexivity.
Qed.

Lemma removelast_snoc {A} (l : list A) (x : A) : removelast (l ++ [x]) = l.
Proof. apply removelast_last. Qed.

(** X3.  With no [uploadFolder] parameter (or an empty one) the folder is
    read off the file name: a name [d/f], where [f] holds no slash, gives
    the directory of the normalised [d], and a name without a slash gives
    the empty directory. *)
Theorem directory_from_file_name (req : Request) (d f fileType : string) :
  spGet (req_searchParams req) "uploadFolder" = None \/
  spGet (req_searchParams req) "uploadFolder" = Some EmptyString ->
  hasChar "/" f = false ->
  Directory (initialMetadata req (d ++ "/" ++ f) fileType)
  = directoryOf (normalizeFolder d) /\
  Directory (initialMetadata req f fileType) = EmptyString.
Proof.
  intros Hsp Hf. unfold initialMetadata. cbn [Directory]. unfold normalizedFolderOf.
  assert (Hd : folderOfName (d ++ "/" ++ f) = d).
  { unfold folderOfName. rewrite (splitOn_app d f Hf), removelast_snoc.
    apply join_splitOn. }
  assert (Hn : folderOfName f = EmptyString).
  { unfold folderOfName. rewrite (splitOn_no_sep f Hf). reflexivity. }
  destruct Hsp as [-> | ->]; rewrite Hd, Hn; split; reflexivity.
Qed.

Lemma directory_from_file_name_witness :
  Directory (initialMetadata (exampleRequest []) ("/art//2024/" ++ "/" ++ "cat.png")
                             "image/png")
  = directoryOf (normalizeFolder "/art//2024/") /\
  Directory (initialMetadata (exampleRequest []) "cat.png" "image/png") = EmptyString.
Proof.
  apply (directory_from_file_name (exampleRequest []) "/art//2024/" "cat.png" "image/png").
  - left. reflexivity.
  - reflexivity.
Defined.

Lemma splitOn_shape (c : ascii) (s : string) :
  splitOn c s = [s] \/
  exists p init lst,
    splitOn c s = init ++ [lst] /\ init <> [] /\ s = (p ++ String c lst)%string.
Proof.
  induction s as [|a r IH]; [left; reflexivity|]. cbn [splitOn].
  destruct (Ascii.eqb_spec a c) as [->|ne].
  - right. destruct IH as [IH|(p & init & lst & E & ni & ->)].
    + exists EmptyString, [EmptyString], r. rewrite IH. repeat split. discriminate.
    + exists (String c p), (EmptyString :: init), lst. rewrite E. repeat split. discriminate.
  - destruct IH as [->|(p & init & lst & E & ni & ->)]; [left; reflexivity|].
    right. rewrite E. destruct init as [|q init]; [congruence|].
    exists (String a p), (String a q :: init), lst. repeat split. discriminate.
Qed.

Lemma splitOn_fields (s : string) :
  Forall (fun p => hasChar "/" p = false) (splitOn "/" s).
Proof.
  induction s as [|a r IH]; [repeat constructor|]. cbn [splitOn].
  destruct (Ascii.eqb a "/") eqn:E; [constructor; [reflexivity|exact IH]|].
  destruct (splitOn "/" r) as [|q qs]; [repeat constructor; simpl; rewrite E; reflexivity|].
  inversion IH as [|? ? Hq Hqs]; subst. constructor; [|exact Hqs].
  cbn [hasChar]. rewrite E, Hq. reflexivity.
Qed.

(** X4.  The extension of an upload is the last dot-separated field of the
    file name when the validity check accepts it.  Otherwise it is read
    off the MIME type: the text after its last slash, which is neither
    empty nor the whole type, or else [unknown]. *)
Theorem fileExtOf_cases (isExtValid : string -> bool) (fileName fileType : string) :
  let e := fileExtOf isExtValid fileName fileType in
  let named := last (splitOn "." fileName) EmptyString in
  (isExtValid named = true /\ e = named) \/
  (isExtValid named = false /\
   (e = "unknown"%string \/
    (e <> EmptyString /\ e <> fileType /\ hasChar "/" e = false /\
     exists p, fileType = (p ++ "/" ++ e)%string))).
Proof.
  cbv zeta. unfold fileExtOf.
  destruct (isExtValid (last (splitOn "." fileName) EmptyString)) eqn:V.
  - left. split; reflexivity.
  - right. split; [reflexivity|].
    destruct (String.eqb_spec (last (splitOn "/" fileType) EmptyString) fileType) as [E|E];
      [left; reflexivity|].
    destruct (String.eqb_spec (last (splitOn "/" fileType) EmptyString) EmptyString)
      as [E0|E0]; [left; reflexivity|].
    right. cbn [orb]. split; [exact E0|]. split; [exact E|]. split.
    + pose proof (splitOn_fields fileType) as F.
      destruct (splitOn_cons "/" fileType) as (q & qs & Hq). rewrite Hq in *.
      rewrite Forall_forall in F. apply F.
      change (q :: qs) with ([q] ++ qs). destruct qs as [|q' qs]; [left; reflexivity|].
      apply in_or_app. right.
      assert (Hl : forall (l : list string) (x : string), In (last (x :: l) EmptyString) (x :: l)).
      { induction l as [|y l IHl]; intros x; [left; reflexivity|].
        right. exact (IHl y). }
      change (last ([q] ++ q' :: qs) EmptyString) with (last (q' :: qs) EmptyString).
      apply Hl.
    + destruct (splitOn_shape "/" fileType) as [H|(p & init & lst & H & ni & Hs)].
      * rewrite H in E. cbn in E. congruence.
      * exists p. rewrite H, last_last. exact Hs.
Qed.

(** * The extractor: where "no data" comes from *)

Lemma getUint32_in_bounds (buf : list byte) (offset : Z) :
  0 <= offset -> offset + 4 <= Z.of_nat (List.length buf) ->
  exists v, getUint32 buf offset = Ret v.
Proof.
  intros H0 H4. unfold getUint32.
  destruct (Z.ltb_spec offset 0); [lia|].
  destruct (Z.ltb_spec (Z.of_nat (List.length buf)) (offset + 4)); [lia|]. cbn [orb].
  assert (L : List.length (firstn 4 (skipn (Z.to_nat offset) buf)) = 4%nat).
  { rewrite length_firstn, length_skipn. lia. }
  destruct (firstn 4 (skipn (Z.to_nat offset) buf)) as [|b0 [|b1 [|b2 [|b3 [|? ?]]]]];
    try discriminate.
  eexists. reflexivity.
Qed.

Section RenderingFacts.

Variable decode : list byte -> list N.
Variable JSON_parse : list N -> outcome jsval.

Local Abbreviation walk' := (walk decode JSON_parse).
Local Abbreviation extractAIPrompt' := (extractAIPrompt decode JSON_parse).

(** The loop reads each length inside the buffer, and what it does with a
    chunk never throws. *)
Lemma walk_returns (uint8 : list byte) :
  forall (fuel : nat) (offset : Z) (st : Info * bool),
    0 <= offset -> exists st', walk' fuel uint8 offset st = Ret st'.
Proof.
  induction fuel as [|fuel IH]; intros offset st H0; [eexists; reflexivity|].
  cbn [walk]. destruct (Z.ltb_spec offset (Z.of_nat (List.length uint8) - 8));
    [|eexists; reflexivity].
  destruct (getUint32_in_bounds uint8 offset H0 ltac:(lia)) as [len E].
  rewrite E. cbn [obind]. apply IH. pose proof (getUint32_nonneg _ _ _ E). lia.
Qed.

Lemma extractAIPrompt_png (file : File) :
  file_type file = js "image/png" ->
  exists st,
    walk' (List.length (slice (file_bytes file) 0 262144))
          (slice (file_bytes file) 0 262144) 8 (info0, false) = Ret st /\
    snd (extractAIPrompt' file)
    = Ret (if snd st
           then match render (fst st) with Ret r => Some r | Throw _ => None end
           else None).
Proof.
  intros Ht.
  destruct (walk_returns (slice (file_bytes file) 0 262144)
              (List.length (slice (file_bytes file) 0 262144)) 8 (info0, false)
              ltac:(lia)) as [st Hw].
  exists st. split; [exact Hw|].
  unfold extractAIPrompt. rewrite Ht.
  change (jseqb (js "image/png") (js "image/png")) with true. cbn [negb snd].
  rewrite Hw. cbn [obind]. destruct (snd st); [|reflexivity].
  destruct (render (fst st)); reflexivity.
Qed.

(** X5.  For a PNG file the chunk loop runs to its end without an
    exception, whatever the bytes are.  The extractor answers "no data"
    exactly when the loop found nothing or when rendering what it found
    throws; and a buffer of sixteen bytes or fewer is never looked into. *)
Theorem no_data_comes_from_rendering (file : File) :
  file_type file = js "image/png" ->
  let uint8 := slice (file_bytes file) 0 262144 in
  (exists st,
      walk' (List.length uint8) uint8 8 (info0, false) = Ret st /\
      snd (extractAIPrompt' file)
      = Ret (if snd st
             then match render (fst st) with Ret r => Some r | Throw _ => None end
             else None)) /\
  ((List.length (file_bytes file) <= 16)%nat ->
   snd (extractAIPrompt' file) = Ret None).
Proof.
  intros Ht. cbv zeta. split; [apply extractAIPrompt_png, Ht|].
  intros Hlen. destruct (extractAIPrompt_png file Ht) as (st & Hw & ->).
  assert (Hs : (List.length (slice (file_bytes file) 0 262144) <= 16)%nat).
  { unfold slice. rewrite length_firstn, length_skipn. lia. }
  destruct (List.length (slice (file_bytes file) 0 262144)) as [|fuel] eqn:L.
  - cbn [walk] in Hw. injection Hw as <-. reflexivity.
  - cbn [walk] in Hw. rewrite L in Hw.
    destruct (Z.ltb_spec 8 (Z.of_nat (S fuel) - 8)); [lia|].
    injection Hw as <-. reflexivity.
Qed.

(** X6.  When what the loop found holds a prompt, a negative prompt or a
    character entry that is truthy and not a string (a number or an object
    in the Comment), rendering throws and the extractor answers "no data". *)
Theorem non_string_fields_give_no_data (file : File) (info : Info) :
  file_type file = js "image/png" ->
  walk' (List.length (slice (file_bytes file) 0 262144))
        (slice (file_bytes file) 0 262144) 8 (info0, false) = Ret (info, true) ->
  (truthy (prompt info) = true /\ forall s, prompt info <> JStr s) \/
  (exists c, In c (chars info) /\ forall s, c <> JStr s) \/
  (truthy (uc info) = true /\ forall s, uc info <> JStr s) ->
  snd (extractAIPrompt' file) = Ret None.
Proof.
  intros Ht Hw Hbad. destruct (extractAIPrompt_png file Ht) as (st & Hw' & ->).
  rewrite Hw in Hw'. injection Hw' as <-. cbn [fst snd].
  assert (Hthrow : exists e, render info = Throw e); [|destruct Hthrow as [e ->]; reflexivity].
  unfold render. destruct (footerStrOf info) as [footer|e]; [|eexists; reflexivity].
  cbn [obind].
  destruct Hbad as [[Hp Hns]|[(c & Hc & Hns)|[Hu Hns]]].
  - unfold js_or. rewrite Hp. destruct (prompt info); try (eexists; reflexivity).
    exfalso. eapply Hns. reflexivity.
  - destruct (asString (js_or (prompt info) (JStr []))); [|eexists; reflexivity].
    cbn [obind].
    assert (Hs : exists e, asStrings (chars info) = Throw e).
    { clear -Hc Hns. induction (chars info) as [|v l IH]; [contradiction|].
      cbn [asStrings]. destruct Hc as [->|Hc].
      - destruct c; try (eexists; reflexivity). exfalso. eapply Hns. reflexivity.
      - destruct (asString v); [|eexists; reflexivity]. cbn [obind].
        destruct (IH Hc) as [e ->]. eexists. reflexivity. }
    destruct Hs as [e ->]. eexists. reflexivity.
  - destruct (asString (js_or (prompt info) (JStr []))); [|eexists; reflexivity].
    cbn [obind]. destruct (asStrings (chars info)); [|eexists; reflexivity].
    cbn [obind]. unfold js_or. rewrite Hu.
    destruct (uc info); try (eexists; reflexivity). exfalso. eapply Hns. reflexivity.
Qed.

End RenderingFacts.

Lemma no_data_comes_from_rendering_witness :
  snd (extractAIPrompt decodeBytewise parseNothing (mkFile (js "image/png") pngSignature))
  = Ret None.
Proof.
  apply (no_data_comes_from_rendering decodeBytewise parseNothing
           (mkFile (js "image/png") pngSignature)).
  - reflexivity.
  - simpl. lia.
Defined.

Lemma non_string_fields_give_no_data_witness :
  snd (extractAIPrompt decodeBytewise
         (parseAs (JObj [(js "prompt", JNum (mkNum false (js "7")))]))
         (mkFile (js "image/png") commentPng))
  = Ret None.
Proof.
  apply (non_string_fields_give_no_data decodeBytewise
           (parseAs (JObj [(js "prompt", JNum (mkNum false (js "7")))]))
           (mkFile (js "image/png") commentPng)
           (mkInfo (JNum (mkNum false (js "7"))) (JStr []) (JStr []) (JStr [])
                   (JStr (js "N/A")) [])).
  - reflexivity.
  - vm_compute. reflexivity.
  - left. split; [reflexivity|]. intros s. discriminate.
Defined.

(** * The full text *)

Lemma fullPromptBlock_len (text : list N) :
  jslen (promptBlock " *Full Prompt*" text) = jslen text + 26.
Proof.
  unfold promptBlock. rewrite !jslen_app. change (jslen [10024%N]) with 1.
  change (jslen (js " *Full Prompt*")) with 14. change (jslen nl) with 1.
  change (jslen fence) with 3. lia.
Qed.

Lemma fullChars_len (l : list (list N)) :
  forall idx : nat,
    (idx + List.length l <= 9)%nat ->
    jslen (fullChars idx l) <= 527 * Z.of_nat (List.length l).
Proof.
  induction l as [|c r IH]; intros idx H; [unfold jslen; simpl; lia|].
  cbn [fullChars List.length] in *. rewrite jslen_app, characterBlock_len by lia.
  specialize (IH (S idx) ltac:(lia)).
  pose proof (jslen_substring0 c 500 ltac:(lia)). lia.
Qed.

(** X7.  The full text shows at most 1500 units of the prompt, 500 of each
    character prompt and 800 of the negative prompt: with [n] character
    prompts, nine at most, it is no longer than 2374 + 527 n plus the
    footer line.  With three character prompts at most and a footer line of
    141 units at most it stays within the 4096 units of one message. *)
Theorem full_text_length_bound (info : Info) (footerStr : list N) (r : Result) :
  footerStrOf info = Ret footerStr ->
  render info = Ret r ->
  (List.length (chars info) <= 9)%nat ->
  jslen (fullText r)
  <= 2374 + 527 * Z.of_nat (List.length (chars info)) + jslen footerStr /\
  ((List.length (chars info) <= 3)%nat -> jslen footerStr <= 141 ->
   jslen (fullText r) <= 4096).
Proof.
  intros Hf Hr Hn. unfold render in Hr. rewrite Hf in Hr. cbn [obind] in Hr.
  destruct (asString (js_or (prompt info) (JStr []))) as [rawPrompt|]; [|discriminate].
  cbn [obind] in Hr.
  destruct (asStrings (chars info)) as [rawChars|] eqn:Hc; [|discriminate].
  cbn [obind] in Hr.
  destruct (asString (js_or (uc info) (JStr []))) as [rawUc|]; [|discriminate].
  cbn [obind] in Hr. injection Hr as <-. cbn [fullText].
  pose proof (asStrings_length _ _ Hc) as Hl.
  assert (Hb : jslen (fullTextOf footerStr rawPrompt rawUc rawChars)
               <= 2374 + 527 * Z.of_nat (List.length (chars info)) + jslen footerStr).
  { unfold fullTextOf. rewrite !jslen_app, headerStr_len, fullPromptBlock_len.
    pose proof (fullChars_len rawChars 0 ltac:(lia)).
    pose proof (jslen_substring0 rawPrompt 1500 ltac:(lia)).
    assert (jslen (match rawUc with
                   | [] => []
                   | _ :: _ => negativeBlock (substring0 rawUc 800)
                   end) <= 823).
    { destruct rawUc as [|c u]; [unfold jslen; simpl; lia|].
      rewrite negativeBlock_len.
      pose proof (jslen_substring0 (c :: u) 800 ltac:(lia)). lia. }
    lia. }
  split; [exact Hb|]. intros H3 H141. lia.
Qed.

Lemma full_text_length_bound_witness :
  jslen (fullText (mkResult [] (fullTextOf (footerOf (js "Euler") (js "28") (js "7"))
                                           (js "a cat") [] [js "girl"]) false))
  <= 2374 + 527 * 1 + jslen (footerOf (js "Euler") (js "28") (js "7")).
Proof.
  pose proof (full_text_length_bound
                (stringsOnly (js "a cat") [] (js "28") (js "7") (js "Euler") [js "girl"])
                (footerOf (js "Euler") (js "28") (js "7"))
                (mkResult
                   (fst (previewOf (footerOf (js "Euler") (js "28") (js "7"))
                                   (js "a cat") [] [js "girl"]))
                   (fullTextOf (footerOf (js "Euler") (js "28") (js "7"))
                               (js "a cat") [] [js "girl"])
                   (snd (previewOf (footerOf (js "Euler") (js "28") (js "7"))
                                   (js "a cat") [] [js "girl"])))
                eq_refl eq_refl ltac:(simpl; lia)) as [H _].
  exact H.
Defined.

(** * Requests that make one attempt only *)

Section SingleAttempt.

Variable W : Type.
Variable uploadFileToCloudflareR2 : Uploader W.
Variable uploadFileToS3 : Uploader W.
Variable uploadFileToTelegram : Uploader W.
Variable uploadFileToExternal : Uploader W.
Variable uploadFileToDiscord : Uploader W.
Variable uploadFileToHuggingFace : Uploader W.
Variable JSON_src : string -> string.
Variable JSON_dict : Dict -> string.

Local Abbreviation firstUpload' :=
  (firstUpload W uploadFileToCloudflareR2 uploadFileToS3 uploadFileToTelegram
               uploadFileToExternal uploadFileToDiscord uploadFileToHuggingFace
               JSON_src JSON_dict).
Local Abbreviation processFileUpload' :=
  (processFileUpload W uploadFileToCloudflareR2 uploadFileToS3 uploadFileToTelegram
                     uploadFileToExternal uploadFileToDiscord uploadFileToHuggingFace
                     JSON_src JSON_dict).

(** X8.  A request for the external channel, or one with
    [autoRetry=false], makes one call of an upload function and returns
    what that call gave, whatever its status: for the external channel it
    is the external upload, also with auto-retry on.  Only the text
    [false] turns auto-retry off. *)
Theorem single_attempt_requests (req : Request) (w : W) (fileType fileName : string) :
  ftype (req_file req) = Some fileType ->
  fname (req_file req) = Some fileName ->
  spGet (req_searchParams req) "uploadChannel" = Some "external"%string \/
  spGet (req_searchParams req) "autoRetry" = Some "false"%string ->
  let st0 := initialStore W req fileName fileType w in
  let args := uploadArgsOf req fileName fileType in
  (exists a,
      snd (snd (processFileUpload' req w)) = [a] /\
      fst (processFileUpload' req w) = result a) /\
  (spGet (req_searchParams req) "uploadChannel" = Some "external"%string ->
   processFileUpload' req w
   = (fst (uploadFileToExternal args st0),
      (Some (snd (uploadFileToExternal args st0)),
       [logged W "External" st0 (fst (uploadFileToExternal args st0))]))) /\
  (forall sp v, spGet sp "autoRetry" = Some v -> v <> "false"%string ->
                autoRetryOf sp = true).
Proof.
  intros Ht Hn Hor. cbv zeta.
  assert (Hext : spGet (req_searchParams req) "uploadChannel" = Some "external"%string ->
                 processFileUpload' req w
                 = (fst (uploadFileToExternal (uploadArgsOf req fileName fileType)
                                              (initialStore W req fileName fileType w)),
                    (Some (snd (uploadFileToExternal (uploadArgsOf req fileName fileType)
                                  (initialStore W req fileName fileType w))),
                     [logged W "External" (initialStore W req fileName fileType w)
                             (fst (uploadFileToExternal
                                     (uploadArgsOf req fileName fileType)
                                     (initialStore W req fileName fileType w)))]))).
  { intros Hc. unfold processFileUpload. rewrite Ht, Hn, Hc.
    change (selectUploadChannel (Some "external"%string)) with "External"%string.
    unfold firstUpload. cbn [String.eqb Ascii.eqb Bool.eqb andb].
    rewrite call_run. reflexivity. }
  split; [|split; [exact Hext|]].
  - destruct Hor as [Hc|Ha]; [rewrite (Hext Hc); eexists; split; reflexivity|].
    destruct (processFileUpload_valid W uploadFileToCloudflareR2 uploadFileToS3
                uploadFileToTelegram uploadFileToExternal uploadFileToDiscord
                uploadFileToHuggingFace JSON_src JSON_dict req w fileType fileName Ht Hn)
      as [Hr Hl].
    rewrite Hr, Hl. unfold autoRetryOf. rewrite Ha.
    change (negb ("false" =? "false")%string) with false.
    destruct (selectUploadChannel_cases JSON_src
                (spGet (req_searchParams req) "uploadChannel")) as [->|Hin].
    + unfold firstUpload. cbn [String.eqb Ascii.eqb Bool.eqb andb]. rewrite call_run.
      eexists. split; reflexivity.
    + destruct (firstUpload_run W uploadFileToCloudflareR2 uploadFileToS3
                  uploadFileToTelegram uploadFileToExternal uploadFileToDiscord
                  uploadFileToHuggingFace JSON_src JSON_dict _ false
                  (uploadArgsOf req fileName fileType)
                  (initialStore W req fileName fileType w) [] Hin)
        as (up & Hup & [[Hrun _]|(res & _ & _ & Hoff & _)]); [|discriminate].
      rewrite Hrun. eexists. split; reflexivity.
  - intros sp v Hv ne. unfold autoRetryOf. rewrite Hv.
    destruct (String.eqb_spec v "false"); [contradiction|reflexivity].
Qed.

End SingleAttempt.

Lemma single_attempt_requests_witness :
  let req := exampleRequest [("uploadChannel", "external")] in
  let run :=
    processFileUpload nat (alwaysFails " r2 down") (alwaysFails " s3 down")
                      (alwaysFails " tg down") (alwaysFails " ext down")
                      (alwaysFails " dc down") (alwaysFails " hf down") noText noText
                      req 0%nat in
  run
  = (Ret (createResponse (TextBody " ext down") 500),
     (Some (countCall (initialStore nat req "cat.png" "image/png" 0%nat)),
      [mkAttempt "External" None (Ret (createResponse (TextBody " ext down") 500))])).
Proof.
  cbv zeta.
  apply (single_attempt_requests nat (alwaysFails " r2 down") (alwaysFails " s3 down")
           (alwaysFails " tg down") (alwaysFails " ext down")
           (alwaysFails " dc down") (alwaysFails " hf down") noText noText
           (exampleRequest [("uploadChannel", "external")]) 0%nat "image/png" "cat.png"
           eq_refl eq_refl (or_introl eq_refl)).
  reflexivity.
Defined.

(** * The Discord upload, whatever happens *)

Lemma discord_select_in (settings : Discord.DiscordSettings)
      (channels : list Discord.DiscordChannel) (specified : option string) (rnd : nat)
      (ch : Discord.DiscordChannel) :
  Discord.selectDiscordChannel settings channels specified rnd = Some ch ->
  In ch channels.
Proof.
  unfold Discord.selectDiscordChannel.
  destruct (Discord.present specified).
  - destruct (find _ channels) as [c|] eqn:F.
    + intros H. injection H as <-. apply find_some in F. tauto.
    + destruct (Discord.ds_loadBalance settings) as [[|]|]; apply nth_error_In.
  - destruct (Discord.ds_loadBalance settings) as [[|]|]; apply nth_error_In.
Qed.

Lemma find_same {A} (f g : A -> bool) (l : list A) :
  (forall x, f x = g x) -> find f l = find g l.
Proof.
  intros H. induction l as [|x l IH]; [reflexivity|]. simpl. rewrite H, IH. reflexivity.
Qed.

(** X9.  Choosing a Discord channel from a list that is not empty always
    gives a channel of that list (the random index never leaves it), and
    when a channel carries the requested name the first such channel is
    chosen, load balancing or not. *)
Theorem discord_channel_choice (settings : Discord.DiscordSettings)
        (channels : list Discord.DiscordChannel) (specified : option string) (rnd : nat) :
  channels <> [] ->
  exists ch,
    Discord.selectDiscordChannel settings channels specified rnd = Some ch /\
    In ch channels /\
    (forall name c,
        specified = Some name -> name <> EmptyString ->
        find (fun x => match Discord.dc_name x with
                       | Some n => String.eqb n name
                       | None => false
                       end) channels = Some c ->
        ch = c).
Proof.
  intros Hne.
  assert (Hsome : exists ch,
             Discord.selectDiscordChannel settings channels specified rnd = Some ch).
  { unfold Discord.selectDiscordChannel.
    assert (H0 : exists c, nth_error channels 0 = Some c).
    { destruct channels as [|c l]; [congruence|]. exists c. reflexivity. }
    assert (Hr : exists c,
               nth_error channels (Nat.modulo rnd (List.length channels)) = Some c).
    { destruct (nth_error channels (Nat.modulo rnd (List.length channels))) as [c|] eqn:E;
        [exists c; reflexivity|].
      apply nth_error_None in E. exfalso.
      assert (List.length channels <> 0%nat) by (destruct channels; simpl; congruence).
      pose proof (Nat.mod_upper_bound rnd (List.length channels) ltac:(assumption)). lia. }
    destruct (Discord.present specified);
      [destruct (find _ channels) as [c|]; [exists c; reflexivity|]|];
      destruct (Discord.ds_loadBalance settings) as [[|]|]; assumption. }
  destruct Hsome as [ch Hch]. exists ch. split; [exact Hch|].
  split; [exact (discord_select_in _ _ _ _ _ Hch)|].
  intros name c -> Hname Hfind. unfold Discord.selectDiscordChannel in Hch.
  destruct name as [|a name]; [congruence|]. cbn [Discord.present] in Hch.
  assert (E : find (fun ch0 => match Discord.dc_name ch0, Some (String a name) with
                               | Some n, Some m => (n =? m)%string
                               | _, _ => false
                               end) channels = Some c).
  { rewrite <- Hfind. apply find_same. intros x. destruct (Discord.dc_name x); reflexivity. }
  rewrite E in Hch. congruence.
Qed.

Lemma discord_channel_choice_witness :
  let a := Discord.mkDiscordChannel (Some "first") (Some "t1") (Some "1") None None in
  let b := Discord.mkDiscordChannel (Some "second") (Some "t2") (Some "2") None None in
  exists ch,
    Discord.selectDiscordChannel (Discord.mkDiscordSettings (Some [a; b]) (Some true))
                                 [a; b] (Some "second") 4%nat = Some ch /\
    In ch [a; b] /\
    (forall name c,
        Some "second" = Some name -> name <> EmptyString ->
        find (fun x => match Discord.dc_name x with
                       | Some n => String.eqb n name
                       | None => false
                       end) [a; b] = Some c ->
        ch = c).
Proof.
  cbv zeta.
  apply (discord_channel_choice
           (Discord.mkDiscordSettings
              (Some [Discord.mkDiscordChannel (Some "first") (Some "t1") (Some "1") None None;
                     Discord.mkDiscordChannel (Some "second") (Some "t2") (Some "2") None None])
              (Some true))
           [Discord.mkDiscordChannel (Some "first") (Some "t1") (Some "1") None None;
            Discord.mkDiscordChannel (Some "second") (Some "t2") (Some "2") None None]
           (Some "second") 4%nat).
  discriminate.
Defined.

(** X10.  The Discord upload always answers, with status 200, 400, 413 or
    500, and only adds to the calls made.  On status 200 it has sent the
    file, asked for moderation, written to the database the metadata it
    leaves in the store, marked with channel Discord, and ended the upload,
    in this order.  On any other status the upload is not ended, and on
    400 and 413 nothing was called and nothing changed. *)
Theorem discord_outcomes (args : UploadArgs) (st : Store Discord.DiscordWorld) :
  let out := Discord.uploadFileToDiscord args st in
  exists res new,
    fst out = Ret res /\
    In (status res) [200; 400; 413; 500] /\
    Discord.dw_events (world (snd out)) = Discord.dw_events (world st) ++ new /\
    (status res = 200 ->
     exists channelId url,
       new = [Discord.EvSendFile channelId (FileName (metadata st));
              Discord.EvModerate url;
              Discord.EvDbPut (fullId args) (metadata (snd out));
              Discord.EvEndUpload (fullId args)] /\
       Channel (metadata (snd out)) = Some "Discord"%string /\
       body res = SrcBody (returnLink args)) /\
    (status res <> 200 -> forall id, ~ In (Discord.EvEndUpload id) new) /\
    (status res = 400 \/ status res = 413 -> snd out = st).
Proof.
  cbv zeta. unfold Discord.uploadFileToDiscord.
  assert (Hquiet : forall (s : string) (code : Z),
             code = 400 \/ code = 413 ->
             exists res new,
               fst (Ret (createResponse (TextBody s) code), st) = Ret res /\
               In (status res) [200; 400; 413; 500] /\
               Discord.dw_events (world (snd (Ret (createResponse (TextBody s) code), st)))
               = Discord.dw_events (world st) ++ new /\
               (status res = 200 ->
                exists channelId url,
                  new = [Discord.EvSendFile channelId (FileName (metadata st));
                         Discord.EvModerate url;
                         Discord.EvDbPut (fullId args)
                           (metadata (snd (Ret (createResponse (TextBody s) code), st)));
                         Discord.EvEndUpload (fullId args)] /\
                  Channel (metadata (snd (Ret (createResponse (TextBody s) code), st)))
                  = Some "Discord"%string /\
                  body res = SrcBody (returnLink args)) /\
               (status res <> 200 -> forall id, ~ In (Discord.EvEndUpload id) new) /\
               (status res = 400 \/ status res = 413 ->
                snd (Ret (createResponse (TextBody s) code), st) = st)).
  { intros s code Hc. exists (createResponse (TextBody s) code), [].
    cbn [fst snd status createResponse]. rewrite app_nil_r.
    split; [reflexivity|]. split; [simpl; destruct Hc as [->| ->]; tauto|].
    split; [reflexivity|]. split; [intros E; destruct Hc as [->| ->]; discriminate|].
    split; [intros _ id []|reflexivity]. }
  destruct (Discord.dw_settings (world st)) as [settings|]; [|apply Hquiet; tauto].
  destruct (Discord.ds_channels settings) as [[|c0 cs]|]; try (apply Hquiet; tauto).
  destruct (Discord.selectDiscordChannel _ _ _ _) as [ch|]; [|apply Hquiet; tauto].
  destruct (Discord.present (Discord.dc_botToken ch)
            && Discord.present (Discord.dc_channelId ch)); [|apply Hquiet; tauto].
  destruct (fsize (Discord.dw_file (world st)) >? _); [apply Hquiet; tauto|].
  unfold Discord.discordTransfer. cbn [Discord.dw_send Discord.emit].
  destruct (Discord.dw_send (world st)) as [message|[fileInfo|]].
  - eexists; eexists. cbn [fst snd status createResponse world Discord.withWorld
                           Discord.dw_events Discord.emit metadata].
    split; [reflexivity|]. split; [simpl; tauto|]. split; [reflexivity|].
    split; [discriminate|]. split; [|intros [E|E]; discriminate].
    intros _ id [E|[]]. discriminate.
  - cbn [Discord.dw_moderate Discord.emit].
    destruct (Discord.dw_moderate (world st) _) as [message|label].
    + eexists; eexists. cbn [fst snd status createResponse world Discord.withWorld
                             Discord.dw_events Discord.emit metadata].
      rewrite <- app_assoc. split; [reflexivity|]. split; [simpl; tauto|].
      split; [reflexivity|]. split; [discriminate|]. split; [|intros [E|E]; discriminate].
      intros _ id [E|[E|[]]]; discriminate.
    + cbn [Discord.dw_dbPutFails Discord.emit].
      destruct (Discord.dw_dbPutFails (world st)).
      * eexists; eexists. cbn [fst snd status createResponse world Discord.withWorld
                               Discord.dw_events Discord.emit metadata].
        rewrite <- !app_assoc. split; [reflexivity|]. split; [simpl; tauto|].
        split; [reflexivity|]. split; [discriminate|].
        split; [|intros [E|E]; discriminate].
        intros _ id [E|[E|[E|[]]]]; discriminate.
      * eexists; eexists. cbn [fst snd status createResponse world Discord.withWorld
                               Discord.dw_events Discord.emit metadata Channel body].
        rewrite <- !app_assoc. split; [reflexivity|]. split; [simpl; tauto|].
        split; [reflexivity|]. split.
        -- intros _. eexists; eexists. split; [reflexivity|]. split; reflexivity.
        -- split; [intros H; exfalso; apply H; reflexivity|intros [E|E]; discriminate].
  - eexists; eexists. cbn [fst snd status createResponse world Discord.withWorld
                           Discord.dw_events Discord.emit metadata].
    split; [reflexivity|]. split; [simpl; tauto|]. split; [reflexivity|].
    split; [discriminate|]. split; [|intros [E|E]; discriminate].
    intros _ id [E|[]]. discriminate.
Qed.

(** * Rewriting the attachment URL for a proxy *)

Lemma stripPrefix_app (p s : string) : Discord.stripPrefix p (p ++ s) = Some s.
Proof.
  induction p as [|a p IH]; [reflexivity|]. cbn [String.append Discord.stripPrefix].
  rewrite Ascii.eqb_refl. exact IH.
Qed.

Lemma substitution_plain (rep matched before after : string) :
  hasChar "$" rep = false -> Discord.substitution rep matched before after = rep.
Proof.
  induction rep as [|c r IH]; [reflexivity|]. cbn [hasChar]. intros H.
  apply orb_false_elim in H. destruct H as [Hc Hr].
  cbn [Discord.substitution]. rewrite (IH Hr).
  destruct c as [[] [] [] [] [] [] [] []]; try reflexivity. discriminate.
Qed.

(** X11.  When the proxy host holds no dollar sign, an attachment URL on
    the Discord CDN is rewritten to the same path on the proxy. *)
Theorem proxy_rewrites_cdn_url (proxy path : string) :
  hasChar "$" proxy = false ->
  Discord.replaceFirst ("https://cdn.discordapp.com" ++ path)
                       "https://cdn.discordapp.com" ("https://" ++ proxy)
  = ("https://" ++ proxy ++ path)%string.
Proof.
  intros H. unfold Discord.replaceFirst.
  assert (F : Discord.findFirst "https://cdn.discordapp.com"
                                ("https://cdn.discordapp.com" ++ path)
              = Some (EmptyString, path)).
  { destruct ("https://cdn.discordapp.com" ++ path)%string eqn:E; [discriminate|].
    rewrite <- E. unfold Discord.findFirst.
    rewrite E at 1. rewrite <- E.
    rewrite (stripPrefix_app "https://cdn.discordapp.com" path). reflexivity. }
  rewrite F. rewrite substitution_plain by exact H.
  cbn [String.append]. reflexivity.
Qed.

Lemma proxy_rewrites_cdn_url_witness :
  Discord.replaceFirst ("https://cdn.discordapp.com" ++ "/attachments/1/2/cat.png")
                       "https://cdn.discordapp.com" ("https://" ++ "proxy.example")
  = ("https://" ++ "proxy.example" ++ "/attachments/1/2/cat.png")%string.
Proof.
  apply (proxy_rewrites_cdn_url "proxy.example" "/attachments/1/2/cat.png"). reflexivity.
Defined.

(** * The external channel *)

Lemma dictGet_dictSet (o : Dict) (k v : string) : dictGet (dictSet o k v) k = Some v.
Proof.
  induction o as [|[k' v'] o IH]; simpl; [rewrite String.eqb_refl; reflexivity|].
  destruct (String.eqb_spec k' k) as [E|E]; simpl.
  - rewrite String.eqb_refl. reflexivity.
  - destruct (String.eqb_spec k' k); [contradiction|exact IH].
Qed.

Lemma dictGet_dictSet_other (o : Dict) (k v k' : string) :
  k' <> k -> dictGet (dictSet o k v) k' = dictGet o k'.
Proof.
  intros ne. induction o as [|[k0 v0] o IH]; simpl.
  - destruct (String.eqb_spec k k'); [congruence|reflexivity].
  - destruct (String.eqb_spec k0 k) as [E|E]; simpl.
    + subst k0. destruct (String.eqb_spec k k'); [congruence|reflexivity].
    + destruct (String.eqb_spec k0 k'); [reflexivity|exact IH].
Qed.

(** X12.  The external upload marks the shared metadata with channel
    External before it looks at the form, so also when it then answers 400
    for a missing [url].  It answers 200 exactly when a [url] is there
    (the empty text counts) and the database took the record; the record
    it writes carries that [url] as ExternalLink, and the upload is ended
    on status 200 only. *)
Theorem external_outcomes (args : UploadArgs) (st : Store External.ExternalWorld) :
  let out := External.uploadFileToExternal args st in
  exists res new,
    fst out = Ret res /\
    External.ew_events (world (snd out)) = External.ew_events (world st) ++ new /\
    Channel (metadata (snd out)) = Some "External"%string /\
    ChannelName (metadata (snd out)) = Some "External"%string /\
    (status res = 200 <->
     (exists url, External.ew_url (world st) = Some url) /\
     External.ew_dbPutFails (world st) = false) /\
    (External.ew_url (world st) = None -> status res = 400 /\ new = []) /\
    (forall id m url,
        In (External.EvDbPut id m) new -> External.ew_url (world st) = Some url ->
        id = fullId args /\ m = metadata (snd out) /\
        dictGet (Extra m) "ExternalLink" = Some url) /\
    (In (External.EvEndUpload (fullId args)) new <-> status res = 200).
Proof.
  cbv zeta. unfold External.uploadFileToExternal.
  destruct (External.ew_url (world st)) as [url|] eqn:U.
  - cbn [External.emit External.ew_dbPutFails].
    destruct (External.ew_dbPutFails (world st)) eqn:D.
    + eexists; eexists.
      cbn [fst snd putStore world metadata External.emit External.ew_events status
           createResponse setExtra setChannel Channel ChannelName Extra].
      split; [reflexivity|]. split; [reflexivity|]. split; [reflexivity|].
      split; [reflexivity|]. split; [split; [discriminate|intros [_ H]; discriminate]|].
      split; [discriminate|]. split.
      * intros id m url' [E|[]] Hu. injection E as <- <-. injection Hu as <-.
        split; [reflexivity|]. split; [reflexivity|]. apply dictGet_dictSet.
      * split; [intros [E|[]]; discriminate|discriminate].
    + eexists; eexists.
      cbn [fst snd putStore world metadata External.emit External.ew_events status
           createResponse setExtra setChannel Channel ChannelName Extra].
      rewrite <- app_assoc.
      split; [reflexivity|]. split; [reflexivity|]. split; [reflexivity|].
      split; [reflexivity|].
      split; [split; [intros _; split; [exists url; reflexivity|reflexivity]|reflexivity]|].
      split; [discriminate|]. split.
      * intros id m url' [E|[E|[]]] Hu; [|discriminate]. injection E as <- <-.
        injection Hu as <-.
        split; [reflexivity|]. split; [reflexivity|]. apply dictGet_dictSet.
      * split; [reflexivity|]. intros _. right. left. reflexivity.
  - exists (createResponse (TextBody "Error: No url provided") 400), [].
    cbn [fst snd putStore world metadata status createResponse setChannel Channel
         ChannelName].
    rewrite app_nil_r.
    split; [reflexivity|]. split; [reflexivity|]. split; [reflexivity|].
    split; [reflexivity|].
    split; [split; [discriminate|intros [[url H] _]; discriminate]|].
    split; [split; reflexivity|]. split; [intros id m url []|].
    split; [intros []|discriminate].
Qed.

(** * The R2 upload *)

(** X13.  The R2 upload makes its calls in one order: the object is put in
    the bucket, then moderation is asked, then the database is written,
    then the upload is ended.  It ends the upload exactly when it answers
    200, calls nothing when it answers 400 or finds no bucket bound, and
    after a failed database write (status 500 with a bucket bound) the
    object is left in the bucket. *)
Theorem r2_outcomes (args : UploadArgs) (st : Store R2.R2World) :
  let out := R2.uploadFileToCloudflareR2 args st in
  exists new,
    R2.rw_events (world (snd out)) = R2.rw_events (world st) ++ new /\
    (exists url m k,
        new = firstn k [R2.EvBucketPut (fullId args); R2.EvModerate url;
                        R2.EvDbPut (fullId args) m; R2.EvEndUpload (fullId args)]) /\
    (forall res,
        fst out = Ret res ->
        In (status res) [200; 400; 500] /\
        (status res = 200 <-> In (R2.EvEndUpload (fullId args)) new) /\
        (status res = 400 -> new = []) /\
        (R2.rw_bucketBound (world st) = true -> status res = 500 ->
         exists url,
           new = [R2.EvBucketPut (fullId args); R2.EvModerate url;
                  R2.EvDbPut (fullId args) (metadata (snd out))])) /\
    (R2.rw_bucketBound (world st) = false ->
     fst out = Ret (createResponse (TextBody "Error: Please configure R2 database") 500) /\
     snd out = st).
Proof.
  cbv zeta. unfold R2.uploadFileToCloudflareR2.
  assert (Hnone : forall k : nat,
             exists (url : string) (m : Metadata) (k : nat),
               @nil R2.Event
               = firstn k [R2.EvBucketPut (fullId args); R2.EvModerate url;
                           R2.EvDbPut (fullId args) m; R2.EvEndUpload (fullId args)]).
  { intros _. exists EmptyString, (metadata st), 0%nat. reflexivity. }
  destruct (R2.rw_bucketBound (world st)) eqn:B; cbn [negb].
  2:{ exists []. rewrite app_nil_r. cbn [fst snd]. split; [reflexivity|].
      split; [apply (Hnone 0%nat)|]. split; [|intros _; split; reflexivity].
      intros res H. injection H as <-. cbn [status createResponse].
      split; [simpl; tauto|]. split; [split; [discriminate|intros []]|].
      split; [discriminate|discriminate]. }
  destruct (R2.rw_settings (world st)) as [[[|first channels]|]|].
  - exists []. rewrite app_nil_r. cbn [fst snd]. split; [reflexivity|].
    split; [apply (Hnone 0%nat)|]. split; [|discriminate].
    intros res H. injection H as <-. cbn [status createResponse].
    split; [simpl; tauto|]. split; [split; [discriminate|intros []]|].
    split; [reflexivity|discriminate].
  - cbn [R2.rw_bucketPut R2.emit].
    destruct (R2.rw_bucketPut (world st)) as [message|[]].
    + exists [R2.EvBucketPut (fullId args)].
      cbn [fst snd putStore world R2.rw_events R2.emit].
      split; [reflexivity|].
      split; [exists EmptyString, (metadata st), 1%nat; reflexivity|].
      split; [discriminate|discriminate].
    + unfold R2.recordUpload. cbn [R2.rw_moderate R2.emit].
      match goal with |- context [R2.rw_moderate (world st) ?u] =>
        set (url := u); destruct (R2.rw_moderate (world st) url) as [message|label] end.
      * exists [R2.EvBucketPut (fullId args); R2.EvModerate url].
        cbn [fst snd putStore world R2.rw_events R2.emit]. rewrite <- app_assoc.
        split; [reflexivity|].
        split; [exists url, (metadata st), 2%nat; reflexivity|].
        split; [discriminate|discriminate].
      * cbn [R2.rw_dbPutFails R2.emit].
        match goal with |- context [R2.EvDbPut (fullId args) ?m0] => set (m := m0) end.
        destruct (R2.rw_dbPutFails (world st)).
        -- exists [R2.EvBucketPut (fullId args); R2.EvModerate url;
                   R2.EvDbPut (fullId args) m].
           cbn [fst snd putStore world R2.rw_events R2.emit metadata].
           rewrite <- !app_assoc. split; [reflexivity|].
           split; [exists url, m, 3%nat; reflexivity|].
           split; [|discriminate].
           intros res H. injection H as <-. cbn [status createResponse].
           split; [simpl; tauto|].
           split; [split; [discriminate|intros [E|[E|[E|[]]]]; discriminate]|].
           split; [discriminate|]. intros _ _. exists url. reflexivity.
        -- exists [R2.EvBucketPut (fullId args); R2.EvModerate url;
                   R2.EvDbPut (fullId args) m; R2.EvEndUpload (fullId args)].
           cbn [fst snd putStore world R2.rw_events R2.emit metadata].
           rewrite <- !app_assoc. split; [reflexivity|].
           split; [exists url, m, 4%nat; reflexivity|].
           split; [|discriminate].
           intros res H. injection H as <-. cbn [status createResponse].
           split; [simpl; tauto|].
           split; [split; [intros _; simpl; tauto|reflexivity]|].
           split; discriminate.
  - exists []. rewrite app_nil_r. cbn [fst snd]. split; [reflexivity|].
    split; [apply (Hnone 0%nat)|]. split; [|discriminate].
    intros res H. injection H as <-. cbn [status createResponse].
    split; [simpl; tauto|]. split; [split; [discriminate|intros []]|].
    split; [reflexivity|discriminate].
  - exists []. rewrite app_nil_r. cbn [fst snd]. split; [reflexivity|].
    split; [apply (Hnone 0%nat)|]. split; discriminate.
Qed.

Section R2InARequest.

Variable uploadFileToS3 : Uploader R2.R2World.
Variable uploadFileToTelegram : Uploader R2.R2World.
Variable uploadFileToExternal : Uploader R2.R2World.
Variable uploadFileToDiscord : Uploader R2.R2World.
Variable uploadFileToHuggingFace : Uploader R2.R2World.
Variable JSON_src : string -> string.
Variable JSON_dict : Dict -> string.

Local Abbreviation processFileUpload' :=
  (processFileUpload R2.R2World R2.uploadFileToCloudflareR2 uploadFileToS3
                     uploadFileToTelegram uploadFileToExternal uploadFileToDiscord
                     uploadFileToHuggingFace JSON_src JSON_dict).

(** X14.  An exception of the bucket is not caught anywhere: when the R2
    channel is asked for and putting the object throws, the whole request
    throws, with auto-retry on as well, and no other family is tried. *)
Theorem r2_exception_escapes_failover (req : Request) (w : R2.R2World)
        (fileType fileName message : string) (first : R2.R2Channel)
        (channels : list R2.R2Channel) :
  ftype (req_file req) = Some fileType ->
  fname (req_file req) = Some fileName ->
  spGet (req_searchParams req) "uploadChannel" = Some "cfr2"%string ->
  R2.rw_bucketBound w = true ->
  R2.rw_settings w = Some (Some (first :: channels)) ->
  R2.rw_bucketPut w = Thrown message ->
  fst (processFileUpload' req w) = Throw OtherError /\
  map family (snd (snd (processFileUpload' req w))) = ["CloudflareR2"%string].
Proof.
  intros Ht Hn Hc Hb Hs Hp.
  destruct (processFileUpload_valid R2.R2World R2.uploadFileToCloudflareR2 uploadFileToS3
              uploadFileToTelegram uploadFileToExternal uploadFileToDiscord
              uploadFileToHuggingFace JSON_src JSON_dict req w fileType fileName Ht Hn)
    as [Hr Hl].
  rewrite Hr, Hl, Hc.
  change (selectUploadChannel (Some "cfr2"%string)) with "CloudflareR2"%string.
  unfold firstUpload. cbn [String.eqb Ascii.eqb Bool.eqb andb].
  unfold mbind. rewrite call_run.
  assert (E : fst (R2.uploadFileToCloudflareR2 (uploadArgsOf req fileName fileType)
                     (initialStore R2.R2World req fileName fileType w))
              = Throw OtherError).
  { unfold R2.uploadFileToCloudflareR2. cbn [world initialStore].
    rewrite Hb, Hs. cbn [negb R2.rw_bucketPut R2.emit]. rewrite Hp. reflexivity. }
  rewrite E. split; reflexivity.
Qed.

End R2InARequest.

Lemma r2_exception_escapes_failover_witness :
  let run :=
    processFileUpload R2.R2World R2.uploadFileToCloudflareR2 (refuses " s3 down")
                      (refuses " tg down") (refuses " ext down") (refuses " dc down")
                      (refuses " hf down") noText noText
                      (exampleRequest [("uploadChannel", "cfr2")])
                      (r2World (Thrown "bucket is gone") false) in
  fst run = Throw OtherError /\ map family (snd (snd run)) = ["CloudflareR2"%string].
Proof.
  cbv zeta.
  apply (r2_exception_escapes_failover (refuses " s3 down") (refuses " tg down")
           (refuses " ext down") (refuses " dc down") (refuses " hf down") noText noText
           (exampleRequest [("uploadChannel", "cfr2")])
           (r2World (Thrown "bucket is gone") false)
           "image/png" "cat.png" "bucket is gone"
           (R2.mkR2Channel (Some "main") (Some "https://r2.example")) []);
    reflexivity.
Defined.

(** * The Telegram upload *)

Lemma string_length_app (a b : string) :
  String.length (a ++ b) = (String.length a + String.length b)%nat.
Proof. induction a as [|c a IH]; [reflexivity|]. simpl. rewrite IH. reflexivity. Qed.

Lemma replaceSuffix_app (suf rep stem : string) :
  replaceSuffix suf rep (stem ++ suf) = (stem ++ rep)%string.
Proof.
  induction stem as [|c stem IH].
  - cbn [String.append]. destruct suf; cbn [replaceSuffix]; rewrite String.eqb_refl;
      reflexivity.
  - cbn [String.append replaceSuffix].
    destruct (String.eqb_spec (String c (stem ++ suf)) suf) as [E|_].
    + apply (f_equal String.length) in E. cbn [String.length] in E.
      rewrite string_length_app in E. lia.
    + rewrite IH. reflexivity.
Qed.

Lemma replaceSuffix_other (suf rep s : string) :
  (forall stem, s <> (stem ++ suf)%string) -> replaceSuffix suf rep s = s.
Proof.
  induction s as [|c s IH]; intros H.
  - cbn [replaceSuffix]. destruct (String.eqb_spec EmptyString suf) as [E|_];
      [exfalso; apply (H EmptyString); exact E|reflexivity].
  - cbn [replaceSuffix]. destruct (String.eqb_spec (String c s) suf) as [E|_];
      [exfalso; apply (H EmptyString); exact E|].
    rewrite IH; [reflexivity|]. intros stem E. apply (H (String c stem)).
    cbn [String.append]. rewrite E. reflexivity.
Qed.

(** X15.  A file with extension [gif] or [webp] is sent under a new name:
    a name that ends in [.gif] (or [.webp]) gets [.jpeg] in its place and
    keeps what stands before, a name that does not end so is kept as it
    is (the extension was then read off the MIME type), and a file with
    another extension is not renamed. *)
Theorem gif_and_webp_are_renamed (stem fileName fileExt : string) :
  Telegram.renamed "gif" (stem ++ ".gif") = Some (stem ++ ".jpeg")%string /\
  Telegram.renamed "webp" (stem ++ ".webp") = Some (stem ++ ".jpeg")%string /\
  ((forall s, fileName <> (s ++ ".gif")%string) ->
   Telegram.renamed "gif" fileName = Some fileName) /\
  ((forall s, fileName <> (s ++ ".webp")%string) ->
   Telegram.renamed "webp" fileName = Some fileName) /\
  (fileExt <> "gif"%string -> fileExt <> "webp"%string ->
   Telegram.renamed fileExt fileName = None).
Proof.
  unfold Telegram.renamed. cbn [String.eqb Ascii.eqb Bool.eqb andb].
  rewrite !replaceSuffix_app. split; [reflexivity|]. split; [reflexivity|].
  split; [intros H; rewrite replaceSuffix_other by exact H; reflexivity|].
  split; [intros H; rewrite replaceSuffix_other by exact H; reflexivity|].
  intros Hg Hw. destruct (String.eqb_spec fileExt "gif"); [contradiction|].
  destruct (String.eqb_spec fileExt "webp"); [contradiction|reflexivity].
Qed.

(** X16.  The API method always comes with its kind, out of five pairs.
    With [serverCompress=false] it is [sendDocument] for every file;
    otherwise a [gif] or [webp] file (by extension or by type) is an
    animation, an SVG or an icon is a document, and a photo is sent only
    for a type that begins with [image/]. *)
Theorem telegram_send_function (fileType fileExt : string) (serverCompress : option string) :
  let f := Telegram.sendFunctionOf fileType fileExt serverCompress in
  In f [("sendPhoto", "photo"); ("sendVideo", "video"); ("sendAudio", "audio");
        ("sendDocument", "document"); ("sendAnimation", "animation")]%string /\
  (serverCompress = Some "false"%string -> f = ("sendDocument", "document")%string) /\
  (serverCompress <> Some "false"%string ->
   (fileExt = "gif" \/ fileExt = "webp" \/ fileType = "image/gif" \/ fileType = "image/webp")
   %string ->
   f = ("sendAnimation", "animation")%string) /\
  (serverCompress <> Some "false"%string ->
   fileExt <> "gif"%string -> fileExt <> "webp"%string ->
   (fileType = "image/svg+xml" \/ fileType = "image/x-icon")%string ->
   f = ("sendDocument", "document")%string) /\
  (f = ("sendPhoto", "photo")%string -> String.prefix "image/" fileType = true).
Proof.
  cbv zeta. unfold Telegram.sendFunctionOf, Telegram.fileTypeMap, Telegram.defaultType.
  cbn [find fst snd].
  assert (Hc : forall g : string * string,
             (match serverCompress with
              | Some v => if String.eqb v "false" then ("sendDocument", "document")%string
                          else g
              | None => g
              end = g /\ serverCompress <> Some "false"%string) \/
             (match serverCompress with
              | Some v => if String.eqb v "false" then ("sendDocument", "document")%string
                          else g
              | None => g
              end = ("sendDocument", "document")%string
              /\ serverCompress = Some "false"%string)).
  { intros g. destruct serverCompress as [v|]; [|left; split; [reflexivity|discriminate]].
    destruct (String.eqb_spec v "false") as [->|ne]; [right; split; reflexivity|].
    left. split; [reflexivity|congruence]. }
  match goal with |- context [match serverCompress with Some _ => _ | None => ?g end] =>
    destruct (Hc g) as [[-> Hs]|[-> Hs]]; clear Hc end.
  2:{ split; [simpl; tauto|]. split; [reflexivity|].
      split; [intros H; contradiction|]. split; [intros H; contradiction|discriminate]. }
  destruct (String.eqb_spec fileType "image/gif") as [Eg|Eg];
    destruct (String.eqb_spec fileType "image/webp") as [Ew|Ew];
    destruct (String.eqb_spec fileExt "gif") as [Xg|Xg];
    destruct (String.eqb_spec fileExt "webp") as [Xw|Xw]; cbn [orb];
    try (split; [simpl; tauto|]; split; [intros H; contradiction|];
         split; [reflexivity|]; split; [intros _ A B [C|C]; congruence|discriminate]).
  destruct (String.eqb_spec fileType "image/svg+xml") as [Es|Es];
    destruct (String.eqb_spec fileType "image/x-icon") as [Ei|Ei]; cbn [orb];
    try (split; [simpl; tauto|]; split; [intros H; contradiction|];
         split; [intros _ H; exfalso; tauto|]; split; [reflexivity|discriminate]).
  destruct (String.prefix "image/" fileType) eqn:Pi;
    [|destruct (String.prefix "video/" fileType);
      [|destruct (String.prefix "audio/" fileType);
        [|destruct (String.prefix "application/pdf" fileType)]]];
    (split; [simpl; tauto|]; split; [intros H; contradiction|];
     split; [intros _ H; exfalso; tauto|]; split; [intros _ _ _ H; exfalso; tauto|]);
    solve [reflexivity | discriminate].
Qed.

(** What the [try] block does, for every answer of the services. *)
Lemma transfer_run (args : UploadArgs) (tgChannel : Telegram.TgChannel)
      (aiData : option Result) (sendFunction : string * string)
      (st : Store Telegram.TelegramWorld) (w : Telegram.TelegramWorld) :
  exists res new,
    fst (Telegram.transfer args tgChannel aiData sendFunction st w) = Ret res /\
    Telegram.tw_events (world (snd (Telegram.transfer args tgChannel aiData sendFunction st w)))
    = Telegram.tw_events w ++ new /\
    In (status res) [200; 400; 500] /\
    (In (Telegram.EvEndUpload (fullId args)) new <-> status res = 200 \/ status res = 500) /\
    (forall id m,
        In (Telegram.EvDbPut id m) new ->
        id = fullId args /\
        m = metadata (snd (Telegram.transfer args tgChannel aiData sendFunction st w)) /\
        Channel m = Some "TelegramNew"%string /\
        status res <> 400) /\
    (status res = 500 -> Telegram.tw_dbPutFails w = true) /\
    (status res = 200 -> body res = SrcBody (returnLink args)) /\
    (exists rest,
        new = Telegram.EvSendFile (Telegram.tw_file w) (Telegram.tc_chatId tgChannel)
                (fst sendFunction) (snd sendFunction)
                (match aiData with Some r => caption r | None => [] end) :: rest /\
        (forall f c u t k, ~ In (Telegram.EvSendFile f c u t k) rest) /\
        (forall c t r,
            In (Telegram.EvSendMessage c t r) rest ->
            exists ai, aiData = Some ai /\ needsSecondMessage ai = true /\
                       t = fullText ai /\ c = Telegram.tc_chatId tgChannel)).
Proof.
  unfold Telegram.transfer, Telegram.recordUpload.
  cbn [Telegram.emit Telegram.tw_sendFile Telegram.tw_file].
  destruct (Telegram.tw_sendFile w (Telegram.tw_file w) (fst sendFunction))
    as [message|response].
  { eexists; eexists. cbn [fst snd putStore world Telegram.tw_events Telegram.emit].
    split; [reflexivity|]. split; [reflexivity|].
    cbn [Telegram.uploadError status createResponse].
    split; [simpl; tauto|].
    split; [split; [intros [E|[]]; discriminate|intros [E|E]; discriminate]|].
    split; [intros id m [E|[]]; discriminate|].
    split; [discriminate|]. split; [discriminate|].
    eexists. split; [reflexivity|]. split; [intros f c u t k []|intros c t r []]. }
  destruct (Telegram.tr_ok response); cbn [negb].
  2:{ eexists; eexists. cbn [fst snd putStore world Telegram.tw_events Telegram.emit].
      split; [reflexivity|]. split; [reflexivity|].
      cbn [Telegram.uploadError status createResponse].
      split; [simpl; tauto|].
      split; [split; [intros [E|[]]; discriminate|intros [E|E]; discriminate]|].
      split; [intros id m [E|[]]; discriminate|].
      split; [discriminate|]. split; [discriminate|].
      eexists. split; [reflexivity|]. split; [intros f c u t k []|intros c t r []]. }
  (* the follow-up message *)
  set (w1 := Telegram.emit _ w).
  match goal with
  | |- context [match Telegram.tr_fileInfo response with Some _ => _ | None => (_, putStore st (metadata st) ?x) end] =>
      set (w2 := x)
  end.
  assert (Hw2 : exists msgs,
             Telegram.tw_events w2 = Telegram.tw_events w1 ++ msgs /\
             Telegram.tw_moderate w2 = Telegram.tw_moderate w /\
             Telegram.tw_getFilePath w2 = Telegram.tw_getFilePath w /\
             Telegram.tw_dbPutFails w2 = Telegram.tw_dbPutFails w /\
             (forall e, In e msgs ->
                        exists ai, aiData = Some ai /\ needsSecondMessage ai = true /\
                                   e = Telegram.EvSendMessage (Telegram.tc_chatId tgChannel)
                                         (fullText ai) (Telegram.tr_messageId response))).
  { subst w2. destruct aiData as [ai|].
    - destruct (needsSecondMessage ai) eqn:Hn.
      + exists [Telegram.EvSendMessage (Telegram.tc_chatId tgChannel) (fullText ai)
                                       (Telegram.tr_messageId response)].
        destruct (Telegram.tw_sendMessage _); subst w1;
          cbn [Telegram.emit Telegram.tw_events Telegram.tw_moderate
               Telegram.tw_getFilePath Telegram.tw_dbPutFails];
          (split; [reflexivity|]; split; [reflexivity|]; split; [reflexivity|];
           split; [reflexivity|]; intros e [<-|[]]; exists ai; auto).
      + exists []. rewrite app_nil_r. subst w1. repeat split. intros e [].
    - exists []. rewrite app_nil_r. subst w1. repeat split. intros e []. }
  destruct Hw2 as (msgs & Hev & Hmod & Hpath & Hdb & Hmsgs).
  clearbody w2.
  assert (Hrest : forall tail : list Telegram.Event,
             (forall f c u t k, ~ In (Telegram.EvSendFile f c u t k) tail) ->
             (forall c t r, ~ In (Telegram.EvSendMessage c t r) tail) ->
             (forall f c u t k, ~ In (Telegram.EvSendFile f c u t k) (msgs ++ tail)) /\
             (forall c t r,
                 In (Telegram.EvSendMessage c t r) (msgs ++ tail) ->
                 exists ai, aiData = Some ai /\ needsSecondMessage ai = true /\
                            t = fullText ai /\ c = Telegram.tc_chatId tgChannel)).
  { intros tail Hf Hm. split.
    - intros f c u t k H. apply in_app_or in H. destruct H as [H|H]; [|exact (Hf _ _ _ _ _ H)].
      destruct (Hmsgs _ H) as (ai & _ & _ & E). discriminate.
    - intros c t r H. apply in_app_or in H. destruct H as [H|H]; [|destruct (Hm _ _ _ H)].
      destruct (Hmsgs _ H) as (ai & Ha & Hn & E). injection E as -> -> _.
      exists ai. auto. }
  assert (Hno : forall (tail : list Telegram.Event) (e : Telegram.Event),
             In e (msgs ++ tail) ->
             (forall c t r, e <> Telegram.EvSendMessage c t r) -> In e tail).
  { intros tail e H ne. apply in_app_or in H. destruct H as [H|H]; [|exact H].
    destruct (Hmsgs _ H) as (ai & _ & _ & E). exfalso. exact (ne _ _ _ E). }
  destruct (Telegram.tr_fileInfo response) as [fileInfo|].
  2:{ exists Telegram.uploadError, (Telegram.EvSendFile (Telegram.tw_file w)
        (Telegram.tc_chatId tgChannel) (fst sendFunction) (snd sendFunction)
        (match aiData with Some r => caption r | None => [] end) :: msgs ++ []).
      cbn [fst snd putStore world]. rewrite Hev. subst w1.
      cbn [Telegram.tw_events Telegram.emit]. rewrite <- !app_assoc, app_nil_r.
      split; [reflexivity|]. split; [reflexivity|].
      cbn [Telegram.uploadError status createResponse].
      split; [simpl; tauto|].
      split; [split; [intros [E|H]; [discriminate|];
                      destruct (Hmsgs _ H) as (ai & _ & _ & E); discriminate
                     |intros [E|E]; discriminate]|].
      split; [intros id m [E|H]; [discriminate|];
              destruct (Hmsgs _ H) as (ai & _ & _ & E); discriminate|].
      split; [discriminate|]. split; [discriminate|].
      eexists. split; [reflexivity|].
      rewrite <- (app_nil_r msgs). apply Hrest; intros; intros []. }
  cbn [Telegram.emit Telegram.tw_getFilePath]. rewrite Hpath.
  destruct (Telegram.tw_getFilePath w (Telegram.fi_file_id fileInfo)) as [message|filePath].
  { exists Telegram.uploadError, (Telegram.EvSendFile (Telegram.tw_file w)
        (Telegram.tc_chatId tgChannel) (fst sendFunction) (snd sendFunction)
        (match aiData with Some r => caption r | None => [] end)
        :: msgs ++ [Telegram.EvGetFilePath (Telegram.fi_file_id fileInfo)]).
    cbn [fst snd putStore world Telegram.tw_events Telegram.emit]. rewrite Hev. subst w1.
    cbn [Telegram.tw_events Telegram.emit]. rewrite <- !app_assoc.
    split; [reflexivity|]. split; [reflexivity|].
    cbn [Telegram.uploadError status createResponse].
    split; [simpl; tauto|].
    split; [split; [intros [E|H]; [discriminate|];
                    apply Hno in H; [destruct H as [E|[]]; discriminate|discriminate]
                   |intros [E|E]; discriminate]|].
    split; [intros id m [E|H]; [discriminate|];
            apply Hno in H; [destruct H as [E|[]]; discriminate|discriminate]|].
    split; [discriminate|]. split; [discriminate|].
    eexists. split; [reflexivity|].
    apply Hrest; [intros f c u t k [E|[]]; discriminate|intros c t r [E|[]]; discriminate]. }
  cbn [Telegram.emit Telegram.tw_moderate]. rewrite Hmod.
  match goal with |- context [Telegram.tw_moderate w ?u] =>
    set (url := u); destruct (Telegram.tw_moderate w url) as [message|label] end.
  { exists Telegram.uploadError, (Telegram.EvSendFile (Telegram.tw_file w)
        (Telegram.tc_chatId tgChannel) (fst sendFunction) (snd sendFunction)
        (match aiData with Some r => caption r | None => [] end)
        :: msgs ++ [Telegram.EvGetFilePath (Telegram.fi_file_id fileInfo);
                    Telegram.EvModerate url]).
    cbn [fst snd putStore world Telegram.tw_events Telegram.emit]. rewrite Hev. subst w1.
    cbn [Telegram.tw_events Telegram.emit]. rewrite <- !app_assoc.
    split; [reflexivity|]. split; [reflexivity|].
    cbn [Telegram.uploadError status createResponse].
    split; [simpl; tauto|].
    split; [split; [intros [E|H]; [discriminate|];
                    apply Hno in H; [destruct H as [E|[E|[]]]; discriminate|discriminate]
                   |intros [E|E]; discriminate]|].
    split; [intros id m [E|H]; [discriminate|];
            apply Hno in H; [destruct H as [E|[E|[]]]; discriminate|discriminate]|].
    split; [discriminate|]. split; [discriminate|].
    eexists. split; [reflexivity|].
    apply Hrest; [intros f c u t k [E|[E|[]]]; discriminate
                 |intros c t r [E|[E|[]]]; discriminate]. }
  cbn [Telegram.emit Telegram.tw_dbPutFails]. rewrite Hdb.
  match goal with |- context [Telegram.EvDbPut (fullId args) ?m0] => set (m := m0) end.
  assert (Hm : Channel m = Some "TelegramNew"%string).
  { subst m. destruct (Discord.present (Telegram.tc_proxyUrl tgChannel)); reflexivity. }
  exists (if Telegram.tw_dbPutFails w
          then createResponse (TextBody "Error: Failed to write to KV database") 500
          else createResponse (SrcBody (returnLink args)) 200),
    (Telegram.EvSendFile (Telegram.tw_file w)
        (Telegram.tc_chatId tgChannel) (fst sendFunction) (snd sendFunction)
        (match aiData with Some r => caption r | None => [] end)
        :: msgs ++ [Telegram.EvGetFilePath (Telegram.fi_file_id fileInfo);
                    Telegram.EvModerate url; Telegram.EvDbPut (fullId args) m;
                    Telegram.EvEndUpload (fullId args)]).
  cbn [fst snd putStore world Telegram.tw_events Telegram.emit metadata]. rewrite Hev.
  subst w1. cbn [Telegram.tw_events Telegram.emit]. rewrite <- !app_assoc.
  split; [reflexivity|]. split; [reflexivity|].
  split; [destruct (Telegram.tw_dbPutFails w); simpl; tauto|].
  split.
  { split; [intros _; destruct (Telegram.tw_dbPutFails w); simpl; tauto|].
    intros _. right. apply in_or_app. right. simpl. tauto. }
  split.
  { intros id m' [E|H]; [discriminate|].
    apply Hno in H; [|discriminate].
    destruct H as [E|[E|[E|[E|[]]]]]; try discriminate. injection E as <- <-.
    split; [reflexivity|]. split; [reflexivity|]. split; [exact Hm|].
    destruct (Telegram.tw_dbPutFails w); discriminate. }
  split; [destruct (Telegram.tw_dbPutFails w); [reflexivity|discriminate]|].
  split; [destruct (Telegram.tw_dbPutFails w); [discriminate|reflexivity]|].
  eexists. split; [reflexivity|].
  apply Hrest; [intros f c u t k [E|[E|[E|[E|[]]]]]; discriminate
               |intros c t r [E|[E|[E|[E|[]]]]]; discriminate].
Qed.

Lemma transfer_keeps_file (args : UploadArgs) (tgChannel : Telegram.TgChannel)
      (aiData : option Result) (sendFunction : string * string)
      (st : Store Telegram.TelegramWorld) (w : Telegram.TelegramWorld) :
  Telegram.tw_file (world (snd (Telegram.transfer args tgChannel aiData sendFunction st w)))
  = Telegram.tw_file w.
Proof.
  unfold Telegram.transfer, Telegram.recordUpload.
  repeat match goal with
         | |- context [match ?x with _ => _ end] => destruct x
         end;
    reflexivity.
Qed.

Section TelegramFacts.

Variable decode : list byte -> list N.
Variable JSON_parse : list N -> outcome jsval.
Variable File_new : Telegram.TgFile -> string -> string -> Telegram.TgFile.
Variable uploadLargeFileToTelegram :
  UploadArgs -> Telegram.TgFile -> Telegram.TgChannel -> Store Telegram.TelegramWorld ->
  outcome Response * Store Telegram.TelegramWorld.

Local Abbreviation uploadFileToTelegram' :=
  (Telegram.uploadFileToTelegram decode JSON_parse File_new uploadLargeFileToTelegram).

Lemma extractAIPrompt_returns (file : File) :
  exists aiData, snd (extractAIPrompt decode JSON_parse file) = Ret aiData.
Proof.
  unfold extractAIPrompt. destruct (negb _); cbn [snd]; [eexists; reflexivity|].
  unfold try_catch.
  match goal with |- context [match ?b with Ret _ => _ | Throw _ => _ end] =>
    destruct b end; eexists; reflexivity.
Qed.

(** The size of the file in the form. *)
Local Abbreviation sizeOf st :=
  (Z.of_nat (List.length (file_bytes (Telegram.tf_content (Telegram.tw_file (world st)))))).

Lemma renameFile_keeps (args : UploadArgs) (w : Telegram.TelegramWorld) :
  Telegram.tw_events (Telegram.renameFile File_new args w) = Telegram.tw_events w /\
  Telegram.tw_dbPutFails (Telegram.renameFile File_new args w) = Telegram.tw_dbPutFails w.
Proof.
  unfold Telegram.renameFile.
  destruct (Telegram.renamed (fileExt args) (fileName args)); split; reflexivity.
Qed.

(** The upload of a file that is not sent in chunks: it throws only for a
    configuration without [channels] or [loadBalance], or else runs the
    [try] block on the form with the file renamed. *)
Lemma uploadFileToTelegram_run (args : UploadArgs) (st : Store Telegram.TelegramWorld) :
  sizeOf st <= Telegram.CHUNK_SIZE ->
  (exists e,
      uploadFileToTelegram' args st = (Throw e, st) /\ e = TypeError /\
      (Telegram.tw_settings (world st) = None \/
       exists s, Telegram.tw_settings (world st) = Some s /\
                 (Telegram.ts_channels s = None \/ Telegram.ts_loadBalance s = None))) \/
  uploadFileToTelegram' args st
  = (Ret (createResponse (TextBody "Error: No Telegram channel provided") 400), st) \/
  (exists tgChannel aiData,
      snd (extractAIPrompt decode JSON_parse (Telegram.tf_content (Telegram.tw_file (world st))))
      = Ret aiData /\
      uploadFileToTelegram' args st
      = Telegram.transfer args tgChannel aiData
          (Telegram.sendFunctionOf (fileType args) (fileExt args)
                                   (spGet (searchParams st) "serverCompress"))
          st (Telegram.renameFile File_new args (world st))).
Proof.
  intros Hsize. unfold Telegram.uploadFileToTelegram.
  destruct (Telegram.tw_settings (world st)) as [s|] eqn:Hs;
    [|left; exists TypeError; auto].
  destruct (extractAIPrompt_returns (Telegram.tf_content (Telegram.tw_file (world st))))
    as [aiData Ha].
  rewrite Ha. destruct (Z.gtb_spec (sizeOf st) Telegram.CHUNK_SIZE); [lia|].
  unfold Telegram.selectTgChannel.
  destruct (Telegram.ts_channels s) as [channels|] eqn:Hc;
    [|left; exists TypeError; split; [reflexivity|]; split; [reflexivity|];
      right; exists s; auto].
  destruct (channelNamed Telegram.tc_name (specifiedChannelName st) channels) as [ch|];
    [right; right; exists ch, aiData; split; reflexivity|].
  destruct (Telegram.ts_loadBalance s) as [[|]|] eqn:Hl.
  - destruct (nth_error channels _) as [ch|];
      [right; right; exists ch, aiData; split; reflexivity|right; left; reflexivity].
  - destruct (nth_error channels 0) as [ch|];
      [right; right; exists ch, aiData; split; reflexivity|right; left; reflexivity].
  - left. exists TypeError. split; [reflexivity|]. split; [reflexivity|].
    right. exists s. auto.
Qed.

(** X17.  For a file that is not sent in chunks the Telegram upload throws
    only when the configuration lacks [channels] or [loadBalance], and then
    nothing was called.  Otherwise it answers 200, 400 or 500.  A record
    is written only with status 200 or 500, it is the metadata left in the
    store, marked with channel TelegramNew; and the upload is ended on
    status 200 and also on status 500, where the database refused the
    record. *)
Theorem telegram_outcomes (args : UploadArgs) (st : Store Telegram.TelegramWorld) :
  sizeOf st <= Telegram.CHUNK_SIZE ->
  let out := uploadFileToTelegram' args st in
  exists new,
    Telegram.tw_events (world (snd out)) = Telegram.tw_events (world st) ++ new /\
    (forall res,
        fst out = Ret res ->
        In (status res) [200; 400; 500] /\
        (In (Telegram.EvEndUpload (fullId args)) new <->
         status res = 200 \/ status res = 500) /\
        (forall id m,
            In (Telegram.EvDbPut id m) new ->
            id = fullId args /\ m = metadata (snd out) /\
            Channel m = Some "TelegramNew"%string /\ status res <> 400) /\
        (status res = 500 -> Telegram.tw_dbPutFails (world st) = true) /\
        (status res = 200 -> body res = SrcBody (returnLink args))) /\
    (forall e,
        fst out = Throw e ->
        e = TypeError /\ new = [] /\
        (Telegram.tw_settings (world st) = None \/
         exists s, Telegram.tw_settings (world st) = Some s /\
                   (Telegram.ts_channels s = None \/ Telegram.ts_loadBalance s = None))).
Proof.
  intros Hsize. cbv zeta.
  destruct (uploadFileToTelegram_run args st Hsize)
    as [(e & -> & -> & Hcfg)|[->|(tgChannel & aiData & _ & ->)]].
  all: destruct (renameFile_keeps args (world st)) as [Hev Hdb].
  - exists []. cbn [fst snd]. rewrite app_nil_r. split; [reflexivity|].
    split; [discriminate|]. intros e H. injection H as <-. auto.
  - exists []. cbn [fst snd]. rewrite app_nil_r. split; [reflexivity|].
    split; [|discriminate]. intros res H. injection H as <-.
    cbn [status createResponse]. split; [simpl; tauto|].
    split; [split; [intros []|intros [E|E]; discriminate]|].
    split; [intros id m []|]. split; discriminate.
  - destruct (transfer_run args tgChannel aiData
                (Telegram.sendFunctionOf (fileType args) (fileExt args)
                   (spGet (searchParams st) "serverCompress")) st
                (Telegram.renameFile File_new args (world st)))
      as (res & new & Hres & Hnew & Hst & Hend & Hput & H500 & H200 & _).
    exists new. rewrite Hnew, Hev. split; [reflexivity|].
    split; [|intros e H; rewrite Hres in H; discriminate].
    intros res' H. rewrite Hres in H. injection H as <-.
    split; [exact Hst|]. split; [exact Hend|]. split; [exact Hput|].
    split; [intros H; rewrite <- Hdb; exact (H500 H)|exact H200].
Qed.

(** X18.  The file is sent once, with the caption the extractor gave for
    it, or with the empty caption when the extractor gave nothing.  A
    message is sent only after the file, only when the extractor asked for
    a second message, and its text is the full text.  A file whose type is
    not image/png is sent with the empty caption and no message follows. *)
Theorem telegram_caption_and_follow_up (args : UploadArgs)
        (st : Store Telegram.TelegramWorld) (aiData : option Result) :
  sizeOf st <= Telegram.CHUNK_SIZE ->
  snd (extractAIPrompt decode JSON_parse (Telegram.tf_content (Telegram.tw_file (world st))))
  = Ret aiData ->
  let out := uploadFileToTelegram' args st in
  exists new,
    Telegram.tw_events (world (snd out)) = Telegram.tw_events (world st) ++ new /\
    (forall pre f c u t k post,
        new = pre ++ Telegram.EvSendFile f c u t k :: post ->
        pre = [] /\
        k = match aiData with Some r => caption r | None => [] end /\
        (forall f' c' u' t' k', ~ In (Telegram.EvSendFile f' c' u' t' k') post)) /\
    (forall c t r,
        In (Telegram.EvSendMessage c t r) new ->
        exists ai, aiData = Some ai /\ needsSecondMessage ai = true /\ t = fullText ai) /\
    (file_type (Telegram.tf_content (Telegram.tw_file (world st))) <> js "image/png" ->
     aiData = None /\ forall c t r, ~ In (Telegram.EvSendMessage c t r) new).
Proof.
  intros Hsize Hai. cbv zeta.
  assert (Hpng : file_type (Telegram.tf_content (Telegram.tw_file (world st)))
                 <> js "image/png" -> aiData = None).
  { intros ne. unfold extractAIPrompt in Hai.
    destruct (jseqb _ (js "image/png")) eqn:E.
    - apply jseqb_true_iff in E. contradiction.
    - cbn [negb snd] in Hai. congruence. }
  destruct (uploadFileToTelegram_run args st Hsize)
    as [(e & -> & _)|[->|(tgChannel & aiData' & Hai' & ->)]].
  all: destruct (renameFile_keeps args (world st)) as [Hev _].
  - exists []. cbn [snd]. rewrite app_nil_r. split; [reflexivity|].
    split; [intros pre f c u t k post H; destruct pre; discriminate|].
    split; [intros c t r []|].
    intros ne. split; [exact (Hpng ne)|intros c t r []].
  - exists []. cbn [snd]. rewrite app_nil_r. split; [reflexivity|].
    split; [intros pre f c u t k post H; destruct pre; discriminate|].
    split; [intros c t r []|].
    intros ne. split; [exact (Hpng ne)|intros c t r []].
  - rewrite Hai in Hai'. injection Hai' as <-.
    destruct (transfer_run args tgChannel aiData
                (Telegram.sendFunctionOf (fileType args) (fileExt args)
                   (spGet (searchParams st) "serverCompress")) st
                (Telegram.renameFile File_new args (world st)))
      as (res & new & _ & Hnew & _ & _ & _ & _ & _ & rest & -> & Hfiles & Hmsgs).
    eexists. rewrite Hnew, Hev. split; [reflexivity|].
    assert (Hm : forall c t r,
               In (Telegram.EvSendMessage c t r)
                  (Telegram.EvSendFile
                     (Telegram.tw_file (Telegram.renameFile File_new args (world st)))
                     (Telegram.tc_chatId tgChannel)
                     (fst (Telegram.sendFunctionOf (fileType args) (fileExt args)
                             (spGet (searchParams st) "serverCompress")))
                     (snd (Telegram.sendFunctionOf (fileType args) (fileExt args)
                             (spGet (searchParams st) "serverCompress")))
                     (match aiData with Some r0 => caption r0 | None => [] end) :: rest) ->
               exists ai, aiData = Some ai /\ needsSecondMessage ai = true /\
                          t = fullText ai).
    { intros c t r [E|H]; [discriminate|].
      destruct (Hmsgs c t r H) as (ai & Ha & Hn & Ht & _). exists ai. auto. }
    split.
    { intros pre f c u t k post H. destruct pre as [|x pre].
      - injection H as <- <- <- <- <- <-. split; [reflexivity|]. split; [reflexivity|].
        exact Hfiles.
      - exfalso. injection H as _ H. apply (Hfiles f c u t k). rewrite H.
        apply in_or_app. right. left. reflexivity. }
    split; [exact Hm|].
    intros ne. split; [exact (Hpng ne)|]. intros c t r H.
    destruct (Hm c t r H) as (ai & Ha & _). rewrite (Hpng ne) in Ha. discriminate.
Qed.

(** X19.  A file with extension [gif] whose name ends in [.gif], not sent
    in chunks and with server compression not turned off, goes out through
    [sendAnimation] as a new file named [.jpeg] instead; and that new file
    is the one the form holds afterwards, for whatever is called next. *)
Theorem gif_is_sent_as_animation (args : UploadArgs) (st : Store Telegram.TelegramWorld)
        (stem : string) :
  sizeOf st <= Telegram.CHUNK_SIZE ->
  fileExt args = "gif"%string ->
  fileName args = (stem ++ ".gif")%string ->
  spGet (searchParams st) "serverCompress" <> Some "false"%string ->
  let out := uploadFileToTelegram' args st in
  let newFile := File_new (Telegram.tw_file (world st)) (stem ++ ".jpeg") (fileType args) in
  exists new,
    Telegram.tw_events (world (snd out)) = Telegram.tw_events (world st) ++ new /\
    (forall f c u t k,
        In (Telegram.EvSendFile f c u t k) new ->
        f = newFile /\ u = "sendAnimation"%string /\ t = "animation"%string /\
        Telegram.tw_file (world (snd out)) = newFile).
Proof.
  intros Hsize Hext Hname Hsc. cbv zeta.
  destruct (uploadFileToTelegram_run args st Hsize)
    as [(e & -> & _)|[->|(tgChannel & aiData & _ & ->)]].
  - exists []. cbn [snd]. rewrite app_nil_r. split; [reflexivity|intros f c u t k []].
  - exists []. cbn [snd]. rewrite app_nil_r. split; [reflexivity|intros f c u t k []].
  - destruct (renameFile_keeps args (world st)) as [Hev _].
    assert (Hfile : Telegram.tw_file (Telegram.renameFile File_new args (world st))
                    = File_new (Telegram.tw_file (world st)) (stem ++ ".jpeg")
                               (fileType args)).
    { unfold Telegram.renameFile, Telegram.renamed. rewrite Hext, Hname.
      cbn [String.eqb Ascii.eqb Bool.eqb andb]. rewrite replaceSuffix_app. reflexivity. }
    assert (Hsend : Telegram.sendFunctionOf (fileType args) (fileExt args)
                      (spGet (searchParams st) "serverCompress")
                    = ("sendAnimation", "animation")%string).
    { unfold Telegram.sendFunctionOf. rewrite Hext.
      replace (String.eqb (fileType args) "image/gif"
               || String.eqb (fileType args) "image/webp"
               || String.eqb "gif" "gif" || String.eqb "gif" "webp") with true
        by (cbn [String.eqb Ascii.eqb Bool.eqb andb]; rewrite orb_true_r; reflexivity).
      destruct (spGet (searchParams st) "serverCompress") as [v|]; [|reflexivity].
      destruct (String.eqb_spec v "false") as [->|_]; [congruence|reflexivity]. }
    rewrite Hsend, transfer_keeps_file, Hfile.
    destruct (transfer_run args tgChannel aiData ("sendAnimation", "animation")%string st
                (Telegram.renameFile File_new args (world st)))
      as (res & new & _ & Hnew & _ & _ & _ & _ & _ & rest & -> & Hfiles & _).
    eexists. rewrite Hnew, Hev. split; [reflexivity|].
    intros f c u t k [E|H]; [|destruct (Hfiles _ _ _ _ _ H)].
    injection E as <- _ <- <- _. rewrite Hfile. repeat split.
Qed.

End TelegramFacts.

Section FailoverLog.

Variable W : Type.
Variable uploadFileToCloudflareR2 : Uploader W.
Variable uploadFileToS3 : Uploader W.
Variable uploadFileToTelegram : Uploader W.
Variable uploadFileToExternal : Uploader W.
Variable uploadFileToDiscord : Uploader W.
Variable uploadFileToHuggingFace : Uploader W.
Variable JSON_src : string -> string.
Variable JSON_dict : Dict -> string.

Local Abbreviation uploaderOf' :=
  (uploaderOf W uploadFileToCloudflareR2 uploadFileToS3 uploadFileToTelegram
              uploadFileToDiscord uploadFileToHuggingFace).
Local Abbreviation switchChannels' :=
  (switchChannels W uploadFileToCloudflareR2 uploadFileToS3 uploadFileToTelegram
                  uploadFileToDiscord uploadFileToHuggingFace JSON_src JSON_dict).
Local Abbreviation firstUpload' :=
  (firstUpload W uploadFileToCloudflareR2 uploadFileToS3 uploadFileToTelegram
               uploadFileToExternal uploadFileToDiscord uploadFileToHuggingFace
               JSON_src JSON_dict).
Local Abbreviation text' := (text JSON_src JSON_dict).

(** The loop only adds to the log. *)
Lemma switchChannels_log_grows (uploadChannel : string) (args : UploadArgs) :
  forall (rest : list string) (errMessages : Dict) (st : Store W) (log : list Attempt),
  exists new,
    snd (snd (switchChannels' rest uploadChannel args errMessages (st, log))) = log ++ new.
Proof.
  induction rest as [|c rest IH]; intros errs st log.
  - exists []. rewrite app_nil_r. reflexivity.
  - cbn [switchChannels]. destruct (negb (String.eqb c uploadChannel)); [|apply IH].
    unfold mbind. rewrite callChannel_run.
    destruct (uploaderOf W _ _ _ _ _ c) as [up|]; [|apply IH].
    destruct (fst (up args st)) as [res|e].
    + destruct (status res =? 200).
      * eexists. reflexivity.
      * match goal with |- context [switchChannels' rest uploadChannel args ?e (?s, ?l)] =>
          destruct (IH e s l) as [new ->] end.
        rewrite <- app_assoc. eexists. reflexivity.
    + eexists. reflexivity.
Qed.


(** After a failed first upload with auto-retry on, the second call is the
    same upload function on the shared objects the first call left, with
    [serverCompress] set to [false]; when it fails too, the loop starts
    from what it left. *)
Lemma second_call (uploadChannel : string) (up : Uploader W) (args : UploadArgs)
      (st0 : Store W) (res : Response) :
  In uploadChannel channelList ->
  uploaderOf' uploadChannel = Some up ->
  fst (up args st0) = Ret res ->
  status res <> 200 ->
  let st1 := withoutCompression (snd (up args st0)) in
  (exists rest,
      snd (snd (firstUpload' uploadChannel true args (st0, [])))
      = logged W uploadChannel st0 (Ret res)
        :: logged W uploadChannel st1 (fst (up args st1)) :: rest) /\
  (forall res1,
      fst (up args st1) = Ret res1 -> status res1 <> 200 ->
      exists errMessages,
        firstUpload' uploadChannel true args (st0, [])
        = switchChannels' channelList uploadChannel args errMessages
            (snd (up args st1),
             [logged W uploadChannel st0 (Ret res);
              logged W uploadChannel st1 (Ret res1)])).
Proof.
  intros Hin Hup Hres Hne. cbv zeta.
  destruct (firstUpload_run W uploadFileToCloudflareR2 uploadFileToS3 uploadFileToTelegram
              uploadFileToExternal uploadFileToDiscord uploadFileToHuggingFace
              JSON_src JSON_dict uploadChannel true args st0 [] Hin)
    as (up' & Hup' & [[_ [Hnf|Hoff]]|(res' & Hres' & _ & _ & Hrun)]);
    try discriminate.
  { exfalso. rewrite Hup in Hup'. injection Hup' as <-. apply Hnf.
    exists res. split; [exact Hres|exact Hne]. }
  rewrite Hup in Hup'. injection Hup' as <-. rewrite Hres in Hres'. injection Hres' as <-.
  rewrite Hrun. unfold tryRetry, mbind, disableServerCompress.
  fold (withoutCompression (snd (up args st0))).
  rewrite callChannel_run, Hup. cbn [app].
  destruct (fst (up args (withoutCompression (snd (up args st0))))) as [r|e] eqn:Er.
  - destruct (Z.eqb_spec (status r) 200) as [E|E].
    + split; [exists []; reflexivity|]. intros res1 H ne. injection H as <-. contradiction.
    + split.
      * match goal with |- context [switchChannels' ?l ?c ?a ?e (?s, ?lg)] =>
          destruct (switchChannels_log_grows c a l e s lg) as [new ->] end.
        exists new. reflexivity.
      * intros res1 H _. injection H as <-. eexists. reflexivity.
  - split; [exists []; reflexivity|]. intros res1 H. discriminate.
Qed.

End FailoverLog.

Section TelegramInARequest.

Variable decode : list byte -> list N.
Variable JSON_parse : list N -> outcome jsval.
Variable File_new : Telegram.TgFile -> string -> string -> Telegram.TgFile.
Variable uploadLargeFileToTelegram :
  UploadArgs -> Telegram.TgFile -> Telegram.TgChannel -> Store Telegram.TelegramWorld ->
  outcome Response * Store Telegram.TelegramWorld.
Variable uploadFileToCloudflareR2 : Uploader Telegram.TelegramWorld.
Variable uploadFileToS3 : Uploader Telegram.TelegramWorld.
Variable uploadFileToExternal : Uploader Telegram.TelegramWorld.
Variable uploadFileToDiscord : Uploader Telegram.TelegramWorld.
Variable uploadFileToHuggingFace : Uploader Telegram.TelegramWorld.
Variable JSON_src : string -> string.
Variable JSON_dict : Dict -> string.

Local Abbreviation uploadFileToTelegram' :=
  (Telegram.uploadFileToTelegram decode JSON_parse File_new uploadLargeFileToTelegram).
Local Abbreviation W := Telegram.TelegramWorld.
Local Abbreviation processFileUpload' :=
  (processFileUpload W uploadFileToCloudflareR2 uploadFileToS3 uploadFileToTelegram'
                     uploadFileToExternal uploadFileToDiscord uploadFileToHuggingFace
                     JSON_src JSON_dict).

(** X20.  When a request goes to Telegram first, auto-retry is on and the
    first upload fails, the second call is the Telegram upload again on
    the shared objects the first one left, with [serverCompress=false];
    and in that call a file that is not sent in chunks goes out through
    [sendDocument], whatever its type and extension. *)
Theorem telegram_retry_sends_a_document (req : Request) (w : W)
        (mime name : string) (res : Response) :
  ftype (req_file req) = Some mime ->
  fname (req_file req) = Some name ->
  selectUploadChannel (spGet (req_searchParams req) "uploadChannel")
  = "TelegramNew"%string ->
  autoRetryOf (req_searchParams req) = true ->
  let args := uploadArgsOf req name mime in
  let st0 := initialStore W req name mime w in
  let st1 := withoutCompression (snd (uploadFileToTelegram' args st0)) in
  fst (uploadFileToTelegram' args st0) = Ret res ->
  status res <> 200 ->
  Z.of_nat (List.length (file_bytes (Telegram.tf_content (Telegram.tw_file (world st1)))))
  <= Telegram.CHUNK_SIZE ->
  exists rest new,
    snd (snd (processFileUpload' req w))
    = logged W "TelegramNew" st0 (Ret res)
      :: logged W "TelegramNew" st1 (fst (uploadFileToTelegram' args st1)) :: rest /\
    compressFlag (logged W "TelegramNew" st1 (fst (uploadFileToTelegram' args st1)))
    = Some "false"%string /\
    Telegram.tw_events (world (snd (uploadFileToTelegram' args st1)))
    = Telegram.tw_events (world st1) ++ new /\
    (forall f c u t k,
        In (Telegram.EvSendFile f c u t k) new ->
        u = "sendDocument"%string /\ t = "document"%string).
Proof.
  intros Ht Hn Hsel Hauto. cbv zeta. intros Hres Hne Hsize.
  set (args := uploadArgsOf req name mime) in *.
  set (st0 := initialStore W req name mime w) in *.
  set (st1 := withoutCompression (snd (uploadFileToTelegram' args st0))) in *.
  destruct (processFileUpload_valid W uploadFileToCloudflareR2 uploadFileToS3
              uploadFileToTelegram' uploadFileToExternal uploadFileToDiscord
              uploadFileToHuggingFace JSON_src JSON_dict req w mime name Ht Hn)
    as [_ Hl].
  rewrite Hl, Hsel, Hauto. fold args st0.
  destruct (second_call W uploadFileToCloudflareR2 uploadFileToS3 uploadFileToTelegram'
              uploadFileToExternal uploadFileToDiscord uploadFileToHuggingFace
              JSON_src JSON_dict "TelegramNew" uploadFileToTelegram' args st0 res
              ltac:(unfold channelList; simpl; tauto) eq_refl Hres Hne)
    as [[rest Hlog] _].
  fold st1 in Hlog. exists rest.
  assert (Hsp : spGet (searchParams st1) "serverCompress" = Some "false"%string).
  { subst st1. cbn [searchParams withoutCompression]. apply spGet_spSet. }
  (* the second call *)
  destruct (uploadFileToTelegram_run decode JSON_parse File_new uploadLargeFileToTelegram
              args st1 Hsize)
    as [(e & Hrun & _)|[Hrun|(tgChannel & aiData & _ & Hrun)]].
  all: destruct (renameFile_keeps File_new args (world st1)) as [Hev _].
  - exists []. split; [exact Hlog|]. split; [exact Hsp|]. rewrite Hrun. cbn [snd].
    rewrite app_nil_r. split; [reflexivity|intros f c u t k []].
  - exists []. split; [exact Hlog|]. split; [exact Hsp|]. rewrite Hrun. cbn [snd].
    rewrite app_nil_r. split; [reflexivity|intros f c u t k []].
  - rewrite Hsp in Hrun.
    destruct (transfer_run args tgChannel aiData
                (Telegram.sendFunctionOf (fileType args) (fileExt args)
                                         (Some "false"%string)) st1
                (Telegram.renameFile File_new args (world st1)))
      as (r & new & _ & Hnew & _ & _ & _ & _ & _ & tail & -> & Hfiles & _).
    eexists. split; [exact Hlog|]. split; [exact Hsp|]. rewrite Hrun, Hnew, Hev.
    split; [reflexivity|].
    intros f c u t k [E|H]; [|destruct (Hfiles _ _ _ _ _ H)].
    injection E as _ _ <- <- _. split; reflexivity.
Qed.

End TelegramInARequest.

(** ** The Telegram theorems on concrete runs *)

Local Abbreviation tgUpload :=
  (Telegram.uploadFileToTelegram decodeBytewise parseNothing newFileNamed noLargeFiles).

Local Abbreviation tgStore accepted :=
  (mkStore [] None (initialMetadata (exampleRequest []) "cat.png" "image/png")
           (tgWorld promptFile accepted)).

Lemma telegram_outcomes_witness :
  exists new,
    Telegram.tw_events (world (snd (tgUpload exampleArgs (tgStore ["sendPhoto"]))))
    = [] ++ new /\
    forall res,
      fst (tgUpload exampleArgs (tgStore ["sendPhoto"])) = Ret res ->
      In (status res) [200; 400; 500].
Proof.
  destruct (telegram_outcomes decodeBytewise parseNothing newFileNamed noLargeFiles
              exampleArgs (tgStore ["sendPhoto"]) ltac:(vm_compute; discriminate))
    as (new & Hev & Hres & _).
  exists new. split; [exact Hev|]. intros res H. exact (proj1 (Hres res H)).
Defined.

Lemma telegram_sends_the_prompt :
  exists r,
    snd (extractAIPrompt decodeBytewise parseNothing (Telegram.tf_content promptFile))
    = Ret (Some r) /\
    needsSecondMessage r = false /\
    fst (tgUpload exampleArgs (tgStore ["sendPhoto"]))
    = Ret (createResponse (SrcBody "/file/abc.png") 200) /\
    map (fun e => match e with
                  | Telegram.EvSendFile _ _ u _ k => (u, Some k)
                  | Telegram.EvSendMessage _ _ _ => ("sendMessage"%string, None)
                  | Telegram.EvGetFilePath _ => ("getFile"%string, None)
                  | Telegram.EvModerate _ => ("moderate"%string, None)
                  | Telegram.EvDbPut _ _ => ("put"%string, None)
                  | Telegram.EvEndUpload _ => ("end"%string, None)
                  end)
        (Telegram.tw_events (world (snd (tgUpload exampleArgs (tgStore ["sendPhoto"])))))
    = [("sendPhoto"%string, Some (caption r)); ("getFile"%string, None);
       ("moderate"%string, None); ("put"%string, None); ("end"%string, None)].
Proof.
  eexists. split; [reflexivity|]. split; [reflexivity|]. split; reflexivity.
Qed.

Lemma telegram_caption_and_follow_up_witness :
  exists new,
    Telegram.tw_events (world (snd (tgUpload exampleArgs (tgStore ["sendPhoto"]))))
    = [] ++ new /\
    forall c t r, ~ In (Telegram.EvSendMessage c t r) new.
Proof.
  destruct (telegram_caption_and_follow_up decodeBytewise parseNothing newFileNamed
              noLargeFiles exampleArgs (tgStore ["sendPhoto"])
              (match snd (extractAIPrompt decodeBytewise parseNothing
                            (Telegram.tf_content promptFile)) with
               | Ret aiData => aiData
               | Throw _ => None
               end)
              ltac:(vm_compute; discriminate) eq_refl)
    as (new & Hev & _ & Hmsg & _).
  exists new. split; [exact Hev|]. intros c t r H.
  destruct (Hmsg c t r H) as (ai & Ha & Hn & _).
  assert (E : needsSecondMessage ai = false); [|congruence].
  injection Ha as <-. reflexivity.
Defined.

Lemma gif_is_sent_as_animation_witness :
  let args := mkUploadArgs "abc.gif" "gif" "cat.gif" "image/gif" "/file/abc.gif" in
  exists new,
    Telegram.tw_events (world (snd (tgUpload args (tgStore ["sendAnimation"]))))
    = [] ++ new /\
    forall f c u t k,
      In (Telegram.EvSendFile f c u t k) new ->
      f = newFileNamed promptFile "cat.jpeg" "image/gif" /\
      u = "sendAnimation"%string /\ t = "animation"%string /\
      Telegram.tw_file (world (snd (tgUpload args (tgStore ["sendAnimation"]))))
      = newFileNamed promptFile "cat.jpeg" "image/gif".
Proof.
  cbv zeta.
  apply (gif_is_sent_as_animation decodeBytewise parseNothing newFileNamed noLargeFiles
           (mkUploadArgs "abc.gif" "gif" "cat.gif" "image/gif" "/file/abc.gif")
           (tgStore ["sendAnimation"]) "cat" ltac:(vm_compute; discriminate) eq_refl eq_refl).
  discriminate.
Defined.

Lemma telegram_retry_sends_a_document_witness :
  let req := exampleRequest [] in
  let run :=
    processFileUpload Telegram.TelegramWorld (refuses " r2 down") (refuses " s3 down")
                      tgUpload (refuses " ext down") (refuses " dc down")
                      (refuses " hf down") noText noText req
                      (tgWorld promptFile ["sendDocument"]) in
  fst run = Ret (createResponse (SrcBody "/file/abc.png") 200) /\
  map family (snd (snd run)) = ["TelegramNew"; "TelegramNew"]%string /\
  map compressFlag (snd (snd run)) = [None; Some "false"%string].
Proof.
  cbv zeta.
  destruct (telegram_retry_sends_a_document decodeBytewise parseNothing newFileNamed
              noLargeFiles (refuses " r2 down") (refuses " s3 down") (refuses " ext down")
              (refuses " dc down") (refuses " hf down") noText noText
              (exampleRequest []) (tgWorld promptFile ["sendDocument"])
              "image/png" "cat.png" Telegram.uploadError
              eq_refl eq_refl eq_refl eq_refl eq_refl
              ltac:(discriminate) ltac:(vm_compute; discriminate))
    as (rest & new & Hlog & _).
  split; [reflexivity|]. split; reflexivity.
Defined.

(** * The S3 upload *)

Lemma stripScheme_https (host : string) : stripScheme ("https://" ++ host) = host.
Proof. reflexivity. Qed.

Lemma stripScheme_http (host : string) : stripScheme ("http://" ++ host) = host.
Proof. reflexivity. Qed.

(** X21.  The location recorded for an S3 upload is an https URL on the
    host of the endpoint, whether the endpoint itself is given with http
    or https: the bucket is a path segment in path style and a host label
    otherwise. *)
Theorem s3_location_of_endpoint (ch : S3.S3Channel) (scheme host key : string) :
  scheme = "http://"%string \/ scheme = "https://"%string ->
  S3.sc_endpoint ch = (scheme ++ host)%string ->
  S3.s3Location ch key
  = if S3.sc_pathStyle ch
    then ("https://" ++ host ++ "/" ++ S3.sc_bucketName ch ++ "/" ++ key)%string
    else ("https://" ++ S3.sc_bucketName ch ++ "." ++ host ++ "/" ++ key)%string.
Proof.
  intros Hs He. unfold S3.s3Location. rewrite He.
  destruct Hs as [-> | ->]; [rewrite stripScheme_http|rewrite stripScheme_https];
    reflexivity.
Qed.

Lemma s3_location_of_endpoint_witness :
  S3.s3Location (S3.mkS3Channel (Some "main") "http://s3.example:9000" true "key" "secret"
                                "images" None None) "abc.png"
  = "https://s3.example:9000/images/abc.png"%string.
Proof.
  apply (s3_location_of_endpoint
           (S3.mkS3Channel (Some "main") "http://s3.example:9000" true "key" "secret"
                           "images" None None)
           "http://" "s3.example:9000" "abc.png").
  - left. reflexivity.
  - reflexivity.
Defined.

Lemma s3_finish_run (args : UploadArgs) (st : Store S3.S3World) (m : Metadata)
      (w : S3.S3World) :
  exists res,
    fst (S3.finish args st m w) = Ret res /\
    metadata (snd (S3.finish args st m w)) = m /\
    ((status res = 500 /\
      S3.sw_events (world (snd (S3.finish args st m w)))
      = S3.sw_events w ++ [S3.EvDbPut (fullId args) m]) \/
     (res = createResponse (SrcBody (returnLink args)) 200 /\
      S3.sw_events (world (snd (S3.finish args st m w)))
      = S3.sw_events w ++ [S3.EvDbPut (fullId args) m; S3.EvEndUpload (fullId args)])).
Proof.
  unfold S3.finish, S3.dbPut.
  destruct (S3.sw_dbPutFails w _); eexists;
    cbn [fst snd putStore world metadata S3.sw_events S3.emit status createResponse].
  - split; [reflexivity|]. split; [reflexivity|]. left. split; reflexivity.
  - split; [reflexivity|]. split; [reflexivity|]. right. rewrite <- app_assoc.
    split; reflexivity.
Qed.

(** What the [try] block of the S3 upload does, for every answer of the
    services. *)
Lemma s3_transfer_run (args : UploadArgs) (ch : S3.S3Channel) (file : FormFile)
      (uploadModerate : bool) (st : Store S3.S3World) (w : S3.S3World) :
  let out := S3.transfer args ch file uploadModerate st w in
  let m0 := S3.describe ch (fullId args) (metadata st) in
  let url := ("https://" ++ S3.sw_hostname w ++ "/file/" ++ fullId args)%string in
  exists res new,
    fst out = Ret res /\
    S3.sw_events (world (snd out)) = S3.sw_events w ++ new /\
    (status res = 200 \/ status res = 500) /\
    (In (S3.EvEndUpload (fullId args)) new <-> status res = 200) /\
    (status res = 200 ->
     body res = SrcBody (returnLink args) /\
     if uploadModerate then
       exists label,
         metadata (snd out) = setLabel label m0 /\
         new = [S3.EvSend (S3.sc_bucketName ch) (fullId args) (ftype file);
                S3.EvDbPut (fullId args) m0; S3.EvPurge url; S3.EvModerate url;
                S3.EvDbPut (fullId args) (setLabel label m0);
                S3.EvEndUpload (fullId args)]
     else
       metadata (snd out) = m0 /\
       new = [S3.EvSend (S3.sc_bucketName ch) (fullId args) (ftype file);
              S3.EvDbPut (fullId args) m0; S3.EvEndUpload (fullId args)]).
Proof.
  cbv zeta. unfold S3.transfer. cbn [S3.emit S3.sw_send].
  destruct (S3.sw_send w) as [message|[]].
  { eexists; eexists. cbn [fst snd putStore world S3.sw_events S3.emit].
    split; [reflexivity|]. split; [reflexivity|].
    cbn [S3.uploadFailed status createResponse].
    split; [tauto|]. split; [split; [intros [E|[]]; discriminate|discriminate]|].
    discriminate. }
  destruct uploadModerate.
  - unfold S3.dbPut. cbn [S3.emit S3.sw_events S3.sw_dbPutFails].
    destruct (S3.sw_dbPutFails w _).
    { eexists; eexists. cbn [fst snd putStore world S3.sw_events S3.emit].
      rewrite <- app_assoc. split; [reflexivity|]. split; [reflexivity|].
      cbn [status createResponse].
      split; [tauto|]. split; [split; [intros [E|[E|[]]]; discriminate|discriminate]|].
      discriminate. }
    cbn [S3.emit S3.sw_purge S3.sw_hostname].
    destruct (S3.sw_purge w) as [message|[]].
    { eexists; eexists. cbn [fst snd putStore world S3.sw_events S3.emit].
      rewrite <- !app_assoc. split; [reflexivity|]. split; [reflexivity|].
      cbn [S3.uploadFailed status createResponse].
      split; [tauto|].
      split; [split; [intros [E|[E|[E|[]]]]; discriminate|discriminate]|].
      discriminate. }
    cbn [S3.emit S3.sw_moderate].
    destruct (S3.sw_moderate w _) as [message|label].
    { eexists; eexists. cbn [fst snd putStore world S3.sw_events S3.emit].
      rewrite <- !app_assoc. split; [reflexivity|]. split; [reflexivity|].
      cbn [S3.uploadFailed status createResponse].
      split; [tauto|].
      split; [split; [intros [E|[E|[E|[E|[]]]]]; discriminate|discriminate]|].
      discriminate. }
    match goal with |- context [S3.finish args st ?m ?w0] =>
      destruct (s3_finish_run args st m w0) as (res & Hres & Hm & [[Hs Hev]|[Hr Hev]]) end.
    + exists res. eexists. rewrite Hres, Hev. cbn [S3.sw_events S3.emit].
      rewrite <- !app_assoc.
      split; [reflexivity|]. split; [reflexivity|]. rewrite Hs.
      split; [tauto|].
      split; [split; [intros [E|[E|[E|[E|[E|[]]]]]]; discriminate|discriminate]|].
      discriminate.
    + exists res. eexists. rewrite Hres, Hev, Hm. cbn [S3.sw_events S3.emit].
      rewrite <- !app_assoc.
      split; [reflexivity|]. split; [reflexivity|]. rewrite Hr.
      cbn [status createResponse body].
      split; [tauto|]. split; [split; [reflexivity|intros _; simpl; tauto]|].
      intros _. split; [reflexivity|]. exists label. split; reflexivity.
  - match goal with |- context [S3.finish args st ?m ?w0] =>
      destruct (s3_finish_run args st m w0) as (res & Hres & Hm & [[Hs Hev]|[Hr Hev]]) end.
    + exists res. eexists. rewrite Hres, Hev. cbn [S3.sw_events S3.emit].
      rewrite <- !app_assoc.
      split; [reflexivity|]. split; [reflexivity|]. rewrite Hs.
      split; [tauto|].
      split; [split; [intros [E|[E|[]]]; discriminate|discriminate]|].
      discriminate.
    + exists res. eexists. rewrite Hres, Hev, Hm. cbn [S3.sw_events S3.emit].
      rewrite <- !app_assoc.
      split; [reflexivity|]. split; [reflexivity|]. rewrite Hr.
      cbn [status createResponse body].
      split; [tauto|]. split; [split; [reflexivity|intros _; simpl; tauto]|].
      intros _. split; [reflexivity|]. split; reflexivity.
Qed.

(** What the S3 upload does, for every configuration and every answer of
    the services. *)
Lemma uploadFileToS3_run (args : UploadArgs) (st : Store S3.S3World) :
  let out := S3.uploadFileToS3 args st in
  exists new,
    S3.sw_events (world (snd out)) = S3.sw_events (world st) ++ new /\
    (forall e, fst out = Throw e -> e = TypeError /\ snd out = st) /\
    (forall res,
        fst out = Ret res ->
        In (status res) [200; 400; 500] /\
        (status res = 400 -> snd out = st) /\
        (In (S3.EvEndUpload (fullId args)) new <-> status res = 200) /\
        (status res = 200 ->
         Channel (metadata (snd out)) = Some "S3"%string /\
         exists ch file m0 url,
           m0 = S3.describe ch (fullId args) (metadata st) /\
           url = ("https://" ++ S3.sw_hostname (world st) ++ "/file/" ++ fullId args)%string /\
           ((S3.sw_upload (world st) = Some true /\
             exists label,
               metadata (snd out) = setLabel label m0 /\
               new = [S3.EvSend (S3.sc_bucketName ch) (fullId args) (ftype file);
                      S3.EvDbPut (fullId args) m0; S3.EvPurge url; S3.EvModerate url;
                      S3.EvDbPut (fullId args) (setLabel label m0);
                      S3.EvEndUpload (fullId args)]) \/
            (S3.sw_upload (world st) = Some false /\
             metadata (snd out) = m0 /\
             new = [S3.EvSend (S3.sc_bucketName ch) (fullId args) (ftype file);
                    S3.EvDbPut (fullId args) m0; S3.EvEndUpload (fullId args)])))).
Proof.
  cbv zeta. unfold S3.uploadFileToS3.
  assert (Hthrow : forall e0 : exn,
             e0 = TypeError ->
             exists new,
               S3.sw_events (world (snd (@Throw Response e0, st)))
               = S3.sw_events (world st) ++ new /\
               (forall e, fst (@Throw Response e0, st) = Throw e ->
                          e = TypeError /\ snd (@Throw Response e0, st) = st) /\
               (forall res, fst (@Throw Response e0, st) = Ret res -> False)).
  { intros e0 ->. exists []. rewrite app_nil_r. cbn [fst snd].
    split; [reflexivity|]. split; [|discriminate].
    intros e H. injection H as <-. split; reflexivity. }
  assert (H400 : forall s : string,
             exists new,
               S3.sw_events (world (snd (Ret (createResponse (TextBody s) 400), st)))
               = S3.sw_events (world st) ++ new /\
               new = [] /\
               (forall e, fst (Ret (createResponse (TextBody s) 400), st) = Throw e -> False)).
  { intros s. exists []. rewrite app_nil_r. cbn [fst snd].
    split; [reflexivity|]. split; [reflexivity|discriminate]. }
  destruct (S3.sw_upload (world st)) as [uploadModerate|] eqn:Hu.
  2:{ destruct (Hthrow TypeError eq_refl) as (new & H1 & H2 & H3).
      exists new. split; [exact H1|]. split; [exact H2|]. intros res H.
      destruct (H3 res H). }
  destruct (S3.sw_settings (world st)) as [settings|].
  2:{ destruct (Hthrow TypeError eq_refl) as (new & H1 & H2 & H3).
      exists new. split; [exact H1|]. split; [exact H2|]. intros res H.
      destruct (H3 res H). }
  destruct (S3.selectS3Channel settings _ _) as [[ch|]|e0] eqn:Hsel.
  3:{ assert (e0 = TypeError).
      { unfold S3.selectS3Channel in Hsel.
        destruct (S3.ss_channels settings); [|congruence].
        destruct (channelNamed _ _ _); [discriminate|].
        destruct (S3.ss_loadBalance settings) as [[|]|]; congruence. }
      destruct (Hthrow e0 H) as (new & H1 & H2 & H3).
      exists new. split; [exact H1|]. split; [exact H2|]. intros res Hr.
      destruct (H3 res Hr). }
  2:{ destruct (H400 "Error: No S3 channel provided"%string) as (new & H1 & -> & H3).
      exists []. split; [exact H1|]. split; [intros e H; destruct (H3 e H)|].
      intros res H. cbn [fst] in H. injection H as <-. cbn [status createResponse snd].
      split; [simpl; tauto|]. split; [reflexivity|].
      split; [split; [intros []|discriminate]|discriminate]. }
  destruct (S3.sw_file (world st)) as [file|].
  2:{ destruct (H400 "Error: No file provided"%string) as (new & H1 & -> & H3).
      exists []. split; [exact H1|]. split; [intros e H; destruct (H3 e H)|].
      intros res H. cbn [fst] in H. injection H as <-. cbn [status createResponse snd].
      split; [simpl; tauto|]. split; [reflexivity|].
      split; [split; [intros []|discriminate]|discriminate]. }
  destruct (s3_transfer_run args ch file uploadModerate st (world st))
    as (res & new & Hres & Hev & Hst & Hend & H200).
  exists new. split; [exact Hev|]. split; [intros e H; rewrite Hres in H; discriminate|].
  intros res' H. rewrite Hres in H. injection H as <-.
  split; [destruct Hst as [-> | ->]; simpl; tauto|].
  split; [intros E; destruct Hst as [H|H]; rewrite H in E; discriminate|].
  split; [exact Hend|]. intros E. destruct (H200 E) as [_ Hshape].
  destruct uploadModerate.
  - destruct Hshape as (label & Hm & Hnew). split.
    + rewrite Hm. unfold S3.describe. destruct (Discord.present _); reflexivity.
    + exists ch, file. eexists; eexists. split; [reflexivity|]. split; [reflexivity|].
      left. split; [reflexivity|]. exists label. split; assumption.
  - destruct Hshape as [Hm Hnew]. split.
    + rewrite Hm. unfold S3.describe. destruct (Discord.present _); reflexivity.
    + exists ch, file. eexists; eexists. split; [reflexivity|]. split; [reflexivity|].
      right. split; [reflexivity|]. split; assumption.
Qed.

(** The S3 upload throws exactly when a part of the configuration it reads
    without a test is missing. *)
Lemma uploadFileToS3_throws (args : UploadArgs) (st : Store S3.S3World) :
  (exists e, fst (S3.uploadFileToS3 args st) = Throw e) <->
  (S3.sw_upload (world st) = None \/
   S3.sw_settings (world st) = None \/
   exists s,
     S3.sw_settings (world st) = Some s /\
     (S3.ss_channels s = None \/
      exists channels,
        S3.ss_channels s = Some channels /\
        channelNamed S3.sc_name (specifiedChannelName st) channels = None /\
        S3.ss_loadBalance s = None)).
Proof.
  unfold S3.uploadFileToS3.
  destruct (S3.sw_upload (world st)) as [uploadModerate|];
    [|split; [intros _; left; reflexivity|intros _; eexists; reflexivity]].
  destruct (S3.sw_settings (world st)) as [s|];
    [|split; [intros _; right; left; reflexivity|intros _; eexists; reflexivity]].
  assert (Hsel : (exists e, S3.selectS3Channel s (specifiedChannelName st)
                                               (S3.sw_random (world st)) = Throw e) <->
                 (S3.ss_channels s = None \/
                  exists channels,
                    S3.ss_channels s = Some channels /\
                    channelNamed S3.sc_name (specifiedChannelName st) channels = None /\
                    S3.ss_loadBalance s = None)).
  { unfold S3.selectS3Channel.
    destruct (S3.ss_channels s) as [channels|];
      [|split; [intros _; left; reflexivity|intros _; eexists; reflexivity]].
    destruct (channelNamed S3.sc_name (specifiedChannelName st) channels) as [ch|] eqn:Hn.
    { split; [intros [e H]; discriminate|].
      intros [H|(c & Hc & H & _)]; [discriminate|]. injection Hc as <-. congruence. }
    destruct (S3.ss_loadBalance s) as [[|]|].
    - split; [intros [e H]; discriminate|].
      intros [H|(c & _ & _ & H)]; discriminate.
    - split; [intros [e H]; discriminate|].
      intros [H|(c & _ & _ & H)]; discriminate.
    - split; [|intros _; eexists; reflexivity].
      intros _. right. exists channels. repeat split. exact Hn. }
  assert (Hrun : (exists e,
                     fst (match S3.selectS3Channel s (specifiedChannelName st)
                                                   (S3.sw_random (world st)) with
                          | Throw e0 => (Throw e0, st)
                          | Ret None =>
                              (Ret (createResponse
                                      (TextBody "Error: No S3 channel provided") 400), st)
                          | Ret (Some s3Channel) =>
                              match S3.sw_file (world st) with
                              | None =>
                                  (Ret (createResponse
                                          (TextBody "Error: No file provided") 400), st)
                              | Some file =>
                                  S3.transfer args s3Channel file uploadModerate st (world st)
                              end
                          end) = Throw e) <->
                 (exists e, S3.selectS3Channel s (specifiedChannelName st)
                                               (S3.sw_random (world st)) = Throw e)).
  { destruct (S3.selectS3Channel s (specifiedChannelName st) (S3.sw_random (world st)))
      as [[ch|]|e0].
    - destruct (S3.sw_file (world st)) as [file|].
      + destruct (s3_transfer_run args ch file uploadModerate st (world st))
          as (res & new & Hres & _).
        rewrite Hres. split; intros [e H]; discriminate.
      + split; intros [e H]; discriminate.
    - split; intros [e H]; discriminate.
    - split; intros _; eexists; reflexivity. }
  rewrite Hrun, Hsel. split.
  - intros H. right. right. exists s. split; [reflexivity|exact H].
  - intros [H|[H|(s0 & Hs & H)]]; [discriminate|discriminate|].
    injection Hs as <-. exact H.
Qed.

(** X22.  The S3 upload throws exactly when the configuration lacks
    [securityConfig.upload], [uploadConfig.s3], its [channels], or, when no
    channel of the requested name is found, its [loadBalance]; what it
    throws is a TypeError, before anything is called.  Otherwise it answers
    200, 400 or 500, and with 400 nothing was called and the shared objects
    are unchanged.  The upload is ended exactly on status 200.  With
    moderation on, a successful upload writes the record twice: first
    without the label, then the cache is purged and moderation is asked
    through the site's own address, then the labelled record is written;
    with moderation off it is sent, written once and ended. *)
Theorem s3_outcomes (args : UploadArgs) (st : Store S3.S3World) :
  let out := S3.uploadFileToS3 args st in
  exists new,
    S3.sw_events (world (snd out)) = S3.sw_events (world st) ++ new /\
    ((exists e, fst out = Throw e) <->
     (S3.sw_upload (world st) = None \/
      S3.sw_settings (world st) = None \/
      exists s,
        S3.sw_settings (world st) = Some s /\
        (S3.ss_channels s = None \/
         exists channels,
           S3.ss_channels s = Some channels /\
           channelNamed S3.sc_name (specifiedChannelName st) channels = None /\
           S3.ss_loadBalance s = None))) /\
    (forall e, fst out = Throw e -> e = TypeError /\ snd out = st /\ new = []) /\
    (forall res,
        fst out = Ret res ->
        In (status res) [200; 400; 500] /\
        (status res = 400 -> snd out = st /\ new = []) /\
        (In (S3.EvEndUpload (fullId args)) new <-> status res = 200) /\
        (status res = 200 ->
         Channel (metadata (snd out)) = Some "S3"%string /\
         exists ch file m0 url,
           m0 = S3.describe ch (fullId args) (metadata st) /\
           url = ("https://" ++ S3.sw_hostname (world st) ++ "/file/" ++ fullId args)%string /\
           ((S3.sw_upload (world st) = Some true /\
             exists label,
               metadata (snd out) = setLabel label m0 /\
               new = [S3.EvSend (S3.sc_bucketName ch) (fullId args) (ftype file);
                      S3.EvDbPut (fullId args) m0; S3.EvPurge url; S3.EvModerate url;
                      S3.EvDbPut (fullId args) (setLabel label m0);
                      S3.EvEndUpload (fullId args)]) \/
            (S3.sw_upload (world st) = Some false /\
             metadata (snd out) = m0 /\
             new = [S3.EvSend (S3.sc_bucketName ch) (fullId args) (ftype file);
                    S3.EvDbPut (fullId args) m0; S3.EvEndUpload (fullId args)])))).
Proof.
  cbv zeta.
  destruct (uploadFileToS3_run args st) as (new & Hev & Hthrow & Hret).
  assert (Hnone : snd (S3.uploadFileToS3 args st) = st -> new = []).
  { intros Hst. rewrite Hst in Hev.
    rewrite <- (app_nil_r (S3.sw_events (world st))) in Hev at 1.
    apply app_inv_head in Hev. symmetry. exact Hev. }
  exists new. split; [exact Hev|]. split; [apply uploadFileToS3_throws|]. split.
  - intros e He. destruct (Hthrow e He) as [-> Hst]. split; [reflexivity|].
    split; [exact Hst|exact (Hnone Hst)].
  - intros res Hres. destruct (Hret res Hres) as (Hstatus & H400 & Hend & H200).
    split; [exact Hstatus|]. split; [|split; [exact Hend|exact H200]].
    intros E. split; [exact (H400 E)|exact (Hnone (H400 E))].
Qed.

(** * The HuggingFace upload *)

Lemma hf_finish_run (args : UploadArgs) (st : Store HuggingFace.HfWorld) (m : Metadata)
      (w : HuggingFace.HfWorld) :
  exists res,
    fst (HuggingFace.finish args st m w) = Ret res /\
    metadata (snd (HuggingFace.finish args st m w)) = m /\
    ((status res = 500 /\
      HuggingFace.hw_events (world (snd (HuggingFace.finish args st m w)))
      = HuggingFace.hw_events w ++ [HuggingFace.EvDbPut (fullId args) m]) \/
     (res = createResponse (SrcBody (returnLink args)) 200 /\
      HuggingFace.hw_events (world (snd (HuggingFace.finish args st m w)))
      = HuggingFace.hw_events w
        ++ [HuggingFace.EvDbPut (fullId args) m; HuggingFace.EvEndUpload (fullId args)])).
Proof.
  unfold HuggingFace.finish, HuggingFace.dbPut.
  destruct (HuggingFace.hw_dbPutFails w _); eexists;
    cbn [fst snd putStore world metadata HuggingFace.hw_events HuggingFace.emit status
         createResponse HuggingFace.dbFailed].
  - split; [reflexivity|]. split; [reflexivity|]. left. split; reflexivity.
  - split; [reflexivity|]. split; [reflexivity|]. right. rewrite <- app_assoc.
    split; reflexivity.
Qed.

(** A leaf of the [try] block that answers 500 without ending the upload. *)
Ltac hf_failure :=
  eexists; eexists;
  cbn [fst snd putStore world HuggingFace.hw_events HuggingFace.emit];
  rewrite <- ?app_assoc;
  split; [reflexivity|]; split; [reflexivity|];
  cbn [HuggingFace.uploadFailed HuggingFace.dbFailed status createResponse];
  split; [tauto|];
  split; [split; [intros H; simpl in H;
                  repeat (destruct H as [H|H]; [discriminate|]); contradiction
                 |discriminate]|];
  discriminate.

(** What the [try] block of the HuggingFace upload does, for every answer
    of the services. *)
Lemma hf_transfer_run (args : UploadArgs) (ch : HuggingFace.HfChannel)
      (token repo : string) (st : Store HuggingFace.HfWorld) (w : HuggingFace.HfWorld) :
  let out := HuggingFace.transfer args ch token repo st w in
  let url := ("https://" ++ HuggingFace.hw_hostname w ++ "/file/" ++ fullId args)%string in
  exists res new,
    fst out = Ret res /\
    HuggingFace.hw_events (world (snd out)) = HuggingFace.hw_events w ++ new /\
    (status res = 200 \/ status res = 500) /\
    (In (HuggingFace.EvEndUpload (fullId args)) new <-> status res = 200) /\
    (status res = 200 ->
     body res = SrcBody (returnLink args) /\
     exists sha fileUrl,
       let up := HuggingFace.EvUpload (fullId args)
                   ("Upload " ++ FileName (metadata st)) sha in
       let m0 := HuggingFace.describe ch token repo (fullId args) fileUrl (metadata st) in
       (HuggingFace.hw_moderate w = false /\
        metadata (snd out) = m0 /\
        new = [up; HuggingFace.EvDbPut (fullId args) m0;
               HuggingFace.EvEndUpload (fullId args)]) \/
       (HuggingFace.hw_moderate w = true /\ HuggingFace.isPrivateOf ch = false /\
        exists label,
          metadata (snd out) = setLabel label m0 /\
          new = [up; HuggingFace.EvModerate fileUrl;
                 HuggingFace.EvDbPut (fullId args) (setLabel label m0);
                 HuggingFace.EvEndUpload (fullId args)]) \/
       (HuggingFace.hw_moderate w = true /\ HuggingFace.isPrivateOf ch = true /\
        exists label,
          metadata (snd out) = setLabel label m0 /\
          new = [up; HuggingFace.EvDbPut (fullId args) m0; HuggingFace.EvPurge url;
                 HuggingFace.EvModerate url;
                 HuggingFace.EvDbPut (fullId args) (setLabel label m0);
                 HuggingFace.EvEndUpload (fullId args)])).
Proof.
  cbv zeta. unfold HuggingFace.transfer, HuggingFace.dbPut.
  cbn [HuggingFace.emit HuggingFace.hw_upload HuggingFace.hw_moderate
       HuggingFace.hw_sha256].
  destruct (HuggingFace.hw_upload w) as [message|result]; [hf_failure|].
  destruct (HuggingFace.hr_success result); cbn [negb]; [|hf_failure].
  destruct (HuggingFace.hw_moderate w) eqn:Hmod.
  - destruct (HuggingFace.isPrivateOf ch) eqn:Hp; cbn [negb].
    + cbn [HuggingFace.emit HuggingFace.hw_events HuggingFace.hw_dbPutFails].
      destruct (HuggingFace.hw_dbPutFails w _); [hf_failure|].
      cbn [HuggingFace.emit HuggingFace.hw_purge HuggingFace.hw_hostname].
      destruct (HuggingFace.hw_purge w) as [message|[]]; [hf_failure|].
      cbn [HuggingFace.emit HuggingFace.hw_moderateContent].
      destruct (HuggingFace.hw_moderateContent w _) as [message|label]; [hf_failure|].
      match goal with |- context [HuggingFace.finish args st ?m ?w0] =>
        destruct (hf_finish_run args st m w0) as (res & Hres & Hm & [[Hs Hev]|[Hr Hev]])
      end.
      * exists res. eexists. rewrite Hres, Hev.
        cbn [HuggingFace.hw_events HuggingFace.emit]. rewrite <- !app_assoc.
        split; [reflexivity|]. split; [reflexivity|]. rewrite Hs. split; [tauto|].
        split; [split; [intros H; simpl in H;
                        repeat (destruct H as [H|H]; [discriminate|]); contradiction
                       |discriminate]|].
        discriminate.
      * exists res. eexists. rewrite Hres, Hev, Hm.
        cbn [HuggingFace.hw_events HuggingFace.emit]. rewrite <- !app_assoc.
        split; [reflexivity|]. split; [reflexivity|]. rewrite Hr.
        cbn [status createResponse body].
        split; [tauto|]. split; [split; [reflexivity|intros _; simpl; tauto]|].
        intros _. split; [reflexivity|]. eexists; eexists. right. right.
        split; [reflexivity|]. split; [reflexivity|]. exists label. split; reflexivity.
    + cbn [HuggingFace.emit HuggingFace.hw_moderateContent].
      destruct (HuggingFace.hw_moderateContent w _) as [message|label]; [hf_failure|].
      match goal with |- context [HuggingFace.finish args st ?m ?w0] =>
        destruct (hf_finish_run args st m w0) as (res & Hres & Hm & [[Hs Hev]|[Hr Hev]])
      end.
      * exists res. eexists. rewrite Hres, Hev.
        cbn [HuggingFace.hw_events HuggingFace.emit]. rewrite <- !app_assoc.
        split; [reflexivity|]. split; [reflexivity|]. rewrite Hs. split; [tauto|].
        split; [split; [intros H; simpl in H;
                        repeat (destruct H as [H|H]; [discriminate|]); contradiction
                       |discriminate]|].
        discriminate.
      * exists res. eexists. rewrite Hres, Hev, Hm.
        cbn [HuggingFace.hw_events HuggingFace.emit]. rewrite <- !app_assoc.
        split; [reflexivity|]. split; [reflexivity|]. rewrite Hr.
        cbn [status createResponse body].
        split; [tauto|]. split; [split; [reflexivity|intros _; simpl; tauto]|].
        intros _. split; [reflexivity|]. eexists; eexists. right. left.
        split; [reflexivity|]. split; [reflexivity|]. exists label. split; reflexivity.
  - match goal with |- context [HuggingFace.finish args st ?m ?w0] =>
      destruct (hf_finish_run args st m w0) as (res & Hres & Hm & [[Hs Hev]|[Hr Hev]])
    end.
    + exists res. eexists. rewrite Hres, Hev.
      cbn [HuggingFace.hw_events HuggingFace.emit]. rewrite <- !app_assoc.
      split; [reflexivity|]. split; [reflexivity|]. rewrite Hs. split; [tauto|].
      split; [split; [intros H; simpl in H;
                      repeat (destruct H as [H|H]; [discriminate|]); contradiction
                     |discriminate]|].
      discriminate.
    + exists res. eexists. rewrite Hres, Hev, Hm.
      cbn [HuggingFace.hw_events HuggingFace.emit]. rewrite <- !app_assoc.
      split; [reflexivity|]. split; [reflexivity|]. rewrite Hr.
      cbn [status createResponse body].
      split; [tauto|]. split; [split; [reflexivity|intros _; simpl; tauto]|].
      intros _. split; [reflexivity|]. eexists; eexists. left.
      split; [reflexivity|]. split; reflexivity.
Qed.

(** X23.  The HuggingFace upload always answers, with status 200, 400 or
    500; on 400 nothing was called and nothing changed, and the upload is
    ended exactly on status 200.  A successful upload to a public
    repository is moderated at the file's own URL and written to the
    database once; one to a private repository is written first, then
    purged and moderated through the site's address, then written again
    with the label; without moderation the record is written once. *)
Theorem huggingface_outcomes (args : UploadArgs) (st : Store HuggingFace.HfWorld) :
  let out := HuggingFace.uploadFileToHuggingFace args st in
  let url :=
    ("https://" ++ HuggingFace.hw_hostname (world st) ++ "/file/" ++ fullId args)%string in
  exists res new,
    fst out = Ret res /\
    HuggingFace.hw_events (world (snd out)) = HuggingFace.hw_events (world st) ++ new /\
    In (status res) [200; 400; 500] /\
    (status res = 400 -> snd out = st) /\
    (In (HuggingFace.EvEndUpload (fullId args)) new <-> status res = 200) /\
    (status res = 200 ->
     body res = SrcBody (returnLink args) /\
     Channel (metadata (snd out)) = Some "HuggingFace"%string /\
     exists ch token repo sha fileUrl,
       let up := HuggingFace.EvUpload (fullId args)
                   ("Upload " ++ FileName (metadata st)) sha in
       let m0 := HuggingFace.describe ch token repo (fullId args) fileUrl (metadata st) in
       (HuggingFace.hw_moderate (world st) = false /\
        metadata (snd out) = m0 /\
        new = [up; HuggingFace.EvDbPut (fullId args) m0;
               HuggingFace.EvEndUpload (fullId args)]) \/
       (HuggingFace.hw_moderate (world st) = true /\
        HuggingFace.isPrivateOf ch = false /\
        exists label,
          metadata (snd out) = setLabel label m0 /\
          new = [up; HuggingFace.EvModerate fileUrl;
                 HuggingFace.EvDbPut (fullId args) (setLabel label m0);
                 HuggingFace.EvEndUpload (fullId args)]) \/
       (HuggingFace.hw_moderate (world st) = true /\
        HuggingFace.isPrivateOf ch = true /\
        exists label,
          metadata (snd out) = setLabel label m0 /\
          new = [up; HuggingFace.EvDbPut (fullId args) m0; HuggingFace.EvPurge url;
                 HuggingFace.EvModerate url;
                 HuggingFace.EvDbPut (fullId args) (setLabel label m0);
                 HuggingFace.EvEndUpload (fullId args)])).
Proof.
  cbv zeta. unfold HuggingFace.uploadFileToHuggingFace.
  assert (H400 : forall s : string,
             exists res new,
               fst (Ret (createResponse (TextBody s) 400), st) = Ret res /\
               HuggingFace.hw_events (world (snd (Ret (createResponse (TextBody s) 400), st)))
               = HuggingFace.hw_events (world st) ++ new /\
               status res = 400 /\ new = [] /\
               snd (Ret (createResponse (TextBody s) 400), st) = st).
  { intros s. eexists. exists []. rewrite app_nil_r. cbn [fst snd].
    split; [reflexivity|]. split; [reflexivity|]. split; [reflexivity|].
    split; reflexivity. }
  assert (Hquiet : forall s : string,
             exists res new,
               fst (Ret (createResponse (TextBody s) 400), st) = Ret res /\
               HuggingFace.hw_events (world (snd (Ret (createResponse (TextBody s) 400), st)))
               = HuggingFace.hw_events (world st) ++ new /\
               In (status res) [200; 400; 500] /\
               (status res = 400 -> snd (Ret (createResponse (TextBody s) 400), st) = st) /\
               (In (HuggingFace.EvEndUpload (fullId args)) new <-> status res = 200) /\
               (status res = 200 -> False)).
  { intros s. destruct (H400 s) as (res & new & H1 & H2 & H3 & -> & H5).
    exists res, []. split; [exact H1|]. split; [exact H2|]. rewrite H3.
    split; [simpl; tauto|]. split; [intros _; exact H5|].
    split; [split; [intros []|discriminate]|discriminate]. }
  assert (Hlift : forall out : outcome Response * Store HuggingFace.HfWorld,
             (exists res new,
                 fst out = Ret res /\
                 HuggingFace.hw_events (world (snd out))
                 = HuggingFace.hw_events (world st) ++ new /\
                 In (status res) [200; 400; 500] /\
                 (status res = 400 -> snd out = st) /\
                 (In (HuggingFace.EvEndUpload (fullId args)) new <-> status res = 200) /\
                 (status res = 200 -> False)) ->
             exists res new,
               fst out = Ret res /\
               HuggingFace.hw_events (world (snd out))
               = HuggingFace.hw_events (world st) ++ new /\
               In (status res) [200; 400; 500] /\
               (status res = 400 -> snd out = st) /\
               (In (HuggingFace.EvEndUpload (fullId args)) new <-> status res = 200) /\
               (status res = 200 ->
                body res = SrcBody (returnLink args) /\
                Channel (metadata (snd out)) = Some "HuggingFace"%string /\
                exists ch token repo sha fileUrl,
                  (HuggingFace.hw_moderate (world st) = false /\
                   metadata (snd out)
                   = HuggingFace.describe ch token repo (fullId args) fileUrl (metadata st) /\
                   new = [HuggingFace.EvUpload (fullId args)
                            ("Upload " ++ FileName (metadata st)) sha;
                          HuggingFace.EvDbPut (fullId args)
                            (HuggingFace.describe ch token repo (fullId args) fileUrl
                                                  (metadata st));
                          HuggingFace.EvEndUpload (fullId args)]) \/
                  (HuggingFace.hw_moderate (world st) = true /\
                   HuggingFace.isPrivateOf ch = false /\
                   exists label,
                     metadata (snd out)
                     = setLabel label
                         (HuggingFace.describe ch token repo (fullId args) fileUrl
                                               (metadata st)) /\
                     new = [HuggingFace.EvUpload (fullId args)
                              ("Upload " ++ FileName (metadata st)) sha;
                            HuggingFace.EvModerate fileUrl;
                            HuggingFace.EvDbPut (fullId args)
                              (setLabel label
                                 (HuggingFace.describe ch token repo (fullId args) fileUrl
                                                       (metadata st)));
                            HuggingFace.EvEndUpload (fullId args)]) \/
                  (HuggingFace.hw_moderate (world st) = true /\
                   HuggingFace.isPrivateOf ch = true /\
                   exists label,
                     metadata (snd out)
                     = setLabel label
                         (HuggingFace.describe ch token repo (fullId args) fileUrl
                                               (metadata st)) /\
                     new = [HuggingFace.EvUpload (fullId args)
                              ("Upload " ++ FileName (metadata st)) sha;
                            HuggingFace.EvDbPut (fullId args)
                              (HuggingFace.describe ch token repo (fullId args) fileUrl
                                                    (metadata st));
                            HuggingFace.EvPurge
                              ("https://" ++ HuggingFace.hw_hostname (world st)
                               ++ "/file/" ++ fullId args);
                            HuggingFace.EvModerate
                              ("https://" ++ HuggingFace.hw_hostname (world st)
                               ++ "/file/" ++ fullId args);
                            HuggingFace.EvDbPut (fullId args)
                              (setLabel label
                                 (HuggingFace.describe ch token repo (fullId args) fileUrl
                                                       (metadata st)));
                            HuggingFace.EvEndUpload (fullId args)]))).
  { intros out (res & new & H1 & H2 & H3 & H4 & H5 & H6).
    exists res, new. repeat (split; [assumption|]). intros E. destruct (H6 E). }
  destruct (HuggingFace.hw_settings (world st)) as [settings|];
    [|apply Hlift, Hquiet].
  destruct (HuggingFace.hs_channels settings) as [[|c0 cs]|];
    try (apply Hlift, Hquiet).
  destruct (HuggingFace.selectHfChannel _ _ _ _) as [ch|]; [|apply Hlift, Hquiet].
  destruct (Discord.present (HuggingFace.hc_token ch)
            && Discord.present (HuggingFace.hc_repo ch)); [|apply Hlift, Hquiet].
  destruct (hf_transfer_run args ch
              (Discord.orDefault (HuggingFace.hc_token ch) EmptyString)
              (Discord.orDefault (HuggingFace.hc_repo ch) EmptyString) st (world st))
    as (res & new & Hres & Hev & Hst & Hend & H200).
  exists res, new. split; [exact Hres|]. split; [exact Hev|].
  split; [destruct Hst as [-> | ->]; simpl; tauto|].
  split; [intros E; destruct Hst as [H|H]; rewrite H in E; discriminate|].
  split; [exact Hend|]. intros E. destruct (H200 E) as (Hb & sha & fileUrl & Hshape).
  split; [exact Hb|]. cbv zeta in Hshape. split.
  - destruct Hshape as [(_ & -> & _)|[(_ & _ & label & -> & _)|(_ & _ & label & -> & _)]];
      reflexivity.
  - exists ch. eexists; eexists. exists sha, fileUrl. exact Hshape.
Qed.

(** * The entry point *)

Section EntryFacts.

Variable W : Type.
Variable uploadFileToCloudflareR2 : Uploader W.
Variable uploadFileToS3 : Uploader W.
Variable uploadFileToTelegram : Uploader W.
Variable uploadFileToExternal : Uploader W.
Variable uploadFileToDiscord : Uploader W.
Variable uploadFileToHuggingFace : Uploader W.
Variable JSON_src : string -> string.
Variable JSON_dict : Dict -> string.
Variable userAuthCheck : W -> Request -> bool.
Variable UnauthorizedResponse : string -> Response.
Variable isBlockedUploadIp : W -> string -> bool.
Variable parseInt : option string -> jsnum.
Variable handleCleanupRequest : Request -> option string -> jsnum -> W -> outcome Response.
Variable initializeChunkedUpload : Request -> W -> outcome Response.
Variable handleChunkMerge : Request -> W -> outcome Response.
Variable handleChunkUpload : Request -> W -> outcome Response.

Local Abbreviation onRequest' :=
  (onRequest W uploadFileToCloudflareR2 uploadFileToS3 uploadFileToTelegram
             uploadFileToExternal uploadFileToDiscord uploadFileToHuggingFace
             JSON_src JSON_dict userAuthCheck UnauthorizedResponse isBlockedUploadIp
             parseInt handleCleanupRequest initializeChunkedUpload handleChunkMerge
             handleChunkUpload).
Local Abbreviation processFileUpload' :=
  (processFileUpload W uploadFileToCloudflareR2 uploadFileToS3 uploadFileToTelegram
                     uploadFileToExternal uploadFileToDiscord uploadFileToHuggingFace
                     JSON_src JSON_dict).

(** X24.  A request reaches an upload function of this file only when the
    permission check passed, the address is not blocked and none of
    [cleanup], [initChunked] and [chunked] is the text [true]; it is then
    handled as a plain upload, whatever [merge] says.  A request without
    permission gets the refusal, also from a blocked address. *)
Theorem uploads_need_permission (req : Request) (w : W) :
  (snd (snd (onRequest' req w)) <> [] ->
   userAuthCheck w req = true /\
   isBlockedUploadIp w (req_uploadIp req) = false /\
   spGet (req_searchParams req) "cleanup" <> Some "true"%string /\
   spGet (req_searchParams req) "initChunked" <> Some "true"%string /\
   spGet (req_searchParams req) "chunked" <> Some "true"%string /\
   onRequest' req w = processFileUpload' req w) /\
  (userAuthCheck w req = false ->
   onRequest' req w = (Ret (UnauthorizedResponse "Unauthorized"), (None, []))) /\
  (userAuthCheck w req = true ->
   isBlockedUploadIp w (req_uploadIp req) = true ->
   onRequest' req w
   = (Ret (createResponse (TextBody "Error: Your IP is blocked") 403), (None, []))).
Proof.
  assert (Hflag : forall sp name, isTrue sp name = false -> spGet sp name <> Some "true"%string).
  { intros sp name H E. unfold isTrue in H. rewrite E in H. discriminate. }
  unfold onRequest. split; [|split].
  - destruct (userAuthCheck w req); cbn [negb]; [|intros H; exfalso; apply H; reflexivity].
    destruct (isBlockedUploadIp w (req_uploadIp req));
      [intros H; exfalso; apply H; reflexivity|].
    destruct (isTrue (req_searchParams req) "cleanup") eqn:Hc;
      [intros H; exfalso; apply H; reflexivity|].
    destruct (isTrue (req_searchParams req) "initChunked") eqn:Hi;
      [intros H; exfalso; apply H; reflexivity|].
    destruct (isTrue (req_searchParams req) "chunked") eqn:Hk.
    + destruct (isTrue (req_searchParams req) "merge");
        intros H; exfalso; apply H; reflexivity.
    + intros _. repeat split; auto.
  - intros ->. reflexivity.
  - intros -> ->. reflexivity.
Qed.

End EntryFacts.

(** * A file too large for Discord, in a whole request *)


Section DiscordInARequest.

Variable uploadFileToCloudflareR2 : Uploader Discord.DiscordWorld.
Variable uploadFileToS3 : Uploader Discord.DiscordWorld.
Variable uploadFileToTelegram : Uploader Discord.DiscordWorld.
Variable uploadFileToExternal : Uploader Discord.DiscordWorld.
Variable uploadFileToHuggingFace : Uploader Discord.DiscordWorld.
Variable JSON_src : string -> string.
Variable JSON_dict : Dict -> string.

Local Abbreviation W := Discord.DiscordWorld.
Local Abbreviation processFileUpload' :=
  (processFileUpload W uploadFileToCloudflareR2 uploadFileToS3 uploadFileToTelegram
                     uploadFileToExternal Discord.uploadFileToDiscord
                     uploadFileToHuggingFace JSON_src JSON_dict).


End DiscordInARequest.

